(** * Sub-tomogram extraction and half-set averaging (parakeet.analyse._extract)

    A shallow embedding of [_extract_Config] and [average_extracted_particles]
    of [src/parakeet/analyse/_extract.py], and the properties of the
    specification that they decide; then the file interface of
    [src/elfantasma/io.py] and the reconstruction driver of
    [src/parakeet/analyse/reconstruct.py], with the properties their code
    shows.

    Conventions.
    - Python exceptions are values of [exn]; a computation that may raise
      returns a [result].
    - NumPy scalars (float32 / float64) are an abstract type [F] with the
      operations the source applies to them ([FloatOps]); no law of real
      arithmetic is assumed of them unless a theorem states it.  [binary64]
      instantiates the interface with the kernel's IEEE 754 doubles.
    - The process-wide generators (Python's [random], NumPy's [np.random])
      are explicit state, threaded through the calls that read them. *)

From Stdlib Require Import ZArith Lia Floats Uint63 Sorted Ascii.
From stdpp Require Import base list strings gmap.


(** ** Exceptions and results *)

(** The [assert] statements of the two functions, by what they test. *)
Inductive assertion : Type :=
  | VoxelSizePositive      (* assert voxel_size[0] > 0 *)
  | VoxelSizeXY            (* assert voxel_size[0] == voxel_size[1] *)
  | VoxelSizeXZ            (* assert voxel_size[0] == voxel_size[2] *)
  | OneMolecule            (* assert sample.number_of_molecules == 1 *)
  | PositionsOrientations  (* assert len(positions) == len(orientations) *)
  | HalfNumParticles       (* assert half_num_particles > 0 *)
  | NumParticlesInStore.   (* assert num_particles <= data.shape[0] *)

Inductive exn : Type :=
  | AssertionError (a : assertion)
  | ValueError
  | IndexError
  | TypeError
  | OverflowError
  | OutOfBoundsError.

Inductive result (A : Type) : Type :=
  | Ok (a : A)
  | Raise (e : exn).
Arguments Ok {A} a.
Arguments Raise {A} e.

#[global] Instance result_ret : MRet result := fun _ a => Ok a.
#[global] Instance result_bind : MBind result := fun _ _ f r =>
  match r with
  | Ok a => f a
  | Raise e => Raise e
  end.

#[global] Instance result_fmap : FMap result := fun _ _ f r =>
  match r with
  | Ok a => Ok (f a)
  | Raise e => Raise e
  end.

(** [assert c], raising [AssertionError] at site [a] when [c] is false. *)
Definition py_assert (a : assertion) (c : bool) : result unit :=
  if c then Ok tt else Raise (AssertionError a).

Definition is_ok {A} (r : result A) : bool :=
  match r with Ok _ => true | Raise _ => false end.

(** [r] is not a failure of one of the assertions singled out by [pre]. *)
Definition not_raising (pre : assertion -> bool) {A} (r : result A) : Prop :=
  match r with
  | Raise (AssertionError a) => pre a = false
  | _ => True
  end.

(** ** NumPy scalars *)

(** What [math.ceil] makes of a scalar: an integer, or one of its two
    refusals. *)
Inductive ceiling : Type :=
  | Ceiling (n : Z)
  | CeilingOfNan          (* ValueError: cannot convert float NaN to integer *)
  | CeilingOfInfinity.    (* OverflowError: cannot convert float infinity *)

(** [int(math.ceil(x))] *)
Definition int_ceil (c : ceiling) : result Z :=
  match c with
  | Ceiling n => Ok n
  | CeilingOfNan => Raise ValueError
  | CeilingOfInfinity => Raise OverflowError
  end.

Record FloatOps (F : Type) : Type := {
  fzero : F;                       (* 0.0, the fill value of np.zeros *)
  fone : F;                        (* 1 *)
  ftwo : F;                        (* 2.0 *)
  fadd : F -> F -> F;              (* x + y *)
  fsub : F -> F -> F;              (* x - y *)
  fmul : F -> F -> F;              (* x * y *)
  fdiv : F -> F -> F;              (* x / y *)
  fsqr : F -> F;                   (* x ** 2 *)
  fsqrt : F -> F;                  (* math.sqrt(x) *)
  fceil : F -> ceiling;            (* math.ceil(x) *)
  fgtb : F -> F -> bool;           (* x > y *)
  fltb : F -> F -> bool;           (* x < y *)
  feqb : F -> F -> bool;           (* x == y *)
  fof_Z : Z -> F;                  (* an array dimension as a scalar *)
  fmin : list F -> F;              (* column.min() *)
  fmax : list F -> F;              (* column.max() *)
  ffloat32 : F -> F;               (* x as a float32 dataset stores it *)
}.
Arguments fzero {F} _.
Arguments fone {F} _.
Arguments ftwo {F} _.
Arguments fadd {F} _ _ _.
Arguments fsub {F} _ _ _.
Arguments fmul {F} _ _ _.
Arguments fdiv {F} _ _ _.
Arguments fsqr {F} _ _.
Arguments fsqrt {F} _ _.
Arguments fceil {F} _ _.
Arguments fgtb {F} _ _ _.
Arguments fltb {F} _ _ _.
Arguments feqb {F} _ _ _.
Arguments fof_Z {F} _ _.
Arguments fmin {F} _ _.
Arguments fmax {F} _ _.
Arguments ffloat32 {F} _ _.

(** ** Arrays, the particle store and the averaged volumes *)

(** A three-dimensional array: its shape and its values in row-major order. *)
Record ndarray (F : Type) : Type := {
  shape : nat * nat * nat;
  values : list F;
}.
Arguments shape {F} _.
Arguments values {F} _.

Definition volume (s : nat * nat * nat) : nat :=
  let '(a, b, c) := s in a * b * c.

(** The HDF5 particle file: [handle["voxel_size"]] and the dataset
    [handle["data"]] of shape [(N,) + data_shape], one flattened cube per
    row; N is [length (data f)]. *)
Record H5File (F : Type) : Type := {
  voxel_size : F * F * F;
  data_shape : nat * nat * nat;
  data : list (list F);
}.
Arguments voxel_size {F} _.
Arguments data_shape {F} _.
Arguments data {F} _.

(** Every row of the dataset has the dataset's cube shape. *)
Definition store_wf {F} (f : H5File F) : Prop :=
  Forall (fun c => length c = volume (data_shape f)) (data f).

(** An MRC file written by [mrcfile.new]: [set_data] and [voxel_size]. *)
Record MrcFile (F : Type) : Type := {
  mrc_data : ndarray F;
  mrc_voxel_size : F * F * F;
}.
Arguments mrc_data {F} _.
Arguments mrc_voxel_size {F} _.

(** ** The random generators *)

(** NumPy's global generator, as far as the source uses it: a state and
    [np.random.choice(range(pop), size=size, replace=False)], which returns
    the sample (or raises) and leaves the generator in a new state. *)
Record NumpyRandom : Type := {
  rng : Type;
  choice : rng -> nat -> nat -> result (list nat) * rng;
}.

(** The documented contract of sampling without replacement: [size] distinct
    members of the population, and [ValueError] when the population is too
    small. *)
Definition samples_without_replacement (R : NumpyRandom) : Prop :=
  forall g pop size,
    (size <= pop ->
       exists l, (choice R g pop size).1 = Ok l
                 /\ length l = size /\ NoDup l /\ Forall (fun i => i < pop) l)
    /\ (pop < size -> (choice R g pop size).1 = Raise ValueError).

(** The interpreter's generators.  [py_random] is the state of Python's
    [random] module ([None]: seeded by the system at start-up), and
    [np_random] the state of [np.random]. *)
Record Generators (R : NumpyRandom) : Type := {
  py_random : option Z;
  np_random : rng R;
}.
Arguments py_random {R} _.
Arguments np_random {R} _.

(** [random.seed(s)] *)
Definition random_seed {R} (s : Z) (w : Generators R) : Generators R :=
  {| py_random := Some s; np_random := np_random w |}.

(** The module body, run at import: [random.seed(0)]. *)
Definition import_module {R} (w : Generators R) : Generators R :=
  random_seed 0%Z w.

(** *** A reference generator

    NumPy's legacy [RandomState.choice] without replacement takes the first
    [size] entries of [permutation(pop)], a Fisher-Yates shuffle of
    [arange(pop)] that draws [j = rk_interval(i)] in [0, i] for
    [i = pop-1 .. 1] and swaps [x[i]] and [x[j]].  The generator itself is
    abstracted to the sequence of its future raw outputs. *)
Module Shuffle.

Definition state : Type := list nat.

(** A draw in [[0, max]]: the next raw output, reduced modulo [max + 1]
    (NumPy masks and redraws instead, which changes the outputs consumed,
    not the range); an exhausted sequence yields 0. *)
Definition rk_interval (max : nat) (g : state) : nat * state :=
  match g with
  | [] => (0, [])
  | r :: g' => (r mod S max, g')
  end.

Definition swap (x : list nat) (i j : nat) : list nat :=
  match x !! i, x !! j with
  | Some a, Some b => <[j := a]> (<[i := b]> x)
  | _, _ => x
  end.

Fixpoint shuffle (i : nat) (x : list nat) (g : state) : list nat * state :=
  match i with
  | 0 => (x, g)
  | S i' => let '(j, g') := rk_interval i g in shuffle i' (swap x i j) g'
  end.

Definition permutation (n : nat) (g : state) : list nat * state :=
  shuffle (n - 1) (seq 0 n) g.

Definition choice (g : state) (pop size : nat) : result (list nat) * state :=
  if decide (size <= pop) then
    let '(p, g') := permutation pop g in (Ok (take size p), g')
  else (Raise ValueError, g).

End Shuffle.

Definition shuffle_random : NumpyRandom :=
  {| rng := Shuffle.state; choice := Shuffle.choice |}.

(** ** [average_extracted_particles] *)

Section Average.
Context {F : Type} (ops : FloatOps F) (R : NumpyRandom).

(** [np.zeros(s)], flattened. *)
Definition zeros (s : nat * nat * nat) : list F :=
  replicate (volume s) (fzero ops).

(** [a += b] on two arrays of one shape. *)
Definition iadd (a b : list F) : list F := zip_with (fadd ops) a b.

(** Lines 199-200: [None] and non-positive requests mean every particle. *)
Definition effective_num_particles (num_particles : option Z) (N : nat) : Z :=
  match num_particles with
  | None => Z.of_nat N
  | Some n => if (n <=? 0)%Z then Z.of_nat N else n
  end.

(** Line 213: [[indices[:half_num_particles], indices[half_num_particles:]]]. *)
Definition split_indices (half_num_particles : nat) (indices : list nat)
  : list (list nat) :=
  [take half_num_particles indices; drop half_num_particles indices].

(** Lines 223-224, the body of the inner loop: the accumulators are the
    array [half] of shape [(2,) + data.shape[1:]] and the counters [num]. *)
Definition add_particle (dat : list (list F)) (half_index : nat)
    (acc : list (list F) * list F) (particle_index : nat)
  : result (list (list F) * list F) :=
  let '(half, num) := acc in
  match dat !! particle_index with
  | Some cube =>
      Ok (alter (fun h => iadd h cube) half_index half,
          alter (fun n => fadd ops n (fone ops)) half_index num)
  | None => Raise IndexError
  end.

(** Line 218: [for i, particle_index in enumerate(particle_indices)]. *)
Fixpoint sum_particles (dat : list (list F)) (half_index : nat)
    (acc : list (list F) * list F) (particle_indices : list nat)
  : result (list (list F) * list F) :=
  match particle_indices with
  | [] => Ok acc
  | particle_index :: rest =>
      acc' ← add_particle dat half_index acc particle_index;
      sum_particles dat half_index acc' rest
  end.

(** Line 217: [for half_index, particle_indices in enumerate(indices)]. *)
Fixpoint sum_halves (dat : list (list F)) (half_index : nat)
    (acc : list (list F) * list F) (indices : list (list nat))
  : result (list (list F) * list F) :=
  match indices with
  | [] => Ok acc
  | particle_indices :: rest =>
      acc' ← sum_particles dat half_index acc particle_indices;
      sum_halves dat (S half_index) acc' rest
  end.

(** Lines 229-232: [if num[h] > 0: half[h] = half[h] / num[h]]. *)
Definition average_half (h : nat) (num : list F) (half : list (list F))
  : list (list F) :=
  match num !! h with
  | Some n =>
      if fgtb ops n (fzero ops)
      then alter (fun c => (fun x => fdiv ops x n) <$> c) h half
      else half
  | None => half
  end.

(** Lines 236-242: [mrcfile.new], [set_data(half[h])], [voxel_size]. *)
Definition save_half (particles : H5File F) (half : list (list F)) (h : nat)
  : MrcFile F :=
  {| mrc_data := {| shape := data_shape particles;
                    values := default [] (half !! h) |};
     mrc_voxel_size := voxel_size particles |}.

(** Lines 205-242 once the indices are drawn. *)
Definition average_indices (particles : H5File F) (half_num_particles : nat)
    (indices : list nat) : result (MrcFile F * MrcFile F) :=
  let half := [zeros (data_shape particles); zeros (data_shape particles)] in
  let num := [fzero ops; fzero ops] in
  let indices := split_indices half_num_particles indices in
  '(half, num) ← sum_halves (data particles) 0 (half, num) indices;
  let half := average_half 0 num half in
  let half := average_half 1 num half in
  Ok (save_half particles half 0, save_half particles half 1).

(** The whole function.  The file names are left out: the two MRC files are
    the result.  [g] is the state of [np.random] at the call. *)
Definition average_extracted_particles (particles : H5File F)
    (num_particles : option Z) (g : rng R)
  : result (MrcFile F * MrcFile F) * rng R :=
  let N := length (data particles) in
  let num_particles := effective_num_particles num_particles N in
  let half_num_particles := (num_particles / 2)%Z in
  match py_assert HalfNumParticles (0 <? half_num_particles)%Z with
  | Raise e => (Raise e, g)
  | Ok _ =>
  match py_assert NumParticlesInStore (num_particles <=? Z.of_nat N)%Z with
  | Raise e => (Raise e, g)
  | Ok _ =>
  match choice R g N (Z.to_nat num_particles) with
  | (Raise e, g') => (Raise e, g')
  | (Ok indices, g') =>
      (average_indices particles (Z.to_nat half_num_particles) indices, g')
  end end end.

(** *** The mean of a half, in the specification's words (section 4.5)

    "Accumulate an elementwise running sum per half, then divide by each
    half's count to produce the mean cube."  [voxel particles i k] is entry
    [k] of stored cube [i]; the sum runs over the members in the order they
    were drawn, starting from zero, and the count is what counting the
    members one by one from zero gives. *)
Definition voxel (particles : H5File F) (i k : nat) : F :=
  default (fzero ops) (data particles !! i ≫= (.!! k)).

Definition running_sum (xs : list F) : F := foldl (fadd ops) (fzero ops) xs.

Definition count (n : nat) : F :=
  Nat.iter n (fun c => fadd ops c (fone ops)) (fzero ops).

Definition mean_voxel (particles : H5File F) (members : list nat) (k : nat) : F :=
  fdiv ops (running_sum ((fun i => voxel particles i k) <$> members))
           (count (length members)).

Definition mean_cube (particles : H5File F) (members : list nat) : ndarray F :=
  {| shape := data_shape particles;
     values := mean_voxel particles members
                 <$> seq 0 (volume (data_shape particles)) |}.

(** *** What is made of a group of indices (lines 216-242)

    [group_sum particles members] is what a half accumulates: zeros of the
    cube shape, to which the stored cubes at [members] are added one by one
    in that order.  [group_average] is that sum divided by the count of the
    members when the count compares greater than zero, and the sum itself
    otherwise (lines 229-232); [half_map] is the file written for the
    group, with the store's voxel size. *)
Definition group_sum (particles : H5File F) (members : list nat) : list F :=
  foldl iadd (zeros (data_shape particles))
    ((fun i => default [] (data particles !! i)) <$> members).

Definition group_average (particles : H5File F) (members : list nat) : list F :=
  let n := count (length members) in
  if fgtb ops n (fzero ops)
  then (fun x => fdiv ops x n) <$> group_sum particles members
  else group_sum particles members.

Definition half_map (particles : H5File F) (members : list nat) : MrcFile F :=
  {| mrc_data := {| shape := data_shape particles;
                    values := group_average particles members |};
     mrc_voxel_size := voxel_size particles |}.

(** [num_particles: int = 0] *)
Definition default_num_particles : option Z := Some 0%Z.

End Average.

(** A run of the program: the module is imported, which seeds Python's
    [random], and the averaging is called. *)
Definition run_average {F} (ops : FloatOps F) {R : NumpyRandom}
    (w : Generators R) (particles : H5File F) (num_particles : option Z)
  : result (MrcFile F * MrcFile F) :=
  let w := import_module w in
  (average_extracted_particles ops R particles num_particles (np_random w)).1.

(** ** [_extract_Config] *)

(** The inputs: the sample's molecules and the reconstruction read by
    [mrcfile.mmap]. *)
Record Atoms (F : Type) : Type := {
  atoms_x : list F;
  atoms_y : list F;
  atoms_z : list F;
}.
Arguments atoms_x {F} _.
Arguments atoms_y {F} _.
Arguments atoms_z {F} _.

(** One item of [sample.iter_molecules()], without its name:
    [(atoms, positions, orientations)]. *)
Record Molecule (F O : Type) : Type := {
  atoms : Atoms F;
  positions : list (F * F * F);
  orientations : list O;
}.
Arguments atoms {F O} _.
Arguments positions {F O} _.
Arguments orientations {F O} _.

Record Sample (F O : Type) : Type := {
  centre : F * F * F;
  molecules : list (Molecule F O);
}.
Arguments centre {F O} _.
Arguments molecules {F O} _.

(** [sample.number_of_molecules] *)
Definition number_of_molecules {F O} (sample : Sample F O) : nat :=
  length (molecules sample).

Record TomoFile (F : Type) : Type := {
  tomo_data : ndarray F;
  tomo_voxel_size : F * F * F;
}.
Arguments tomo_data {F} _.
Arguments tomo_voxel_size {F} _.

(** The arguments of one extraction task, as [_iterate_particles] packs
    them. *)
Record Task (F O : Type) : Type := {
  task_half_index : nat;
  task_particle_index : nat;
  task_position : F * F * F;
  task_orientation : O;
  task_centre : F * F * F;
  task_size : F * F * F;
  task_half_length : Z;
  task_shape : Z * Z * Z;
  task_voxel_size : F * F * F;
  task_tomogram : ndarray F;
}.
Arguments task_half_index {F O} _.
Arguments task_particle_index {F O} _.
Arguments task_position {F O} _.
Arguments task_orientation {F O} _.
Arguments task_centre {F O} _.
Arguments task_size {F O} _.
Arguments task_half_length {F O} _.
Arguments task_shape {F O} _.
Arguments task_voxel_size {F O} _.
Arguments task_tomogram {F O} _.

(** [for x in l: acc = body(acc, x)], stopping at the first exception. *)
Fixpoint for_each {A S} (body : S -> A -> result S) (acc : S) (l : list A)
  : result S :=
  match l with
  | [] => Ok acc
  | x :: l' => acc' ← body acc x; for_each body acc' l'
  end.

(** [[f(x) for x in l]], stopping at the first exception. *)
Fixpoint traverse {A B} (f : A -> result B) (l : list A) : result (list B) :=
  match l with
  | [] => Ok []
  | x :: l' => y ← f x; ys ← traverse f l'; Ok (y :: ys)
  end.

Section Extract.
Context {F O : Type} (ops : FloatOps F).

(** The y coordinate of a position, [x[0][1]] in the sort key. *)
Definition pos_y (p : F * F * F) : F := p.1.2.

(** Lines 105-129. *)
Definition half_length (voxel_size : F * F * F) (atoms : Atoms F)
    (particle_size : Z) : result Z :=
  let '(vx, vy, vz) := voxel_size in
  let xmin := fmin ops (atoms_x atoms) in
  let xmax := fmax ops (atoms_x atoms) in
  let ymin := fmin ops (atoms_y atoms) in
  let ymax := fmax ops (atoms_y atoms) in
  let zmin := fmin ops (atoms_z atoms) in
  let zmax := fmax ops (atoms_z atoms) in
  let xc := fdiv ops (fadd ops xmax xmin) (ftwo ops) in
  let yc := fdiv ops (fadd ops ymax ymin) (ftwo ops) in
  let zc := fdiv ops (fadd ops zmax zmin) (ftwo ops) in
  if (particle_size =? 0)%Z then
    c ← int_ceil
          (fceil ops
             (fsqrt ops
                (fadd ops
                   (fadd ops (fsqr ops (fdiv ops (fsub ops xmin xc) vx))
                             (fsqr ops (fdiv ops (fsub ops ymin yc) vy)))
                   (fsqr ops (fdiv ops (fsub ops zmin zc) vz)))));
    Ok (c + 1)%Z
  else Ok (particle_size / 2)%Z.

(** *** The half length in the specification's words (section 4.1)

    "[half_length = particle_size // 2] if an explicit particle size is
    given; otherwise [ceil(sqrt(sum over the axes of ((extent_min -
    centroid) / voxel_size) squared)) + 1]", the centroid of an axis being
    the midpoint of its atomic extent. *)
Definition midpoint (lo hi : F) : F := fdiv ops (fadd ops hi lo) (ftwo ops).

Definition axis_term (column : list F) (voxel : F) : F :=
  let lo := fmin ops column in
  let hi := fmax ops column in
  fsqr ops (fdiv ops (fsub ops lo (midpoint lo hi)) voxel).

Definition sum_axes (tx ty tz : F) : F := fadd ops (fadd ops tx ty) tz.

Definition spec_half_length (voxel_size : F * F * F) (atoms : Atoms F)
    (particle_size : Z) : result Z :=
  if decide (particle_size <> 0%Z) then Ok (particle_size / 2)%Z
  else
    c ← int_ceil
          (fceil ops
             (fsqrt ops
                (sum_axes (axis_term (atoms_x atoms) voxel_size.1.1)
                          (axis_term (atoms_y atoms) voxel_size.1.2)
                          (axis_term (atoms_z atoms) voxel_size.2))));
    Ok (c + 1)%Z.

(** [sorted(l, key=key)]: a stable sort that compares keys with [<] only.
    Inserting each element before the first one that is not smaller keeps
    equal keys in their order. *)
Fixpoint insert_by {A} (key : A -> F) (x : A) (l : list A) : list A :=
  match l with
  | [] => [x]
  | y :: l' =>
      if fltb ops (key y) (key x) then y :: insert_by key x l' else x :: l
  end.

Fixpoint sorted {A} (key : A -> F) (l : list A) : list A :=
  match l with
  | [] => []
  | x :: l' => insert_by key x (sorted key l')
  end.

(** Lines 143-145: sort the pairs by the y of the position and unzip them.
    Unpacking [zip( * [])] into two names raises [ValueError]. *)
Definition sort_particles (positions : list (F * F * F)) (orientations : list O)
  : result (list (F * F * F) * list O) :=
  match sorted (fun x => pos_y x.1) (zip positions orientations) with
  | [] => Raise ValueError
  | l => Ok (l.*1, l.*2)
  end.

(** Lines 151-155: [h5py.File(extract_file, "w")], the voxel size and an
    empty, growable dataset of cubes of [shape]; a negative dimension is
    refused.  (Whether the library also refuses an empty cube is left
    open: the model lets it through, which only adds runs to those the
    theorems about finished runs cover.)  The result is the file of a run
    that goes on; what a run that fails here or later leaves on disk (the
    file is created, or an old one truncated, at line 151, before anything
    can be refused) is not part of the model, and no theorem speaks of
    it. *)
Definition create_store (voxel_size : F * F * F) (shape : Z * Z * Z)
  : result (H5File F) :=
  let '(a, b, c) := shape in
  if ((0 <=? a) && (0 <=? b) && (0 <=? c))%Z then
    Ok {| voxel_size := voxel_size;
          data_shape := (Z.to_nat a, Z.to_nat b, Z.to_nat c);
          data := [] |}
  else Raise ValueError.

(** Writing array [a] into a selection of shape [target]: each dimension of
    [a] is the selection's or 1 (then its single entry is repeated);
    anything else cannot be broadcast. *)
Definition broadcast_index (s t i : nat) : nat := if decide (s = t) then i else 0.

Definition broadcast_to (target : nat * nat * nat) (a : ndarray F)
  : result (list F) :=
  let '(t0, t1, t2) := target in
  let '(s0, s1, s2) := shape a in
  if decide ((s0 = t0 \/ s0 = 1) /\ (s1 = t1 \/ s1 = 1) /\ (s2 = t2 \/ s2 = 1))
  then
    Ok (i ← seq 0 t0; j ← seq 0 t1; k ← seq 0 t2;
        [default (fzero ops)
           (values a !! ((broadcast_index s0 t0 i * s1 + broadcast_index s1 t1 j) * s2
                          + broadcast_index s2 t2 k))])
  else Raise TypeError.

(** Lines 175-177, the body of the loop over the completed tasks:
    [data_handle.resize(num + 1, axis=0)], [data_handle[num, :, :, :] = data],
    [num += 1].  The dataset was created without a dtype (line 153), so it
    is float32, and the write converts the broadcast cube to it. *)
Definition append_particle (st : H5File F * nat) (res : nat * ndarray F)
  : result (H5File F * nat) :=
  let '(handle, num) := st in
  let '(half_index, dat) := res in
  let rows := resize (num + 1) (zeros ops (data_shape handle)) (data handle) in
  row ← broadcast_to (data_shape handle) dat;
  Ok ({| voxel_size := voxel_size handle;
         data_shape := data_shape handle;
         data := <[num := (ffloat32 ops <$> row : list F)]> rows |}, num + 1).

End Extract.

Section ExtractRun.
Context {F O : Type} (ops : FloatOps F).

(** Modelled from the spec: the CoordinateMapper's voxel centre of a particle
    (section 4.1).  Its code, in [parakeet.analyse._average_particles], is not
    among the sources and the specification gives no formula, so it is a
    parameter. *)
Variable voxel_centre : Task F O -> Z * Z * Z.

(** Modelled from the spec: [_iterate_particles], imported from
    [parakeet.analyse._average_particles].  One task per particle index of
    [indices], carrying that particle's position and orientation and the
    shared arguments (section 4.3). *)
Definition _iterate_particles (indices : list (list nat))
    (positions : list (F * F * F)) (orientations : list O)
    (centre size : F * F * F) (half_length : Z) (shape : Z * Z * Z)
    (voxel_size : F * F * F) (tomogram : ndarray F)
  : result (list (Task F O)) :=
  traverse
    (fun '(half_index, particle_index) =>
       match positions !! particle_index, orientations !! particle_index with
       | Some p, Some o =>
           Ok {| task_half_index := half_index;
                 task_particle_index := particle_index;
                 task_position := p;
                 task_orientation := o;
                 task_centre := centre;
                 task_size := size;
                 task_half_length := half_length;
                 task_shape := shape;
                 task_voxel_size := voxel_size;
                 task_tomogram := tomogram |}
       | _, _ => Raise IndexError
       end)
    ('(half_index, particle_indices) ← imap pair indices;
     pair half_index <$> particle_indices).

(** Modelled from the spec: the VolumeSampler (section 4.2), the copy of the
    window [[c - half_length, c + half_length)] on each axis into a dense
    cube, or [OutOfBoundsError] when a window leaves the volume. *)
Definition tomogram_at (tomogram : ndarray F) (i j k : nat) : F :=
  let '(n0, n1, n2) := shape tomogram in
  default (fzero ops) (values tomogram !! ((i * n1 + j) * n2 + k)).

Definition in_window (c half_length : Z) (n : nat) : bool :=
  ((0 <=? c - half_length) && (c + half_length <=? Z.of_nat n))%Z.

Definition sample_volume (tomogram : ndarray F) (c : Z * Z * Z) (half_length : Z)
  : result (ndarray F) :=
  let '(n0, n1, n2) := shape tomogram in
  let '(c0, c1, c2) := c in
  let L := Z.to_nat (2 * half_length) in
  if in_window c0 half_length n0 && in_window c1 half_length n1
     && in_window c2 half_length n2
  then
    Ok {| shape := (L, L, L);
          values := i ← seq (Z.to_nat (c0 - half_length)) L;
                    j ← seq (Z.to_nat (c1 - half_length)) L;
                    k ← seq (Z.to_nat (c2 - half_length)) L;
                    [tomogram_at tomogram i j k] |}
  else Raise OutOfBoundsError.

(** Modelled from the spec: [_process_sub_tomo], imported from
    [parakeet.analyse._average_particles]: the stateless task
    [task(...) -> (index, cube)] of section 4.3. *)
Definition _process_sub_tomo (t : Task F O) : result (nat * ndarray F) :=
  cube ← sample_volume (task_tomogram t) (voxel_centre t) (task_half_length t);
  Ok (task_half_index t, cube).

(** Modelled from the spec: [lazy_map], imported from
    [parakeet.analyse._average_particles].  The pool hands the results back
    as the tasks finish; [completion] lists the tasks' numbers in the order
    they finished, and the first failure met aborts the run (section 4.3). *)
Definition lazy_map {A B} (completion : list nat) (f : A -> result B)
    (tasks : list A) : result (list B) :=
  traverse
    (fun i => match tasks !! i with
              | Some t => f t
              | None => Raise IndexError
              end)
    completion.

(** Lines 103-178, the body of the loop over the molecules. *)
Definition extract_molecule (completion : list nat) (centre size : F * F * F)
    (voxel_size : F * F * F) (tomogram : ndarray F) (particle_size : Z)
    (m : Molecule F O) : result (H5File F) :=
  half_length ← half_length ops voxel_size (atoms m) particle_size;
  let box := (2 * half_length)%Z in
  _ ← py_assert PositionsOrientations
        (length (positions m) =? length (orientations m));
  let shape := (box, box, box) in
  '(positions, orientations) ← sort_particles ops (positions m) (orientations m);
  let indices := [seq 0 (length positions)] in
  handle ← create_store voxel_size shape;
  tasks ← _iterate_particles indices positions orientations centre size
            half_length shape voxel_size tomogram;
  results ← lazy_map completion _process_sub_tomo tasks;
  '(handle, num) ← for_each (append_particle ops) (handle, 0) results;
  Ok handle.

(** The whole function.  The result is the particle file left on disk by
    the last molecule ([None] if the loop body never ran). *)
Definition _extract_Config (completion : list nat) (sample : Sample F O)
    (tomo_file : TomoFile F) (particle_size : Z) : result (option (H5File F)) :=
  let centre := centre sample in
  let tomogram := tomo_data tomo_file in
  let voxel_size := tomo_voxel_size tomo_file in
  let '(vx, vy, vz) := voxel_size in
  _ ← py_assert VoxelSizePositive (fgtb ops vx (fzero ops));
  _ ← py_assert VoxelSizeXY (feqb ops vx vy);
  _ ← py_assert VoxelSizeXZ (feqb ops vx vz);
  let '(n0, n1, n2) := shape tomogram in
  let size := (fmul ops (fof_Z ops (Z.of_nat n2)) vx,
               fmul ops (fof_Z ops (Z.of_nat n0)) vy,
               fmul ops (fof_Z ops (Z.of_nat n1)) vz) in
  _ ← py_assert OneMolecule (number_of_molecules sample =? 1);
  for_each
    (fun _ m =>
       Some <$> extract_molecule completion centre size voxel_size tomogram
                  particle_size m)
    None (molecules sample).

(** The four assertions of lines 95-101. *)
Definition is_precondition (a : assertion) : bool :=
  match a with
  | VoxelSizePositive | VoxelSizeXY | VoxelSizeXZ | OneMolecule => true
  | _ => false
  end.

(** What they ask for: one molecule species, and a voxel size that is
    greater than zero on the first axis and equal to it on the other two. *)
Definition extract_precondition (sample : Sample F O) (tomo_file : TomoFile F)
  : Prop :=
  number_of_molecules sample = 1
  /\ fgtb ops (tomo_voxel_size tomo_file).1.1 (fzero ops) = true
  /\ feqb ops (tomo_voxel_size tomo_file).1.1 (tomo_voxel_size tomo_file).1.2 = true
  /\ feqb ops (tomo_voxel_size tomo_file).1.1 (tomo_voxel_size tomo_file).2 = true.

(** Ascending order of scalars compared with [<]: no element is smaller
    than an earlier one. *)
Definition ascending (ys : list F) : Prop :=
  StronglySorted (fun a b => fltb ops b a = false) ys.

(** [<] orders the scalars [ys] (as it does floats that are not nan):
    of two, one is not smaller than the other, and "not smaller" is
    transitive. *)
Definition ordered_by_lt (ys : list F) : Prop :=
  (forall a b, a ∈ ys -> b ∈ ys -> fltb ops a b = false \/ fltb ops b a = false)
  /\ (forall a b c, a ∈ ys -> b ∈ ys -> c ∈ ys ->
        fltb ops b a = false -> fltb ops c b = false -> fltb ops c a = false).

End ExtractRun.

(** ** IEEE 754 doubles as NumPy scalars *)

(** [math.ceil(x)] on the exact value [(-1)^s * m * 2^e] of a finite
    double. *)
Definition float_ceil (x : float) : ceiling :=
  match Prim2SF x with
  | S754_zero _ => Ceiling 0%Z
  | S754_finite s m e =>
      let n := match e with
               | Z0 => Zpos m
               | Zpos p => (Zpos m * 2 ^ Zpos p)%Z
               | Zneg p =>
                   if s then (Zpos m / 2 ^ Zpos p)%Z
                   else (- ((- Zpos m) / 2 ^ Zpos p))%Z
               end in
      Ceiling (if s then (- n)%Z else n)
  | S754_nan => CeilingOfNan
  | S754_infinity _ => CeilingOfInfinity
  end.

(** The minimum and maximum of a column; of an empty one, nan. *)
Definition float_min (l : list float) : float :=
  match l with
  | [] => nan
  | x :: l' => foldl (fun a b => if PrimFloat.ltb b a then b else a) x l'
  end.

Definition float_max (l : list float) : float :=
  match l with
  | [] => nan
  | x :: l' => foldl (fun a b => if PrimFloat.ltb a b then b else a) x l'
  end.

(** The nearest float32, as a double. *)
Definition to_float32 (x : float) : float :=
  match Prim2SF x with
  | S754_finite s m e => SF2Prim (binary_round 24 128 s m e)
  | _ => x
  end.

Definition binary64 : FloatOps float := {|
  fzero := 0%float;
  fone := 1%float;
  ftwo := 2%float;
  fadd := PrimFloat.add;
  fsub := PrimFloat.sub;
  fmul := PrimFloat.mul;
  fdiv := PrimFloat.div;
  fsqr := fun x => PrimFloat.mul x x;
  fsqrt := PrimFloat.sqrt;
  fceil := float_ceil;
  fgtb := fun x y => PrimFloat.ltb y x;
  fltb := PrimFloat.ltb;
  feqb := PrimFloat.eqb;
  fof_Z := fun z => PrimFloat.of_uint63 (Uint63.of_Z z);
  fmin := float_min;
  fmax := float_max;
  ffloat32 := to_float32;
|}.

(** ** Test data *)

Module Data.

(** A cube of 2 x 2 x 2 voxels that all hold [v]. *)
Definition constant_cube (v : float) : list float := replicate 8 v.

(** A store of five particles, the cubes of 1.0 .. 5.0. *)
Definition store5 : H5File float := {|
  voxel_size := (1%float, 1%float, 1%float);
  data_shape := (2, 2, 2);
  data := constant_cube <$> [1%float; 2%float; 3%float; 4%float; 5%float];
|}.

(** A store of two particles, the cubes of 1.0 and 3.0. *)
Definition store2 : H5File float := {|
  voxel_size := (1%float, 1%float, 1%float);
  data_shape := (2, 2, 2);
  data := constant_cube <$> [1%float; 3%float];
|}.

(** The MRC file of a constant cube, with voxel size 1. *)
Definition constant_map (v : float) : MrcFile float :=
  {| mrc_data := {| shape := (2, 2, 2); values := constant_cube v |};
     mrc_voxel_size := (1%float, 1%float, 1%float) |}.

(** Two interpreters at start-up that differ only in the state NumPy's
    generator was given by the system. *)
Definition world_a : Generators shuffle_random :=
  {| py_random := None; np_random := ([0] : rng shuffle_random) |}.
Definition world_b : Generators shuffle_random :=
  {| py_random := None; np_random := ([1] : rng shuffle_random) |}.

(** A 4 x 4 x 4 reconstruction whose voxels hold 0.0 .. 63.0 in row-major
    order, with voxel size 1. *)
Definition tomo : TomoFile float := {|
  tomo_data := {| shape := (4, 4, 4);
                  values := (fun i => PrimFloat.of_uint63 (Uint63.of_Z (Z.of_nat i)))
                              <$> seq 0 64 |};
  tomo_voxel_size := (1%float, 1%float, 1%float);
|}.

(** One molecule whose atoms span 6 x 8 x 0, at three places given out of
    order in y; the orientations are labels. *)
Definition molecule : Molecule float nat := {|
  atoms := {| atoms_x := [0%float; 6%float];
              atoms_y := [8%float; 0%float];
              atoms_z := [0%float; 0%float] |};
  positions := [(0%float, 3%float, 0%float);
                (0%float, 1%float, 0%float);
                (0%float, 2%float, 0%float)];
  orientations := [30; 10; 20];
|}.

Definition sample : Sample float nat :=
  {| centre := (0%float, 0%float, 0%float); molecules := [molecule] |}.

(** A sample with no molecule, and a reconstruction with unequal voxel
    sizes. *)
Definition empty_sample : Sample float nat :=
  {| centre := (0%float, 0%float, 0%float); molecules := [] |}.

Definition skewed_tomo : TomoFile float :=
  {| tomo_data := tomo_data tomo;
     tomo_voxel_size := (1%float, 1%float, 2%float) |}.

(** Voxel centres for the three particles, all inside the reconstruction
    for a half length of 1. *)
Definition centre_of (t : Task float nat) : Z * Z * Z :=
  (2, 2, 1 + Z.of_nat (task_particle_index t))%Z.

(** The tasks finish in the order 2, 0, 1. *)
Definition completion : list nat := [2; 0; 1].

(** The particle file expected of the run on [sample] and [tomo] with a
    particle size of 2: the windows of tasks 2, 0 and 1, in that order. *)
Definition extracted : H5File float := {|
  voxel_size := (1%float, 1%float, 1%float);
  data_shape := (2, 2, 2);
  data := [[22%float; 23%float; 26%float; 27%float;
            38%float; 39%float; 42%float; 43%float];
           [20%float; 21%float; 24%float; 25%float;
            36%float; 37%float; 40%float; 41%float];
           [21%float; 22%float; 25%float; 26%float;
            37%float; 38%float; 41%float; 42%float]];
|}.

End Data.

(** A species that has atoms but no particle, and the sample of it. *)
Module Species.

Definition bare : Molecule float nat :=
  {| atoms := atoms Data.molecule; positions := []; orientations := [] |}.

Definition bare_sample : Sample float nat :=
  {| centre := (0%float, 0%float, 0%float); molecules := [bare] |}.

End Species.

(** * File names: [elfantasma.io] and [parakeet.analyse.reconstruct]

    The file interface chooses a writer or a reader by the extension of the
    file name, and the reconstruction driver checks the extension of its
    input and derives the name of a scratch file.  Both go through
    [os.path], modelled here as [posixpath] defines it, on strings of 8-bit
    characters. *)

(** ** Python strings *)

(** A string literal as a Python [str]. *)
Definition str (s : string) : list ascii := String.list_ascii_of_string s.

(** [p.rfind(c)] for a single character [c]: the last index at which [c]
    stands, or -1. *)
Fixpoint rfind (c : ascii) (p : list ascii) : Z :=
  match p with
  | [] => -1
  | x :: p' =>
      let r := rfind c p' in
      if (0 <=? r)%Z then (r + 1)%Z
      else if decide (x = c) then 0%Z else (-1)%Z
  end.

(** [c.lower()] for an ASCII character: the letters A-Z become a-z.
    Beyond ASCII, [str.lower] follows Unicode (and is not a map of single
    characters), which this is not; the facts that compare lowered names
    are stated for ASCII names. *)
Definition lower_char (c : ascii) : ascii :=
  let n := nat_of_ascii c in
  if (65 <=? n) && (n <=? 90) then ascii_of_nat (n + 32) else c.

(** [s.lower()] *)
Definition lower (s : list ascii) : list ascii := lower_char <$> s.

(** Names made of ASCII characters only. *)
Definition is_ascii (c : ascii) : bool := nat_of_ascii c <? 128.

Definition ascii_only (s : list ascii) : bool := forallb is_ascii s.

(** [s.rstrip("/")] *)
Fixpoint rstrip_sep (s : list ascii) : list ascii :=
  match s with
  | [] => []
  | c :: s' =>
      match rstrip_sep s' with
      | [] => if decide (c = "/"%char) then [] else [c]
      | r => c :: r
      end
  end.

(** [s.startswith("/")] and [s.endswith("/")] *)
Definition startswith_sep (s : list ascii) : bool :=
  match s with
  | c :: _ => bool_decide (c = "/"%char)
  | [] => false
  end.

Definition endswith_sep (s : list ascii) : bool :=
  match last s with
  | Some c => bool_decide (c = "/"%char)
  | None => false
  end.

(** ** [os.path] *)

Module Posixpath.

(** The loop of [genericpath._splitext] that skips the leading dots of the
    last component: [remaining] is [dotIndex - filenameIndex]. *)
Fixpoint skip_leading_dots (p : list ascii) (dotIndex filenameIndex remaining : nat)
  : list ascii * list ascii :=
  match remaining with
  | 0 => (p, [])
  | S remaining' =>
      if decide (p !! filenameIndex = Some "."%char)
      then skip_leading_dots p dotIndex (S filenameIndex) remaining'
      else (take dotIndex p, drop dotIndex p)
  end.

(** [os.path.splitext(p)]: the extension is what follows the last dot of
    the last component, the dot included, unless that component has nothing
    but dots before it. *)
Definition splitext (p : list ascii) : list ascii * list ascii :=
  let sepIndex := rfind "/"%char p in
  let dotIndex := rfind "."%char p in
  if (sepIndex <? dotIndex)%Z then
    let filenameIndex := Z.to_nat (sepIndex + 1) in
    skip_leading_dots p (Z.to_nat dotIndex) filenameIndex
      (Z.to_nat dotIndex - filenameIndex)
  else (p, []).

(** [os.path.dirname(p)] *)
Definition dirname (p : list ascii) : list ascii :=
  let i := Z.to_nat (rfind "/"%char p + 1) in
  let head := take i p in
  if bool_decide (head <> []) && bool_decide (head <> replicate (length head) "/"%char)
  then rstrip_sep head
  else head.

(** [os.path.join(a, b)] *)
Definition join (a b : list ascii) : list ascii :=
  if startswith_sep b then b
  else if bool_decide (a = []) || endswith_sep a then a ++ b
  else a ++ "/"%char :: b.

End Posixpath.

(** ** Exceptions of the two modules *)

Inductive io_assertion : Type :=
  | ReaderAngle        (* assert len(angle) == data.shape[0] *)
  | ReaderPosition     (* assert len(position) == data.shape[0] *)
  | MrcExttyp          (* assert handle.header.exttyp == b"FEI1" *)
  | MrcExtendedDtype   (* assert handle.extended_header.dtype == FEI_... *)
  | MrcExtendedLength  (* assert extended_header.shape[0] == data.shape[0] *)
  | ImageIsMrc.        (* assert os.path.splitext(image_filename)[1] == ".mrc" *)

Inductive io_exn : Type :=
  | IoAssertionError (a : io_assertion)
  | IoIndexError
  | IoValueError
  | IoOverflowError
  | IoOSError
  | KeyError (key : string)
  | RuntimeError (filename : list ascii).  (* File with unknown extension *)

Inductive outcome (A : Type) : Type :=
  | Return (a : A)
  | Throw (e : io_exn).
Arguments Return {A} a.
Arguments Throw {A} e.

#[global] Instance outcome_ret : MRet outcome := fun _ a => Return a.
#[global] Instance outcome_bind : MBind outcome := fun _ _ f r =>
  match r with
  | Return a => f a
  | Throw e => Throw e
  end.

Definition io_assert (a : io_assertion) (c : bool) : outcome unit :=
  if c then Return tt else Throw (IoAssertionError a).

(** [for x in l: acc = body(acc, x)], stopping at the first exception. *)
Fixpoint io_for_each {A S} (body : S -> A -> outcome S) (acc : S) (l : list A)
  : outcome S :=
  match l with
  | [] => Return acc
  | x :: l' => acc' ← body acc x; io_for_each body acc' l'
  end.

(** An integer index into an axis of length [n], as NumPy reads it:
    negative indices count from the end, anything outside [[-n, n)] is an
    [IndexError]. *)
Definition numpy_index (n : nat) (j : Z) : outcome nat :=
  if ((0 <=? j) && (j <? Z.of_nat n))%Z then Return (Z.to_nat j)
  else if ((- Z.of_nat n <=? j) && (j <? 0))%Z then Return (Z.to_nat (j + Z.of_nat n))
  else Throw IoIndexError.

(** ** MRC files with an FEI extended header *)

(** One row of the extended header, as far as the module touches it. *)
Record FeiRow (F : Type) : Type := {
  tilt_axis_angle : F;
  x_stage : F;
  y_stage : F;
  z_stage : F;
}.
Arguments tilt_axis_angle {F} _.
Arguments x_stage {F} _.
Arguments y_stage {F} _.
Arguments z_stage {F} _.

Inductive header_dtype : Type :=
  | FEI_EXTENDED_HEADER_DTYPE
  | OtherDtype.

#[global] Instance header_dtype_eq_dec : EqDecision header_dtype.
Proof. solve_decision. Defined.

(** An open MRC file: [header.exttyp], the extended header (a
    one-dimensional array, so the assertion on its number of dimensions
    cannot fail and is left out) with its dtype, and [data.shape]. *)
Record MrcHandle (F : Type) : Type := {
  handle_filename : list ascii;
  handle_exttyp : string;
  handle_dtype : header_dtype;
  handle_extended_header : list (FeiRow F);
  handle_shape : nat * nat * nat;
}.
Arguments handle_filename {F} _.
Arguments handle_exttyp {F} _.
Arguments handle_dtype {F} _.
Arguments handle_extended_header {F} _.
Arguments handle_shape {F} _.

(** What is assigned through a position proxy: [position[j] = data] with a
    sequence, or [position[j, i] = d] with a scalar. *)
Inductive assignment (F : Type) : Type :=
  | SetRow (j : Z) (data : list F)
  | SetEntry (j i : Z) (d : F).
Arguments SetRow {F} j data.
Arguments SetEntry {F} j i d.

(** [MrcFileWriter]: the handle, which the two proxies share, and the
    number of rows of the index grids the position proxy made at its
    creation. *)
Record MrcFileWriter (F : Type) : Type := {
  writer_handle : MrcHandle F;
  writer_rows : nat;
}.
Arguments writer_handle {F} _.
Arguments writer_rows {F} _.

(** [NexusWriter]: the datasets of the NXtomo entry, and the rows of the
    position proxy's grids. *)
Record NexusWriter (F : Type) : Type := {
  nexus_filename : list ascii;
  nexus_shape : nat * nat * nat;
  image_key : list F;
  rotation_angle : list F;
  x_translation : list F;
  y_translation : list F;
  z_translation : list F;
  nexus_rows : nat;
}.
Arguments nexus_filename {F} _.
Arguments nexus_shape {F} _.
Arguments image_key {F} _.
Arguments rotation_angle {F} _.
Arguments x_translation {F} _.
Arguments y_translation {F} _.
Arguments z_translation {F} _.
Arguments nexus_rows {F} _.

(** [ImageWriter]: the data proxy's template, shape and range, and the
    dummy angle and position arrays. *)
Record ImageWriter (F : Type) : Type := {
  image_template : list ascii;
  image_shape : nat * nat * nat;
  image_vmin : option F;
  image_vmax : option F;
  image_angle : list F;
  image_position : list (F * F * F);
}.
Arguments image_template {F} _.
Arguments image_shape {F} _.
Arguments image_vmin {F} _.
Arguments image_vmax {F} _.
Arguments image_angle {F} _.
Arguments image_position {F} _.

Inductive Writer (F : Type) : Type :=
  | WriterMrc (w : MrcFileWriter F)
  | WriterNexus (w : NexusWriter F)
  | WriterImage (w : ImageWriter F).
Arguments WriterMrc {F} w.
Arguments WriterNexus {F} w.
Arguments WriterImage {F} w.

(** [Reader]: [data.shape] stands for the data, which the module only
    passes on. *)
Record Reader (F : Type) : Type := {
  reader_shape : nat * nat * nat;
  reader_angle : list F;
  reader_position : list (F * F * F);
}.
Arguments reader_shape {F} _.
Arguments reader_angle {F} _.
Arguments reader_position {F} _.

(** ** [elfantasma.io] *)

Module Io.
Section Io.
Context {F : Type} (ops : FloatOps F).

(** The conversions to the dtypes of the stores: the FEI header's fields are
    float64; the reader's arrays and the NeXus datasets are float32. *)
Variable float64 : F -> F.
Variable float32 : F -> F.

(** [mrcfile.mmap(filename, "r")], and [Reader.from_nexus], whose checks
    compare what h5py returns for a string with a [str] and so depend on
    the h5py at hand: both are taken as they come. *)
Variable mrcfile_mmap : list ascii -> outcome (MrcHandle F).
Variable from_nexus : list ascii -> outcome (Reader F).

(** The index grids of a position proxy,
    [numpy.meshgrid(numpy.arange(0, 3), numpy.arange(0, n))]: [x[j][i] = i]
    and [y[j][i] = j], for [n] rows. *)
Definition mesh_x (n : nat) : list (list nat) := replicate n (seq 0 3).
Definition mesh_y (n : nat) : list (list nat) := (fun j => replicate 3 j) <$> seq 0 n.

(** [PositionProxy.__setitem__], which the MRC and the NeXus writer spell
    out alike but for [setitem_internal]: the grids turn the item into row
    and column numbers; a row of them is walked with [zip], an entry is set
    at once. *)
Definition position_setitem {S} (setitem_internal : S -> nat -> nat -> F -> outcome S)
    (n : nat) (store : S) (a : assignment F) : outcome S :=
  match a with
  | SetRow item data =>
      j ← numpy_index n item;
      match mesh_x n !! j, mesh_y n !! j with
      | Some x, Some y =>
          io_for_each (fun st '(j, i, d) => setitem_internal st j i d) store
            (zip (zip y x) data)
      | _, _ => Throw IoIndexError
      end
  | SetEntry item0 item1 d =>
      j ← numpy_index n item0;
      i ← numpy_index 3 item1;
      match mesh_x n !! j ≫= (.!! i), mesh_y n !! j ≫= (.!! i) with
      | Some x, Some y => setitem_internal store y x d
      | _, _ => Throw IoIndexError
      end
  end.

(** *** [MrcFileWriter] *)

Definition zero_row : FeiRow F :=
  {| tilt_axis_angle := fzero ops; x_stage := fzero ops;
     y_stage := fzero ops; z_stage := fzero ops |}.

(** [handle.extended_header[j][field] = d] for a row number [j]. *)
Definition set_row (update : FeiRow F -> FeiRow F) (j : nat) (handle : MrcHandle F)
  : outcome (MrcHandle F) :=
  match handle_extended_header handle !! j with
  | Some row =>
      Return {| handle_filename := handle_filename handle;
                handle_exttyp := handle_exttyp handle;
                handle_dtype := handle_dtype handle;
                handle_extended_header :=
                  <[j := update row]> (handle_extended_header handle);
                handle_shape := handle_shape handle |}
  | None => Throw IoIndexError
  end.

Definition set_tilt (d : F) (r : FeiRow F) : FeiRow F :=
  {| tilt_axis_angle := float64 d; x_stage := x_stage r;
     y_stage := y_stage r; z_stage := z_stage r |}.
Definition set_x (d : F) (r : FeiRow F) : FeiRow F :=
  {| tilt_axis_angle := tilt_axis_angle r; x_stage := float64 d;
     y_stage := y_stage r; z_stage := z_stage r |}.
Definition set_y (d : F) (r : FeiRow F) : FeiRow F :=
  {| tilt_axis_angle := tilt_axis_angle r; x_stage := x_stage r;
     y_stage := float64 d; z_stage := z_stage r |}.
Definition set_z (d : F) (r : FeiRow F) : FeiRow F :=
  {| tilt_axis_angle := tilt_axis_angle r; x_stage := x_stage r;
     y_stage := y_stage r; z_stage := float64 d |}.

(** [MrcFileWriter.__init__]: a new file of [shape] with one zeroed row of
    extended header per image, marked "FEI1". *)
Definition MrcFileWriter_init (filename : list ascii) (shape : nat * nat * nat)
  : MrcFileWriter F :=
  {| writer_handle :=
       {| handle_filename := filename;
          handle_exttyp := "FEI1";
          handle_dtype := FEI_EXTENDED_HEADER_DTYPE;
          handle_extended_header := replicate shape.1.1 zero_row;
          handle_shape := shape |};
     writer_rows := shape.1.1 |}.

(** [AngleProxy.__setitem__] with an integer item. *)
Definition angle_setitem (w : MrcFileWriter F) (item : Z) (data : F)
  : outcome (MrcFileWriter F) :=
  j ← numpy_index (length (handle_extended_header (writer_handle w))) item;
  handle ← set_row (set_tilt data) j (writer_handle w);
  Return {| writer_handle := handle; writer_rows := writer_rows w |}.

(** [MrcFileWriter.PositionProxy.__setitem__] *)
Definition mrc_setitem_internal (handle : MrcHandle F) (j i : nat) (d : F)
  : outcome (MrcHandle F) :=
  if i =? 0 then set_row (set_x d) j handle
  else if i =? 1 then set_row (set_y d) j handle
  else if i =? 2 then set_row (set_z d) j handle
  else Return handle.

Definition mrc_position_setitem (w : MrcFileWriter F) (a : assignment F)
  : outcome (MrcFileWriter F) :=
  handle ← position_setitem mrc_setitem_internal (writer_rows w) (writer_handle w) a;
  Return {| writer_handle := handle; writer_rows := writer_rows w |}.

(** *** [NexusWriter] *)

(** [NexusWriter.__init__]: the datasets of the entry, zero-filled. *)
Definition NexusWriter_init (filename : list ascii) (shape : nat * nat * nat)
  : NexusWriter F :=
  let n := shape.1.1 in
  {| nexus_filename := filename;
     nexus_shape := shape;
     image_key := replicate n (fzero ops);
     rotation_angle := replicate n (fzero ops);
     x_translation := replicate n (fzero ops);
     y_translation := replicate n (fzero ops);
     z_translation := replicate n (fzero ops);
     nexus_rows := n |}.

(** [dataset[j] = d] on a float32 dataset. *)
Definition set_dataset (dataset : list F) (j : nat) (d : F) : outcome (list F) :=
  if j <? length dataset then Return (<[j := float32 d]> dataset)
  else Throw IoIndexError.

(** [NexusWriter.PositionProxy.__setitem__] *)
Definition nexus_setitem_internal (w : NexusWriter F) (j i : nat) (d : F)
  : outcome (NexusWriter F) :=
  if i =? 0 then
    x ← set_dataset (x_translation w) j d;
    Return {| nexus_filename := nexus_filename w; nexus_shape := nexus_shape w;
              image_key := image_key w; rotation_angle := rotation_angle w;
              x_translation := x; y_translation := y_translation w;
              z_translation := z_translation w; nexus_rows := nexus_rows w |}
  else if i =? 1 then
    y ← set_dataset (y_translation w) j d;
    Return {| nexus_filename := nexus_filename w; nexus_shape := nexus_shape w;
              image_key := image_key w; rotation_angle := rotation_angle w;
              x_translation := x_translation w; y_translation := y;
              z_translation := z_translation w; nexus_rows := nexus_rows w |}
  else if i =? 2 then
    z ← set_dataset (z_translation w) j d;
    Return {| nexus_filename := nexus_filename w; nexus_shape := nexus_shape w;
              image_key := image_key w; rotation_angle := rotation_angle w;
              x_translation := x_translation w; y_translation := y_translation w;
              z_translation := z; nexus_rows := nexus_rows w |}
  else Return w.

Definition nexus_position_setitem (w : NexusWriter F) (a : assignment F)
  : outcome (NexusWriter F) :=
  position_setitem nexus_setitem_internal (nexus_rows w) w a.

(** *** [ImageWriter] *)

(** [ImageWriter.__init__] *)
Definition ImageWriter_init (template : list ascii) (shape : nat * nat * nat)
    (vmin vmax : option F) : ImageWriter F :=
  {| image_template := template;
     image_shape := shape;
     image_vmin := vmin;
     image_vmax := vmax;
     image_angle := replicate shape.1.1 (fzero ops);
     image_position := replicate shape.1.1 (fzero ops, fzero ops, fzero ops) |}.

(** *** [Reader] *)

(** [Reader.__init__] *)
Definition Reader_init (shape : nat * nat * nat) (angle : list F)
    (position : list (F * F * F)) : outcome (Reader F) :=
  _ ← io_assert ReaderAngle (length angle =? shape.1.1);
  _ ← io_assert ReaderPosition (length position =? shape.1.1);
  Return {| reader_shape := shape; reader_angle := angle;
            reader_position := position |}.

(** [array[i] = v] on a NumPy array. *)
Definition set_array {A} (array : list A) (i : nat) (v : A) : outcome (list A) :=
  if i <? length array then Return (<[i := v]> array) else Throw IoIndexError.

(** [Reader.from_mrcfile] *)
Definition from_mrcfile (filename : list ascii) : outcome (Reader F) :=
  handle ← mrcfile_mmap filename;
  let header := handle_extended_header handle in
  let n := (handle_shape handle).1.1 in
  _ ← io_assert MrcExttyp (bool_decide (handle_exttyp handle = "FEI1"));
  _ ← io_assert MrcExtendedDtype
        (bool_decide (handle_dtype handle = FEI_EXTENDED_HEADER_DTYPE));
  _ ← io_assert MrcExtendedLength (length header =? n);
  angle ← io_for_each
            (fun angle i =>
               match header !! i with
               | Some row => set_array angle i (float32 (tilt_axis_angle row))
               | None => Throw IoIndexError
               end)
            (replicate n (fzero ops)) (seq 0 (length header));
  position ← io_for_each
               (fun position i =>
                  match header !! i with
                  | Some row =>
                      set_array position i
                        (float32 (x_stage row), float32 (y_stage row),
                         float32 (z_stage row))
                  | None => Throw IoIndexError
                  end)
               (replicate n (fzero ops, fzero ops, fzero ops))
               (seq 0 (length header));
  Reader_init (handle_shape handle) angle position.

(** The local [extension] of [from_file] and [new]. *)
Definition extension (filename : list ascii) : list ascii :=
  lower (Posixpath.splitext filename).2.

(** [Reader.from_file] *)
Definition from_file (filename : list ascii) : outcome (Reader F) :=
  let extension := extension filename in
  if bool_decide (extension ∈ [str ".mrc"]) then from_mrcfile filename
  else if bool_decide (extension ∈ [str ".h5"; str ".hdf5"; str ".nx"; str ".nxs";
                                    str ".nexus"; str "nxtomo"])
  then from_nexus filename
  else Throw (RuntimeError filename).

(** [new]; the shape is given. *)
Definition new (filename : list ascii) (shape : nat * nat * nat)
    (vmin vmax : option F) : outcome (Writer F) :=
  let extension := extension filename in
  if bool_decide (extension ∈ [str ".mrc"])
  then Return (WriterMrc (MrcFileWriter_init filename shape))
  else if bool_decide (extension ∈ [str ".h5"; str ".hdf5"; str ".nx"; str ".nxs";
                                    str ".nexus"; str "nxtomo"])
  then Return (WriterNexus (NexusWriter_init filename shape))
  else if bool_decide (extension ∈ [str ".png"; str ".jpg"; str ".jpeg"])
  then Return (WriterImage (ImageWriter_init filename shape vmin vmax))
  else Throw (RuntimeError filename).

(** [open] *)
Definition open (filename : list ascii) : outcome (Reader F) :=
  from_file filename.

End Io.
End Io.

(** The class of the writer [new] made, if it made one. *)
Definition writer_class {F} (r : outcome (Writer F)) : option string :=
  match r with
  | Return (WriterMrc _) => Some "MrcFileWriter"
  | Return (WriterNexus _) => Some "NexusWriter"
  | Return (WriterImage _) => Some "ImageWriter"
  | Throw _ => None
  end.

(** *** What a position assignment means

    [position[j] = data] overwrites, in row [j], as many of x, y and z as
    [data] has entries ([zip] stops at the shorter sequence);
    [position[j, i] = d] overwrites coordinate [i] of row [j].  [cast] is
    the conversion to the dtype of the store. *)
Definition overwrite {F} (cast : F -> F) (data : list F) (old : F * F * F)
  : F * F * F :=
  match data with
  | [] => old
  | [x] => (cast x, old.1.2, old.2)
  | [x; y] => (cast x, cast y, old.2)
  | x :: y :: z :: _ => (cast x, cast y, cast z)
  end.

Definition overwrite_coordinate {F} (cast : F -> F) (i : nat) (d : F)
    (old : F * F * F) : F * F * F :=
  match i with
  | 0 => (cast d, old.1.2, old.2)
  | 1 => (old.1.1, cast d, old.2)
  | 2 => (old.1.1, old.1.2, cast d)
  | _ => old
  end.

(** The stage position in a row of the extended header, and a triple
    converted entry by entry. *)
Definition row_position {F} (row : FeiRow F) : F * F * F :=
  (x_stage row, y_stage row, z_stage row).

Definition cast3 {F} (cast : F -> F) (p : F * F * F) : F * F * F :=
  (cast p.1.1, cast p.1.2, cast p.2).

(** A row with its stage position replaced, and a handle with its rows
    replaced. *)
Definition row_update {F} (upd : F * F * F -> F * F * F) (row : FeiRow F)
  : FeiRow F :=
  let p := upd (row_position row) in
  {| tilt_axis_angle := tilt_axis_angle row;
     x_stage := p.1.1; y_stage := p.1.2; z_stage := p.2 |}.

Definition with_rows {F} (handle : MrcHandle F) (rows : list (FeiRow F))
  : MrcHandle F :=
  {| handle_filename := handle_filename handle;
     handle_exttyp := handle_exttyp handle;
     handle_dtype := handle_dtype handle;
     handle_extended_header := rows;
     handle_shape := handle_shape handle |}.

(** What a reader holds for a file with the given rows. *)
Definition contents {F} (float32 : F -> F) (handle : MrcHandle F) : Reader F :=
  {| reader_shape := handle_shape handle;
     reader_angle :=
       (fun row => float32 (tilt_axis_angle row)) <$> handle_extended_header handle;
     reader_position :=
       (fun row => cast3 float32 (row_position row))
         <$> handle_extended_header handle |}.

(** The row an assignment goes to and what it does there, for [n] rows. *)
Definition assigned {F} (cast : F -> F) (n : nat) (a : assignment F)
  : outcome (nat * (F * F * F -> F * F * F)) :=
  match a with
  | SetRow j data => j' ← numpy_index n j; Return (j', overwrite cast data)
  | SetEntry j i d =>
      j' ← numpy_index n j; i' ← numpy_index 3 i;
      Return (j', overwrite_coordinate cast i' d)
  end.

(** A writer whose file is as [MrcFileWriter.__init__] made it, but for
    the values in the rows of the extended header. *)
Definition writer_wf {F} (w : MrcFileWriter F) : Prop :=
  handle_exttyp (writer_handle w) = "FEI1"
  /\ handle_dtype (writer_handle w) = FEI_EXTENDED_HEADER_DTYPE
  /\ length (handle_extended_header (writer_handle w))
     = (handle_shape (writer_handle w)).1.1
  /\ writer_rows w = length (handle_extended_header (writer_handle w)).

(** [Reader.from_mrcfile] on the file a writer has filled. *)
Definition read_back {F} (ops : FloatOps F) (float32 : F -> F)
    (w : MrcFileWriter F) : outcome (Reader F) :=
  Io.from_mrcfile ops float32 (fun _ => Return (writer_handle w))
    (handle_filename (writer_handle w)).

(** The positions in a NeXus file, as [Reader.from_nexus] puts them
    together: [numpy.array((x, y, z)).T]. *)
Definition nexus_positions {F} (w : NexusWriter F) : list (F * F * F) :=
  zip (zip (x_translation w) (y_translation w)) (z_translation w).

(** A NeXus writer whose datasets have the length they were created with. *)
Definition nexus_wf {F} (w : NexusWriter F) : Prop :=
  length (x_translation w) = nexus_rows w
  /\ length (y_translation w) = nexus_rows w
  /\ length (z_translation w) = nexus_rows w.

(** The assignments a client makes through the proxies of an MRC writer:
    [writer.angle[j] = d] and [writer.position[...] = ...]. *)
Inductive write (F : Type) : Type :=
  | WriteAngle (j : Z) (d : F)
  | WritePosition (a : assignment F).
Arguments WriteAngle {F} j d.
Arguments WritePosition {F} a.

Definition apply_write {F} (float64 : F -> F) (w : MrcFileWriter F)
    (op : write F) : outcome (MrcFileWriter F) :=
  match op with
  | WriteAngle j d => Io.angle_setitem float64 w j d
  | WritePosition a => Io.mrc_position_setitem float64 w a
  end.

(** ** [parakeet.analyse.reconstruct] *)

(** [parakeet.config.Device] *)
Inductive Device : Type := cpu | gpu.

(** The microscope, as far as the driver reads it. *)
Record Microscope (F : Type) : Type := {
  detector_nx : Z;
  detector_pixel_size : F;
  beam_energy : F;
  lens_c_10 : F;
  lens_c_30 : F;
  lens_c_12 : F;
  lens_phi_12 : F;
}.
Arguments detector_nx {F} _.
Arguments detector_pixel_size {F} _.
Arguments beam_energy {F} _.
Arguments lens_c_10 {F} _.
Arguments lens_c_30 {F} _.
Arguments lens_c_12 {F} _.
Arguments lens_phi_12 {F} _.

(** The keyword arguments of the call of [guanaco.reconstruct_file]
    ([centre] is always [None]). *)
Record ReconstructFile (F : Type) : Type := {
  input_filename : list ascii;
  output_filename : list ascii;
  corrected_filename : list ascii;
  energy : F;
  defocus : F;
  num_defocus : Z;
  spherical_aberration : F;
  astigmatism : F;
  astigmatism_angle : F;
  phase_shift : Z;
  angular_weights : bool;
  device : Device;
}.
Arguments input_filename {F} _.
Arguments output_filename {F} _.
Arguments corrected_filename {F} _.
Arguments energy {F} _.
Arguments defocus {F} _.
Arguments num_defocus {F} _.
Arguments spherical_aberration {F} _.
Arguments astigmatism {F} _.
Arguments astigmatism_angle {F} _.
Arguments phase_shift {F} _.
Arguments angular_weights {F} _.
Arguments device {F} _.

(** The loaded configuration: its device, the microscope made from it, and
    [config.simulation.dict()]. *)
Record Config (F : Type) : Type := {
  config_device : Device;
  config_microscope : Microscope F;
  config_simulation : gmap string string;
}.
Arguments config_device {F} _.
Arguments config_microscope {F} _.
Arguments config_simulation {F} _.

Module Reconstruct.
Section Reconstruct.
Context {F : Type} (ops : FloatOps F).

(** [-x], and [int(x)], which truncates and refuses nan and the
    infinities. *)
Variable fneg : F -> F.
Variable fint : F -> outcome Z.

(** [reconstruct_internal]: the result is the call of the reconstruction
    engine it ends in. *)
Definition reconstruct_internal (image_filename rec_filename : list ascii)
    (microscope : Microscope F) (simulation : gmap string string)
    (device : Device) : outcome (ReconstructFile F) :=
  _ ← io_assert ImageIsMrc
        (bool_decide ((Posixpath.splitext image_filename).2 = str ".mrc"));
  let corrected_filename :=
    Posixpath.join (Posixpath.dirname rec_filename) (str "CORRECTED.dat") in
  let nx := detector_nx microscope in
  let pixel_size := detector_pixel_size microscope in
  let energy := beam_energy microscope in
  let defocus := fneg (lens_c_10 microscope) in
  num_defocus ← fint (fdiv ops (fmul ops (fof_Z ops nx) pixel_size)
                                (fof_Z ops 100));
  spherical_aberration ←
    match simulation !! "inelastic_model" with
    | Some model =>
        Return (if bool_decide (model = "cc_corrected") then fof_Z ops 0
                else lens_c_30 microscope)
    | None => Throw (KeyError "inelastic_model")
    end;
  let astigmatism := lens_c_12 microscope in
  let astigmatism_angle := lens_phi_12 microscope in
  let phase_shift := 0%Z in
  Return {| input_filename := image_filename;
            output_filename := rec_filename;
            corrected_filename := corrected_filename;
            energy := energy;
            defocus := defocus;
            num_defocus := num_defocus;
            spherical_aberration := spherical_aberration;
            astigmatism := astigmatism;
            astigmatism_angle := astigmatism_angle;
            phase_shift := phase_shift;
            angular_weights := true;
            device := device |}.

(** [device: Device = Device.gpu] *)
Definition default_device : option Device := Some gpu.

(** [reconstruct], from the loaded configuration on. *)
Definition reconstruct (config : Config F) (image_file rec_file : list ascii)
    (device : option Device) : outcome (ReconstructFile F) :=
  let config :=
    match device with
    | Some d => {| config_device := d;
                   config_microscope := config_microscope config;
                   config_simulation := config_simulation config |}
    | None => config
    end in
  let microscope := config_microscope config in
  reconstruct_internal image_file rec_file microscope
    (config_simulation config) (config_device config).

End Reconstruct.
End Reconstruct.

(** ** Test data for the file interface and the reconstruction *)

(** [int(x)] on the exact value of a double: the integer part, nan and the
    infinities refused. *)
Definition float_int (x : float) : outcome Z :=
  match Prim2SF x with
  | S754_zero _ => Return 0%Z
  | S754_finite s m e =>
      let n := match e with
               | Z0 => Zpos m
               | Zpos p => (Zpos m * 2 ^ Zpos p)%Z
               | Zneg p => (Zpos m / 2 ^ Zpos p)%Z
               end in
      Return (if s then (- n)%Z else n)
  | S754_nan => Throw IoValueError
  | S754_infinity _ => Throw IoOverflowError
  end.

Module Files.

(** A double written to a float64 field stays as it is. *)
Definition float64 (x : float) : float := x.

(** A new MRC file of two images of 4 x 4 pixels, and a few assignments
    through its proxies. *)
Definition writer : MrcFileWriter float :=
  Io.MrcFileWriter_init binary64 (str "tilt.mrc") (2, 4, 4).

Definition row : assignment float := SetRow (-1) [1.5%float; 2.5%float].

Definition writes : list (write float) :=
  [WriteAngle 0 1.5%float;
   WritePosition row;
   WritePosition (SetEntry 0 (-1) 0.25%float)].

Definition written : MrcFileWriter float :=
  Eval vm_compute in
    match io_for_each (apply_write float64) writer writes with
    | Return w => w
    | Throw _ => writer
    end.

(** A new NeXus file of the same shape. *)
Definition nexus : NexusWriter float :=
  Io.NexusWriter_init binary64 (str "tilt.h5") (2, 4, 4).

(** A microscope, a simulation with the Cc corrected model, and the call
    of the reconstruction engine that the driver makes of them. *)
Definition microscope : Microscope float :=
  {| detector_nx := 1000;
     detector_pixel_size := 1%float;
     beam_energy := 300%float;
     lens_c_10 := (-20000)%float;
     lens_c_30 := 2.75%float;
     lens_c_12 := 0%float;
     lens_phi_12 := 0%float |}.

Definition simulation : gmap string string :=
  {[ "inelastic_model" := "cc_corrected" ]}.

Definition call : ReconstructFile float :=
  {| input_filename := str "data/tilt.mrc";
     output_filename := str "out/rec.mrc";
     corrected_filename := str "out/CORRECTED.dat";
     energy := 300%float;
     defocus := 20000%float;
     num_defocus := 10;
     spherical_aberration := 0%float;
     astigmatism := 0%float;
     astigmatism_angle := 0%float;
     phase_shift := 0;
     angular_weights := true;
     device := gpu |}.

(** Two results of the shape of a dataset of 2 x 2 x 2 cubes; the values
    of the second, 2^24 + 1, are not float32 numbers. *)
Definition results : list (nat * ndarray float) :=
  [(0, {| shape := (2, 2, 2); values := Data.constant_cube 1%float |});
   (0, {| shape := (2, 2, 2); values := Data.constant_cube 16777217%float |})].

End Files.

(** * Properties *)

(** ** The reference generator samples without replacement *)

Lemma swap_Permutation x i j : Shuffle.swap x i j ≡ₚ x.
Proof.
  unfold Shuffle.swap. destruct (x !! i) as [a|] eqn:Hi; [|done].
  destruct (x !! j) as [b|] eqn:Hj; [|done].
  by apply Permutation_insert_swap.
Qed.

Lemma shuffle_Permutation i x g : (Shuffle.shuffle i x g).1 ≡ₚ x.
Proof.
  revert x g. induction i as [|i IH]; intros x g; simpl; [done|].
  destruct (Shuffle.rk_interval (S i) g) as [j g'].
  rewrite IH. apply swap_Permutation.
Qed.

Lemma permutation_Permutation n g : (Shuffle.permutation n g).1 ≡ₚ seq 0 n.
Proof. apply shuffle_Permutation. Qed.

Lemma shuffle_random_samples : samples_without_replacement shuffle_random.
Proof.
  intros g pop size. simpl. unfold Shuffle.choice. split; intros Hle.
  - rewrite decide_True by done.
    pose proof (permutation_Permutation pop g) as Hp.
    destruct (Shuffle.permutation pop g) as [p g']; simpl in *.
    exists (take size p). split; [done|].
    assert (length p = pop) as Hlen by (by rewrite Hp, length_seq).
    assert (NoDup p) as Hnd by (rewrite Hp; apply NoDup_seq).
    assert (Forall (fun i => i < pop) p) as Hall.
    { rewrite Hp. apply Forall_seq. intros; lia. }
    split; [rewrite length_take; lia|].
    split; [|by apply Forall_take].
    rewrite <-(take_drop size p) in Hnd. by apply NoDup_app in Hnd as [? _].
  - rewrite decide_False by lia. done.
Qed.

(** ** The number of particles to average *)

Section AverageFacts.
Context {F : Type} (ops : FloatOps F) (R : NumpyRandom).

Lemma effective_num_particles_nonneg num N :
  (0 <= effective_num_particles num N)%Z.
Proof.
  unfold effective_num_particles. destruct num as [n|]; [|lia].
  destruct (Z.leb_spec n 0); lia.
Qed.


Lemma effective_num_particles_explicit n N :
  (0 < n)%Z -> effective_num_particles (Some n) N = n.
Proof.
  intros Hn. unfold effective_num_particles.
  destruct (Z.leb_spec n 0); [lia|done].
Qed.

(** What the two assertions let through. *)
Lemma average_extracted_particles_checked particles num g :
  let N := length (data particles) in
  let n := effective_num_particles num N in
  (2 <= n <= Z.of_nat N)%Z ->
  average_extracted_particles ops R particles num g =
    match choice R g N (Z.to_nat n) with
    | (Raise e, g') => (Raise e, g')
    | (Ok indices, g') =>
        (average_indices ops particles (Z.to_nat (n / 2)) indices, g')
    end.
Proof.
  intros N n Hn. unfold average_extracted_particles. fold N. fold n.
  assert (0 < n / 2)%Z as Hhalf by (apply Z.div_str_pos; lia).
  apply Z.ltb_lt in Hhalf. rewrite Hhalf. simpl.
  destruct Hn as [_ Hn]. apply Z.leb_le in Hn. rewrite Hn. done.
Qed.

Lemma average_extracted_particles_ok_inv particles num g out g' :
  let N := length (data particles) in
  let n := effective_num_particles num N in
  average_extracted_particles ops R particles num g = (Ok out, g') ->
  (2 <= n <= Z.of_nat N)%Z.
Proof.
  intros N n. unfold average_extracted_particles. fold N. fold n.
  destruct (Z.ltb_spec 0 (n / 2)) as [Hhalf|Hhalf]; simpl; [|done].
  destruct (Z.leb_spec n (Z.of_nat N)) as [Hle|Hle]; simpl; [|done].
  intros _. split; [|done].
  destruct (Z.le_gt_cases 2 n) as [|Hlt]; [done|].
  assert (n / 2 <= 0)%Z; [|lia].
  pose proof (effective_num_particles_nonneg num N).
  rewrite Z.div_small; [done|]. fold n in H. lia.
Qed.

End AverageFacts.

Section AverageChecks.
Context {F : Type} (ops : FloatOps F) (R : NumpyRandom).

(** C4: when the effective number of particles [n] has [n // 2 == 0] (in
    particular when one particle is requested) the averaging raises the
    assertion on [half_num_particles] and produces no output; the
    generator is not touched. *)
Theorem average_insufficient_particles (particles : H5File F) num g :
  (effective_num_particles num (length (data particles)) / 2 = 0)%Z
    \/ num = Some 1%Z ->
  average_extracted_particles ops R particles num g
    = (Raise (AssertionError HalfNumParticles), g).
Proof.
  intros Hn.
  assert (effective_num_particles num (length (data particles)) / 2 = 0)%Z
    as Hhalf by (destruct Hn as [ | -> ]; done).
  unfold average_extracted_particles. by rewrite Hhalf.
Qed.


End AverageChecks.

(** ** The accumulation loop computes the mean *)

Section AverageMean.
Context {F : Type} (ops : FloatOps F) (R : NumpyRandom).

(** The inner loop adds the cubes of its indices, in order, to row
    [half_index] of [half], counts them in [num], and leaves the other rows
    alone; it succeeds only if every index is in the store. *)
Lemma sum_particles_ok dat h members half num half' num' :
  sum_particles ops dat h (half, num) members = Ok (half', num') ->
  exists cubes,
    Forall2 (fun i c => dat !! i = Some c) members cubes
    /\ half' = alter (fun c => foldl (iadd ops) c cubes) h half
    /\ num' = alter (Nat.iter (length members)
                       (fun n => fadd ops n (fone ops))) h num.
Proof.
  revert half num. induction members as [|i members IH]; intros half num Hrun.
  - simpl in Hrun. injection Hrun as <- <-. exists []. split; [constructor|].
    split; symmetry; by apply list_alter_id.
  - simpl in Hrun. destruct (dat !! i) as [c|] eqn:Hi; [|done]. simpl in Hrun.
    apply IH in Hrun as (cubes & Hall & -> & ->). exists (c :: cubes).
    split; [by constructor|].
    rewrite !list_alter_alter_eq. split; [done|].
    apply list_alter_ext; [|done]. intros x _.
    exact (Nat.iter_swap (length members) F (fun n => fadd ops n (fone ops)) x).
Qed.

(** Entry [k] of a sum of cubes is the running sum of their entries [k]. *)
Lemma lookup_foldl_iadd v cubes acc k :
  Forall (fun c : list F => length c = v) cubes ->
  length acc = v -> k < v ->
  foldl (iadd ops) acc cubes !! k
  = Some (foldl (fadd ops) (default (fzero ops) (acc !! k))
            ((fun c => default (fzero ops) (c !! k)) <$> cubes)).
Proof.
  intros Hall. revert acc. induction Hall as [|c cubes Hc _ IH]; intros acc Ha Hk.
  - simpl. destruct (lookup_lt_is_Some_2 acc k) as [a Hak]; [lia|].
    by rewrite Hak.
  - simpl. rewrite IH; [|unfold iadd; rewrite length_zip_with; lia|done].
    do 2 f_equal. unfold iadd. rewrite lookup_zip_with.
    destruct (lookup_lt_is_Some_2 acc k) as [a ->]; [lia|].
    destruct (lookup_lt_is_Some_2 c k) as [x ->]; [lia|]. done.
Qed.

Lemma length_foldl_iadd v cubes acc :
  Forall (fun c : list F => length c = v) cubes ->
  length acc = v -> length (foldl (iadd ops) acc cubes) = v.
Proof.
  intros Hall. revert acc. induction Hall as [|c cubes Hc _ IH]; intros acc Ha.
  - done.
  - simpl. apply IH. unfold iadd. rewrite length_zip_with. lia.
Qed.

(** The cubes read for the members hold the members' voxels. *)
Lemma voxels_of_cubes (particles : H5File F) members cubes k :
  Forall2 (fun i c => data particles !! i = Some c) members cubes ->
  (fun c => default (fzero ops) (c !! k)) <$> cubes
  = (fun i => voxel ops particles i k) <$> members.
Proof.
  induction 1 as [|i c members cubes Hi _ IH]; [done|].
  rewrite !fmap_cons, IH. f_equal. unfold voxel. by rewrite Hi.
Qed.

Lemma cubes_wf (particles : H5File F) members cubes :
  store_wf particles ->
  Forall2 (fun i c => data particles !! i = Some c) members cubes ->
  Forall (fun c => length c = volume (data_shape particles)) cubes.
Proof.
  intros Hwf. induction 1 as [|i c members cubes Hi _ IH]; constructor; [|done].
  eapply (Forall_lookup_1 _ _ _ _ Hwf Hi).
Qed.

(** A sum of cubes divided by the count of its members is the
    specification's mean cube. *)
Lemma mean_of_sum (particles : H5File F) members cubes :
  store_wf particles ->
  Forall2 (fun i c => data particles !! i = Some c) members cubes ->
  (fun x => fdiv ops x (count ops (length members)))
    <$> foldl (iadd ops) (zeros ops (data_shape particles)) cubes
  = values (mean_cube ops particles members).
Proof.
  intros Hwf Hcubes. pose proof (cubes_wf _ _ _ Hwf Hcubes) as Hlen.
  set (v := volume (data_shape particles)) in *.
  assert (length (zeros ops (data_shape particles)) = v) as Hz
    by apply length_replicate.
  apply list_eq. intros k. simpl. rewrite !list_lookup_fmap.
  destruct (decide (k < v)) as [Hk|Hk].
  - rewrite (lookup_foldl_iadd v), lookup_seq_lt by done. simpl.
    unfold mean_voxel, running_sum. do 3 f_equal.
    + unfold zeros. by rewrite lookup_replicate_2.
    + by apply voxels_of_cubes.
  - rewrite (lookup_ge_None_2 (foldl _ _ _)), lookup_seq_ge; [done|lia|].
    rewrite (length_foldl_iadd v); [lia|done|done].
Qed.

End AverageMean.

Section AverageResult.
Context {F : Type} (ops : FloatOps F) (R : NumpyRandom).

(** The two loops over [[half1; half2]], started from zeros. *)
Lemma sum_halves_ok (particles : H5File F) half1 half2 half num :
  sum_halves ops (data particles) 0
    ([zeros ops (data_shape particles); zeros ops (data_shape particles)],
     [fzero ops; fzero ops]) [half1; half2] = Ok (half, num) ->
  exists cubes1 cubes2,
    Forall2 (fun i c => data particles !! i = Some c) half1 cubes1
    /\ Forall2 (fun i c => data particles !! i = Some c) half2 cubes2
    /\ half = [foldl (iadd ops) (zeros ops (data_shape particles)) cubes1;
               foldl (iadd ops) (zeros ops (data_shape particles)) cubes2]
    /\ num = [count ops (length half1); count ops (length half2)].
Proof.
  simpl. intros Hrun.
  destruct (sum_particles ops (data particles) 0 _ half1)
    as [[h1 n1]|] eqn:H1; [|done].
  apply sum_particles_ok in H1 as (cubes1 & Hc1 & -> & ->). simpl in Hrun.
  destruct (sum_particles ops (data particles) 1 _ half2)
    as [[h2 n2]|] eqn:H2; [|done].
  apply sum_particles_ok in H2 as (cubes2 & Hc2 & -> & ->). simpl in Hrun.
  injection Hrun as <- <-. by exists cubes1, cubes2.
Qed.

(** C3: when the averaging succeeds, each half-map is the elementwise sum
    of the stored cubes at that half's indices divided by that half's count,
    in the shape of the stored cubes, and carries the store's voxel size.
    The store is well formed, the generator samples without replacement, and
    a count of at least one particle compares greater than zero. *)
Theorem average_is_mean (Hchoice : samples_without_replacement R)
    (particles : H5File F) num g m1 m2 g' :
  let N := length (data particles) in
  let n := effective_num_particles num N in
  store_wf particles ->
  (forall c, 0 < c <= N -> fgtb ops (count ops c) (fzero ops) = true) ->
  average_extracted_particles ops R particles num g = (Ok (m1, m2), g') ->
  exists indices half1 half2,
    choice R g N (Z.to_nat n) = (Ok indices, g')
    /\ split_indices (Z.to_nat (n / 2)) indices = [half1; half2]
    /\ mrc_data m1 = mean_cube ops particles half1
    /\ mrc_data m2 = mean_cube ops particles half2
    /\ mrc_voxel_size m1 = voxel_size particles
    /\ mrc_voxel_size m2 = voxel_size particles.
Proof.
  intros N n Hwf Hcount Hrun.
  pose proof (average_extracted_particles_ok_inv _ _ _ _ _ _ _ Hrun) as Hn.
  fold N in Hn. fold n in Hn.
  rewrite average_extracted_particles_checked in Hrun by done.
  fold N in Hrun. fold n in Hrun.
  destruct (Hchoice g N (Z.to_nat n)) as [Hsample _].
  destruct Hsample as (indices & Hc & Hlen & _ & _); [lia|].
  destruct (choice R g N (Z.to_nat n)) as [r g''] eqn:Hdraw.
  simpl in Hc. subst r. injection Hrun as Hrun <-.
  set (h := Z.to_nat (n / 2)) in *.
  assert (0 < n / 2 <= n)%Z as Hh.
  { split; [apply Z.div_str_pos; lia|]. apply Z.div_le_upper_bound; lia. }
  assert (2 * (n / 2) <= n)%Z as Hh2 by (apply Z.mul_div_le; lia).
  exists indices, (take h indices), (drop h indices).
  split; [done|]. split; [done|].
  unfold average_indices, split_indices in Hrun.
  destruct (sum_halves ops (data particles) 0 _ _) as [[half num']|] eqn:Hsum;
    [|done].
  apply sum_halves_ok in Hsum as (cubes1 & cubes2 & Hc1 & Hc2 & -> & ->).
  simpl in Hrun. unfold average_half in Hrun. simpl in Hrun.
  rewrite !Hcount in Hrun by (rewrite ?length_take, ?length_drop; lia).
  simpl in Hrun. injection Hrun as <- <-. unfold save_half. simpl.
  rewrite !mean_of_sum by done. done.
Qed.

(** The inner loop ends without an exception when its indices are in the
    store. *)
Lemma sum_particles_total dat h acc members :
  Forall (fun i => i < length dat) members ->
  exists acc', sum_particles ops dat h acc members = Ok acc'.
Proof.
  intros Hall. revert acc. induction Hall as [|i members Hi _ IH]; intros acc.
  - by eexists.
  - cbn [sum_particles]. unfold add_particle. destruct acc as [half num].
    destruct (lookup_lt_is_Some_2 dat i Hi) as [cube ->].
    cbn [mbind result_bind]. apply IH.
Qed.

(** With at least two particles requested and no more than the store
    holds, the averaging ends without an exception and writes both maps. *)
Theorem average_succeeds (Hchoice : samples_without_replacement R)
    (particles : H5File F) num g :
  let N := length (data particles) in
  (2 <= effective_num_particles num N <= Z.of_nat N)%Z ->
  exists m1 m2 g',
    average_extracted_particles ops R particles num g = (Ok (m1, m2), g').
Proof.
  intros N Hn. rewrite average_extracted_particles_checked by done. fold N.
  set (n := effective_num_particles num N) in *.
  destruct (Hchoice g N (Z.to_nat n)) as [Hsample _].
  destruct Hsample as (indices & Hc & _ & _ & Hlt); [lia|].
  destruct (choice R g N (Z.to_nat n)) as [r g'] eqn:Hdraw.
  simpl in Hc. subst r. unfold average_indices, split_indices.
  cbn [sum_halves].
  destruct (sum_particles_total (data particles) 0
              ([zeros ops (data_shape particles); zeros ops (data_shape particles)],
               [fzero ops; fzero ops])
              (take (Z.to_nat (n / 2)) indices)) as [acc1 ->];
    [by apply Forall_take|].
  cbn [mbind result_bind].
  destruct (sum_particles_total (data particles) 1 acc1
              (drop (Z.to_nat (n / 2)) indices)) as [[half num'] ->];
    [by apply Forall_drop|].
  cbn [mbind result_bind]. by eexists _, _, _.
Qed.

End AverageResult.

(** ** The groups that are averaged *)

Section AverageGroups.
Context {F : Type} (ops : FloatOps F) (R : NumpyRandom).

Lemma cubes_of_members (particles : H5File F) members cubes :
  Forall2 (fun i c => data particles !! i = Some c) members cubes ->
  cubes = (fun i => default [] (data particles !! i)) <$> members.
Proof.
  induction 1 as [|i c members cubes Hi _ IH]; [done|].
  rewrite fmap_cons, <- IH. by rewrite Hi.
Qed.

(** Once the indices are drawn, the two files are those of the two groups
    [indices[:h]] and [indices[h:]]. *)
Lemma average_indices_groups (particles : H5File F) h indices :
  Forall (fun i => i < length (data particles)) indices ->
  average_indices ops particles h indices
  = Ok (half_map ops particles (take h indices),
        half_map ops particles (drop h indices)).
Proof.
  intros Hlt. unfold average_indices, split_indices.
  destruct (sum_halves ops (data particles) 0 _ _) as [[half num']|e] eqn:Hsum.
  - apply sum_halves_ok in Hsum as (cubes1 & cubes2 & Hc1 & Hc2 & -> & ->).
    apply cubes_of_members in Hc1, Hc2. subst cubes1 cubes2.
    cbn [mbind result_bind]. unfold half_map, group_average, group_sum, save_half,
      average_half.
    cbn [lookup list_lookup].
    destruct (fgtb ops (count ops (length (take h indices))) (fzero ops));
      destruct (fgtb ops (count ops (length (drop h indices))) (fzero ops));
      reflexivity.
  - exfalso. cbn [sum_halves] in Hsum.
    destruct (sum_particles_total ops (data particles) 0
                ([zeros ops (data_shape particles); zeros ops (data_shape particles)],
                 [fzero ops; fzero ops])
                (take h indices)) as [acc1 Hacc1]; [by apply Forall_take|].
    rewrite Hacc1 in Hsum. cbn [mbind result_bind] in Hsum.
    destruct (sum_particles_total ops (data particles) 1 acc1 (drop h indices))
      as [acc2 Hacc2]; [by apply Forall_drop|].
    rewrite Hacc2 in Hsum. cbn [mbind result_bind] in Hsum. done.
Qed.

(** C2: for [2 <= num_particles <= N] the averager draws [num_particles]
    distinct indices below N and averages two groups of them: half 1 is made
    of the first [num_particles // 2] indices drawn and half 2 of the
    remainder.  The run ends with the two files [half_map half1] and
    [half_map half2], each the accumulated sum of the stored cubes at the
    indices of its own group, divided by the group's count; the groups are
    disjoint, together they are the sample, and their sizes are
    [num_particles // 2] and the rest: 2 and 2 for four particles, 2 and 3
    for five. *)
Theorem average_splits_sample (Hchoice : samples_without_replacement R)
    (particles : H5File F) (num_particles : Z) g :
  let N := length (data particles) in
  (2 <= num_particles <= Z.of_nat N)%Z ->
  exists indices g' half1 half2,
    choice R g N (Z.to_nat num_particles) = (Ok indices, g')
    /\ length indices = Z.to_nat num_particles
    /\ NoDup indices
    /\ Forall (fun i => i < N) indices
    /\ half1 = take (Z.to_nat (num_particles / 2)) indices
    /\ half2 = drop (Z.to_nat (num_particles / 2)) indices
    /\ average_extracted_particles ops R particles (Some num_particles) g
       = (Ok (half_map ops particles half1, half_map ops particles half2), g')
    /\ average_extracted_particles ops R particles (Some num_particles) g
       = (average_indices ops particles (Z.to_nat (num_particles / 2)) indices, g')
    /\ split_indices (Z.to_nat (num_particles / 2)) indices = [half1; half2]
    /\ half1 ++ half2 = indices
    /\ (forall i, i ∈ half1 -> i ∉ half2)
    /\ Z.of_nat (length half1) = (num_particles / 2)%Z
    /\ Z.of_nat (length half2) = (num_particles - num_particles / 2)%Z
    /\ (num_particles = 4%Z -> length half1 = 2 /\ length half2 = 2)
    /\ (num_particles = 5%Z -> length half1 = 2 /\ length half2 = 3).
Proof.
  intros N Hn.
  destruct (Hchoice g N (Z.to_nat num_particles)) as [Hsample _].
  destruct Hsample as (indices & Hc & Hlen & Hnd & Hlt); [lia|].
  destruct (choice R g N (Z.to_nat num_particles)) as [r g'] eqn:Hdraw.
  simpl in Hc. subst r.
  set (h := Z.to_nat (num_particles / 2)).
  assert (0 <= num_particles / 2 <= num_particles)%Z as Hh.
  { split; [apply Z.div_pos; lia|]. apply Z.div_le_upper_bound; lia. }
  exists indices, g', (take h indices), (drop h indices).
  assert (length (take h indices) = h) as Hl1 by (rewrite length_take; lia).
  assert (length (drop h indices) = Z.to_nat num_particles - h) as Hl2
    by (rewrite length_drop; lia).
  assert (average_extracted_particles ops R particles (Some num_particles) g
          = (average_indices ops particles h indices, g')) as Hrun.
  { rewrite average_extracted_particles_checked;
      rewrite effective_num_particles_explicit by lia; [|done].
    fold N. by rewrite Hdraw. }
  split; [done|]. split; [done|]. split; [done|]. split; [done|].
  split; [done|]. split; [done|].
  split; [by rewrite Hrun, average_indices_groups|].
  split; [done|].
  split; [done|]. split; [apply take_drop|].
  split.
  { rewrite <-(take_drop h indices) in Hnd.
    apply NoDup_app in Hnd as (_ & Hdisj & _). done. }
  split; [lia|]. split; [lia|].
  split; intros ->; rewrite Hl1, Hl2; done.
Qed.
End AverageGroups.

(** ** The averaging on the test stores *)

Lemma store5_wf : store_wf Data.store5.
Proof. repeat constructor. Qed.

Lemma binary64_count_positive c :
  0 < c <= 5 -> fgtb binary64 (count binary64 c) (fzero binary64) = true.
Proof.
  intros Hc. destruct c as [|[|[|[|[|[|c]]]]]]; try lia; reflexivity.
Qed.

(** One particle requested from the store of five. *)
Lemma average_insufficient_particles_witness :
  average_extracted_particles binary64 shuffle_random Data.store5 (Some 1%Z)
    [3; 1; 4; 1; 5]
  = (Raise (AssertionError HalfNumParticles), [3; 1; 4; 1; 5]).
Proof.
  apply (average_insufficient_particles binary64 shuffle_random Data.store5).
  right. reflexivity.
Defined.

(** Five particles requested from the store of five: the draws 3, 1, 4, 1
    shuffle the indices to 0, 2, 4, 1, 3. *)
Lemma average_splits_sample_witness :
  exists indices g' half1 half2,
    choice shuffle_random [3; 1; 4; 1; 5] 5 (Z.to_nat 5) = (Ok indices, g')
    /\ length indices = Z.to_nat 5
    /\ NoDup indices
    /\ Forall (fun i => i < 5) indices
    /\ half1 = take (Z.to_nat (5 / 2)) indices
    /\ half2 = drop (Z.to_nat (5 / 2)) indices
    /\ average_extracted_particles binary64 shuffle_random Data.store5
         (Some 5%Z) [3; 1; 4; 1; 5]
       = (Ok (half_map binary64 Data.store5 half1,
              half_map binary64 Data.store5 half2), g')
    /\ average_extracted_particles binary64 shuffle_random Data.store5
         (Some 5%Z) [3; 1; 4; 1; 5]
       = (average_indices binary64 Data.store5 (Z.to_nat (5 / 2)) indices, g')
    /\ split_indices (Z.to_nat (5 / 2)) indices = [half1; half2]
    /\ half1 ++ half2 = indices
    /\ (forall i, i ∈ half1 -> i ∉ half2)
    /\ Z.of_nat (length half1) = (5 / 2)%Z
    /\ Z.of_nat (length half2) = (5 - 5 / 2)%Z
    /\ (5%Z = 4%Z -> length half1 = 2 /\ length half2 = 2)
    /\ (5%Z = 5%Z -> length half1 = 2 /\ length half2 = 3).
Proof.
  apply (average_splits_sample binary64 shuffle_random shuffle_random_samples
           Data.store5 5%Z [3; 1; 4; 1; 5]).
  simpl. lia.
Defined.

(** The same run: half 1 is the mean of particles 0 and 2, half 2 the mean
    of particles 4, 1 and 3. *)
Lemma average_is_mean_witness :
  exists indices half1 half2,
    choice shuffle_random [3; 1; 4; 1; 5] 5 5 = (Ok indices, [5])
    /\ split_indices 2 indices = [half1; half2]
    /\ mrc_data (Data.constant_map 2%float)
       = mean_cube binary64 Data.store5 half1
    /\ mrc_data (Data.constant_map (11 / 3)%float)
       = mean_cube binary64 Data.store5 half2
    /\ mrc_voxel_size (Data.constant_map 2%float) = voxel_size Data.store5
    /\ mrc_voxel_size (Data.constant_map (11 / 3)%float)
       = voxel_size Data.store5.
Proof.
  apply (average_is_mean binary64 shuffle_random shuffle_random_samples
           Data.store5 (Some 5%Z) [3; 1; 4; 1; 5]
           (Data.constant_map 2%float) (Data.constant_map (11 / 3)%float)
           [5]).
  - exact store5_wf.
  - exact binary64_count_positive.
  - vm_compute. reflexivity.
Defined.

(** ** The seed and the generator that is drawn from *)

(** [random.seed] leaves NumPy's generator as it was. *)
Lemma import_module_np_random {R} (w : Generators R) :
  np_random (import_module w) = np_random w
  /\ py_random (import_module w) = Some 0%Z.
Proof. done. Qed.

(** The result of a run is that of the averaging on the state NumPy's
    generator had before the import. *)
Lemma run_average_np_random {F} (ops : FloatOps F) {R} (w : Generators R)
    (particles : H5File F) num :
  run_average ops w particles num
  = (average_extracted_particles ops R particles num (np_random w)).1.
Proof. done. Qed.

(** C1: two runs on the same store of two particles (1.0 and 3.0), both
    with Python's generator seeded with 0 by the import, give different
    half-maps when NumPy's generator starts in different states: the
    halves come out as the cubes of (3.0, 1.0) in one run and of (1.0, 3.0)
    in the other. *)
Theorem average_depends_on_numpy_state :
  let half := Data.constant_map in
  py_random (import_module Data.world_a) = py_random (import_module Data.world_b)
  /\ run_average binary64 Data.world_a Data.store2 default_num_particles
     = Ok (half 3%float, half 1%float)
  /\ run_average binary64 Data.world_b Data.store2 default_num_particles
     = Ok (half 1%float, half 3%float)
  /\ run_average binary64 Data.world_a Data.store2 default_num_particles
     <> run_average binary64 Data.world_b Data.store2 default_num_particles.
Proof.
  intros half.
  assert (run_average binary64 Data.world_a Data.store2 default_num_particles
          = Ok (half 3%float, half 1%float)) as Ha by (vm_compute; reflexivity).
  assert (run_average binary64 Data.world_b Data.store2 default_num_particles
          = Ok (half 1%float, half 3%float)) as Hb by (vm_compute; reflexivity).
  split; [done|]. split; [done|]. split; [done|].
  rewrite Ha, Hb. intros Heq.
  apply (f_equal (fun r => match r with
                           | Ok (m, _) => Prim2SF <$> values (mrc_data m)
                           | Raise _ => []
                           end)) in Heq.
  vm_compute in Heq. discriminate Heq.
Qed.

(** ** Sorting the particles *)

Section Sorting.
Context {F : Type} (ops : FloatOps F).

Lemma insert_by_Permutation {A} (key : A -> F) x l :
  insert_by ops key x l ≡ₚ x :: l.
Proof.
  induction l as [|y l IH]; simpl; [done|].
  destruct (fltb ops (key y) (key x)); [|done].
  rewrite IH. apply Permutation_swap.
Qed.

Lemma sorted_Permutation {A} (key : A -> F) l : sorted ops key l ≡ₚ l.
Proof.
  induction l as [|x l IH]; simpl; [done|].
  by rewrite insert_by_Permutation, IH.
Qed.

(** Inserting into an ascending list keeps it ascending, when [<] orders
    the keys at hand. *)
Lemma insert_by_ascending {A} (key : A -> F) ys x l :
  ordered_by_lt ops ys ->
  key x ∈ ys -> Forall (fun a => key a ∈ ys) l ->
  ascending ops (key <$> l) ->
  ascending ops (key <$> insert_by ops key x l).
Proof.
  intros [Htotal Htrans] Hx. unfold ascending.
  induction l as [|y l IH]; intros Hl Hsorted; simpl.
  - repeat constructor.
  - apply Forall_cons in Hl as [Hy Hl].
    rewrite fmap_cons in Hsorted.
    apply StronglySorted_inv in Hsorted as [Hsorted Hall].
    destruct (fltb ops (key y) (key x)) eqn:Hlt; rewrite !fmap_cons.
    + constructor; [by apply IH|].
      rewrite insert_by_Permutation, fmap_cons. constructor; [|done].
      destruct (Htotal (key y) (key x) Hy Hx) as [H|H]; [congruence|done].
    + constructor; [by constructor|]. constructor; [done|].
      rewrite Forall_fmap in Hall |- *. rewrite Forall_forall in Hall, Hl.
      apply Forall_forall. intros z Hz. simpl.
      apply (Htrans (key x) (key y) (key z)); [done|done|by apply Hl|done|].
      by apply (Hall z).
Qed.

Lemma sorted_ascending {A} (key : A -> F) ys l :
  ordered_by_lt ops ys ->
  Forall (fun a => key a ∈ ys) l ->
  ascending ops (key <$> sorted ops key l).
Proof.
  intros Hord. induction l as [|x l IH]; intros Hl; simpl.
  - constructor.
  - apply Forall_cons in Hl as [Hx Hl].
    apply (insert_by_ascending key ys); [done|done| |by apply IH].
    by rewrite sorted_Permutation.
Qed.

End Sorting.

Section SortParticles.
Context {F O : Type} (ops : FloatOps F).

(** A particle list that is not empty, with as many orientations as
    positions, is sorted without an exception. *)
Lemma sort_particles_total (positions : list (F * F * F)) (orientations : list O) :
  positions <> [] -> length positions = length orientations ->
  exists ps os, sort_particles ops positions orientations = Ok (ps, os).
Proof.
  intros Hne Hlen. unfold sort_particles.
  pose proof (sorted_Permutation ops (fun x : F * F * F * O => pos_y x.1)
                (zip positions orientations)) as Hperm.
  destruct (sorted ops _ (zip positions orientations)) as [|x l]; [|by eexists _, _].
  apply Permutation_nil_l in Hperm.
  destruct positions, orientations; simplify_eq/=.
Qed.

(** The sort of lines 142-145 puts the positions in ascending order of
    their y coordinate and keeps each position with the orientation it was
    paired with: the sorted pairs are a permutation of the given ones.  [<]
    is assumed to order the y coordinates at hand, as it does floats that
    are not nan. *)
Lemma sort_particles_ascending (positions : list (F * F * F))
    (orientations : list O) ps os :
  length positions = length orientations ->
  ordered_by_lt ops (pos_y <$> positions) ->
  sort_particles ops positions orientations = Ok (ps, os) ->
  ascending ops (pos_y <$> ps)
  /\ zip ps os ≡ₚ zip positions orientations
  /\ length ps = length positions
  /\ length os = length orientations.
Proof.
  intros Hlen Hord. unfold sort_particles.
  set (key := fun x : F * F * F * O => pos_y x.1).
  pose proof (sorted_Permutation ops key (zip positions orientations)) as Hperm.
  assert (ascending ops (key <$> sorted ops key (zip positions orientations)))
    as Hasc.
  { apply (sorted_ascending ops key (pos_y <$> positions)); [done|].
    apply Forall_forall. intros [p o] Hin. unfold key. simpl.
    apply list_elem_of_fmap_2. by apply elem_of_zip_l in Hin. }
  destruct (sorted ops key (zip positions orientations)) as [|x l] eqn:Hs; [done|].
  intros Heq.
  assert (ps = (x :: l).*1 /\ os = (x :: l).*2) as [-> ->]
    by (by injection Heq as <- <-).
  rewrite zip_fst_snd.
  split.
  { by rewrite <-list_fmap_compose. }
  split; [done|].
  rewrite !length_fmap, Hperm, length_zip. lia.
Qed.

End SortParticles.

(** The three test positions, with y = 3, 1, 2. *)
Lemma test_positions_ordered :
  ordered_by_lt binary64 (pos_y <$> positions Data.molecule).
Proof.
  split.
  - intros a b Ha Hb.
    apply list_elem_of_In in Ha, Hb. simpl in Ha, Hb.
    destruct Ha as [<-|[<-|[<-|[]]]], Hb as [<-|[<-|[<-|[]]]];
      first [left; reflexivity | right; reflexivity].
  - intros a b c Ha Hb Hc.
    apply list_elem_of_In in Ha, Hb, Hc. simpl in Ha, Hb, Hc.
    destruct Ha as [<-|[<-|[<-|[]]]], Hb as [<-|[<-|[<-|[]]]],
      Hc as [<-|[<-|[<-|[]]]];
      vm_compute; intros H1 H2; first [reflexivity | discriminate].
Qed.

(** The three test particles, sorted. *)
Example sort_particles_ascending_example :
  ascending binary64
    (pos_y <$> [(0%float, 1%float, 0%float); (0%float, 2%float, 0%float);
                (0%float, 3%float, 0%float)])
  /\ zip [(0%float, 1%float, 0%float); (0%float, 2%float, 0%float);
          (0%float, 3%float, 0%float)] [10; 20; 30]
     ≡ₚ zip (positions Data.molecule) (orientations Data.molecule)
  /\ length [(0%float, 1%float, 0%float); (0%float, 2%float, 0%float);
             (0%float, 3%float, 0%float)] = length (positions Data.molecule)
  /\ length [10; 20; 30] = length (orientations Data.molecule).
Proof.
  apply (sort_particles_ascending binary64
           (positions Data.molecule) (orientations Data.molecule)).
  - reflexivity.
  - exact test_positions_ordered.
  - vm_compute. reflexivity.
Qed.

(** ** The extraction box *)

Section HalfLength.
Context {F : Type} (ops : FloatOps F).

(** C5: the half length is [particle_size // 2] when a particle size other
    than 0 is given, and otherwise
    [ceil(sqrt(sum over the axes of ((min - centroid) / voxel_size) ** 2)) + 1]
    with the centroid of an axis the midpoint of its atomic extent; the
    code's computation is the specification's formula. *)
Theorem half_length_formula (vx vy vz : F) (atoms : Atoms F) (particle_size : Z) :
  half_length ops (vx, vy, vz) atoms particle_size
    = spec_half_length ops (vx, vy, vz) atoms particle_size
  /\ (particle_size <> 0%Z ->
        half_length ops (vx, vy, vz) atoms particle_size
        = Ok (particle_size / 2)%Z)
  /\ (particle_size = 0%Z ->
        half_length ops (vx, vy, vz) atoms particle_size
        = (c ← int_ceil
                 (fceil ops
                    (fsqrt ops
                       (sum_axes ops
                          (axis_term ops (atoms_x atoms) vx)
                          (axis_term ops (atoms_y atoms) vy)
                          (axis_term ops (atoms_z atoms) vz))));
           Ok (c + 1)%Z)).
Proof.
  unfold half_length, spec_half_length.
  destruct (Z.eqb_spec particle_size 0) as [->|Hne].
  - rewrite decide_False by (intros H; by apply H). done.
  - rewrite decide_True by done. done.
Qed.

End HalfLength.

(** Atoms spanning 6 x 8 x 0: the half diagonal is 5 voxels of size 1 and
    2.5 voxels of size 2; an explicit size is halved, rounding down. *)
Example half_length_examples :
  let atoms := atoms Data.molecule in
  half_length binary64 (1%float, 1%float, 1%float) atoms 0 = Ok 6%Z
  /\ half_length binary64 (2%float, 2%float, 2%float) atoms 0 = Ok 4%Z
  /\ half_length binary64 (2%float, 2%float, 2%float) atoms 7 = Ok 3%Z
  /\ half_length binary64 (2%float, 2%float, 2%float) atoms (-3) = Ok (-2)%Z.
Proof. vm_compute. done. Qed.

(** ** The assertions at the head of the extraction *)

Section NotRaising.
Context (pre : assertion -> bool).

Lemma not_raising_bind {A B} (m : result A) (f : A -> result B) :
  not_raising pre m -> (forall a, not_raising pre (f a)) ->
  not_raising pre (m ≫= f).
Proof. destruct m as [a|e]; simpl; auto. Qed.

Lemma not_raising_fmap {A B} (f : A -> B) (m : result A) :
  not_raising pre m -> not_raising pre (f <$> m).
Proof. by destruct m. Qed.

Lemma not_raising_traverse {A B} (f : A -> result B) l :
  (forall x, not_raising pre (f x)) -> not_raising pre (traverse f l).
Proof.
  intros Hf. induction l as [|x l IH]; simpl; [done|].
  apply not_raising_bind; [done|]. intros y.
  apply not_raising_bind; [done|]. done.
Qed.

Lemma not_raising_for_each {A S} (body : S -> A -> result S) acc l :
  (forall s x, not_raising pre (body s x)) ->
  not_raising pre (for_each body acc l).
Proof.
  intros Hbody. revert acc. induction l as [|x l IH]; intros acc; simpl; [done|].
  apply not_raising_bind; done.
Qed.

Lemma not_raising_assert a c :
  pre a = false -> not_raising pre (py_assert a c).
Proof. by destruct c. Qed.

End NotRaising.

Section Preconditions.
Context {F O : Type} (ops : FloatOps F) (voxel_centre : Task F O -> Z * Z * Z).

(** The run raised an assertion that is one of the four. *)
Ltac raised_precondition :=
  eexists; split; [|reflexivity]; reflexivity.

(** The loop body raises none of the four assertions that precede it. *)
Lemma extract_molecule_not_raising completion centre size voxel_size tomogram
    particle_size (m : Molecule F O) :
  not_raising is_precondition
    (extract_molecule ops voxel_centre completion centre size voxel_size
       tomogram particle_size m).
Proof.
  unfold extract_molecule.
  apply not_raising_bind.
  { unfold half_length. destruct voxel_size as [[vx vy] vz].
    destruct (particle_size =? 0)%Z; [|done].
    apply not_raising_bind; [|done]. by destruct (fceil ops _). }
  intros hl. apply not_raising_bind; [by apply not_raising_assert|]. intros _.
  apply not_raising_bind.
  { unfold sort_particles. by destruct (sorted ops _ _). }
  intros [ps os]. apply not_raising_bind.
  { unfold create_store. by destruct (_ && _). }
  intros handle. apply not_raising_bind.
  { apply not_raising_traverse. intros [h i].
    by destruct (ps !! i), (os !! i). }
  intros tasks. apply not_raising_bind.
  { apply not_raising_traverse. intros i. destruct (tasks !! i) as [t|]; [|done].
    unfold _process_sub_tomo. apply not_raising_bind; [|done].
    unfold sample_volume. destruct (shape (task_tomogram t)) as [[n0 n1] n2].
    destruct (voxel_centre t) as [[c0 c1] c2]. by destruct (_ && _). }
  intros results. apply not_raising_bind; [|by intros []].
  apply not_raising_for_each. intros [h num] [hi dat]. simpl.
  apply not_raising_bind; [|done]. unfold broadcast_to.
  destruct (data_shape h) as [[t0 t1] t2], (shape dat) as [[s0 s1] s2].
  by destruct (decide _).
Qed.

(** When [==] and [>] behave on the voxel sizes as they do on numbers, the
    three checks of lines 95-97 say that the voxel size is greater than zero
    on every axis and the same on every pair of axes. *)
Lemma voxel_size_checks_all_axes (vx vy vz : F) :
  (forall a b, feqb ops a b = true -> fgtb ops a (fzero ops) = true ->
               fgtb ops b (fzero ops) = true) ->
  (forall a b c, feqb ops a b = true -> feqb ops a c = true ->
                 feqb ops b c = true) ->
  fgtb ops vx (fzero ops) = true /\ feqb ops vx vy = true
    /\ feqb ops vx vz = true
  <-> (fgtb ops vx (fzero ops) = true /\ fgtb ops vy (fzero ops) = true
       /\ fgtb ops vz (fzero ops) = true)
      /\ (feqb ops vx vy = true /\ feqb ops vx vz = true
          /\ feqb ops vy vz = true).
Proof.
  intros Hpos Heq. split.
  - intros (Hx & Hxy & Hxz). eauto 10.
  - intros ((Hx & _ & _) & Hxy & Hxz & _). done.
Qed.

(** C10: the extraction fails on one of the assertions of lines 95-101
    exactly when the sample does not hold one molecule species or the voxel
    size is not greater than zero and equal on the three axes; when these
    hold, none of the four assertions is raised. *)
Theorem extract_preconditions completion (sample : Sample F O)
    (tomo_file : TomoFile F) (particle_size : Z) :
  (exists a, is_precondition a = true
             /\ _extract_Config ops voxel_centre completion sample tomo_file
                  particle_size = Raise (AssertionError a))
  <-> ~ extract_precondition ops sample tomo_file.
Proof.
  unfold extract_precondition, _extract_Config, number_of_molecules.
  destruct (tomo_voxel_size tomo_file) as [[vx vy] vz]. simpl.
  destruct (fgtb ops vx (fzero ops)); simpl;
    [|split; [intros _ (_ & ? & _); done | intros _; raised_precondition]].
  destruct (feqb ops vx vy); simpl;
    [|split; [intros _ (_ & _ & ? & _); done | intros _; raised_precondition]].
  destruct (feqb ops vx vz); simpl;
    [|split; [intros _ (_ & _ & _ & ?); done | intros _; raised_precondition]].
  destruct (shape (tomo_data tomo_file)) as [[n0 n1] n2].
  destruct (Nat.eqb_spec (length (molecules sample)) 1) as [Hone|Hone]; simpl;
    [|split; [intros _ (? & _); done | intros _; raised_precondition]].
  split; [|intros Hnot; by destruct Hnot].
  intros (a & Hpre & Hrun). exfalso.
  destruct (molecules sample) as [|m [|m' ms]]; simplify_eq/=.
  pose proof (extract_molecule_not_raising completion (centre sample)
    (fmul ops (fof_Z ops (Z.of_nat n2)) vx, fmul ops (fof_Z ops (Z.of_nat n0)) vy,
     fmul ops (fof_Z ops (Z.of_nat n1)) vz) (vx, vy, vz)
    (tomo_data tomo_file) particle_size m) as Hbody.
  destruct (extract_molecule _ _ _ _ _ _ _ _ _) as [f|e]; simpl in *; [done|].
  simplify_eq/=. congruence.
Qed.

End Preconditions.

(** No molecule, unequal voxel sizes, and a sample that passes the four
    assertions. *)
Example extract_precondition_examples :
  _extract_Config binary64 Data.centre_of Data.completion Data.empty_sample
    Data.tomo 2 = Raise (AssertionError OneMolecule)
  /\ _extract_Config binary64 Data.centre_of Data.completion Data.sample
       Data.skewed_tomo 2 = Raise (AssertionError VoxelSizeXZ)
  /\ is_ok (_extract_Config binary64 Data.centre_of Data.completion Data.sample
              Data.tomo 2) = true
  /\ _extract_Config binary64 Data.centre_of Data.completion Data.sample
       Data.tomo 0 = Raise OutOfBoundsError.
Proof. vm_compute. done. Qed.

(** ** Growing the particle store *)

Section Store.
Context {F : Type} (ops : FloatOps F).

Lemma length_bind_const {A B} (g : A -> list B) n l :
  (forall x, length (g x) = n) -> length (l ≫= g) = length l * n.
Proof.
  intros Hg. induction l as [|x l IH]; [done|].
  rewrite bind_cons, length_app, Hg, IH. simpl. lia.
Qed.

(** What is written into the dataset has the dataset's cube shape. *)
Lemma broadcast_to_length target (a : ndarray F) row :
  broadcast_to ops target a = Ok row -> length row = volume target.
Proof.
  unfold broadcast_to. destruct target as [[t0 t1] t2].
  destruct (shape a) as [[s0 s1] s2]. destruct (decide _); [|done].
  intros [= <-]. simpl.
  rewrite (length_bind_const _ (t1 * t2)), length_seq; [lia|]. intros i.
  rewrite (length_bind_const _ t2), length_seq; [lia|]. intros j.
  rewrite (length_bind_const _ 1), length_seq; [lia|]. done.
Qed.

(** One pass of the loop body: the dataset has [num + 1] rows afterwards,
    whatever it had before, and keeps its shape and its voxel size. *)
Lemma append_particle_ok (h : H5File F) num res h' num' :
  append_particle ops (h, num) res = Ok (h', num') ->
  num' = num + 1
  /\ length (data h') = num + 1
  /\ data_shape h' = data_shape h
  /\ voxel_size h' = voxel_size h
  /\ (store_wf h -> store_wf h').
Proof.
  unfold append_particle. destruct res as [half_index dat].
  destruct (broadcast_to ops (data_shape h) dat) as [row|] eqn:Hrow; [|done].
  simpl. intros [= <- <-]. simpl.
  rewrite length_insert, length_resize.
  repeat split; try done.
  unfold store_wf. simpl. intros Hwf.
  apply Forall_insert; [|rewrite length_fmap; by apply broadcast_to_length in Hrow].
  apply Forall_resize; [|done]. apply length_replicate.
Qed.

(** The whole loop, started with [num] equal to the number of rows: one
    row more for every result. *)
Lemma for_each_append_ok results (h : H5File F) num h' num' :
  length (data h) = num ->
  for_each (append_particle ops) (h, num) results = Ok (h', num') ->
  length (data h') = num + length results
  /\ num' = num + length results
  /\ data_shape h' = data_shape h
  /\ voxel_size h' = voxel_size h
  /\ (store_wf h -> store_wf h').
Proof.
  revert h num. induction results as [|res results IH]; intros h num Hnum.
  - simpl. intros [= <- <-]. repeat split; try done; lia.
  - cbn [for_each].
    destruct (append_particle ops (h, num) res) as [[h1 n1]|] eqn:Hone;
      [|done].
    cbn [mbind result_bind]. intros Hrest.
    apply append_particle_ok in Hone as (-> & Hlen & Hshape & Hvoxel & Hwf).
    apply IH in Hrest as (Hlen' & -> & Hshape' & Hvoxel' & Hwf'); [|done].
    simpl. split; [lia|]. split; [lia|]. split; [congruence|].
    split; [congruence|auto].
Qed.

Lemma traverse_length {A B} (f : A -> result B) l ys :
  traverse f l = Ok ys -> length ys = length l.
Proof.
  revert ys. induction l as [|x l IH]; intros ys; simpl.
  - by intros [= <-].
  - destruct (f x) as [y|]; [|done]. simpl.
    destruct (traverse f l) as [ys'|]; [|done]. simpl.
    intros [= <-]. simpl. f_equal. by apply IH.
Qed.

End Store.

(** ** A run of the extraction, step by step *)

(** In [H : m ≫= f = Ok _], name the value [m] returned. *)
Ltac bind_ok H x Hx :=
  match type of H with
  | mbind _ ?m = Ok _ =>
      destruct m as [x|] eqn:Hx; [cbn [mbind result_bind] in H | discriminate H]
  end.

Section Run.
Context {F O : Type} (ops : FloatOps F) (voxel_centre : Task F O -> Z * Z * Z).

Lemma create_store_ok (voxel : F * F * F) (a b c : Z) h :
  create_store voxel (a, b, c) = Ok h ->
  (0 <= a)%Z /\ (0 <= b)%Z /\ (0 <= c)%Z
  /\ h = {| voxel_size := voxel;
            data_shape := (Z.to_nat a, Z.to_nat b, Z.to_nat c);
            data := [] |}.
Proof.
  unfold create_store.
  destruct (Z.leb_spec 0 a), (Z.leb_spec 0 b), (Z.leb_spec 0 c); simpl; try done.
  by intros [= <-].
Qed.

Lemma sort_particles_length (positions : list (F * F * F))
    (orientations : list O) ps os :
  length positions = length orientations ->
  sort_particles ops positions orientations = Ok (ps, os) ->
  length ps = length positions /\ length os = length positions.
Proof.
  intros Hlen. unfold sort_particles.
  pose proof (sorted_Permutation ops (fun x : F * F * F * O => pos_y x.1)
                (zip positions orientations)) as Hperm.
  destruct (sorted ops _ (zip positions orientations)) as [|x l]; [done|].
  intros Heq.
  assert (ps = (x :: l).*1 /\ os = (x :: l).*2) as [-> ->]
    by (by injection Heq as <- <-).
  rewrite !length_fmap, Hperm, length_zip. lia.
Qed.

(** One task for each particle. *)
Lemma _iterate_particles_length (ps : list (F * F * F)) (os : list O)
    centre size hl shape voxel tomogram tasks :
  _iterate_particles [seq 0 (length ps)] ps os centre size hl shape voxel
    tomogram = Ok tasks ->
  length tasks = length ps.
Proof.
  unfold _iterate_particles. intros Hrun. apply traverse_length in Hrun.
  rewrite Hrun. simpl. by rewrite app_nil_r, length_fmap, length_seq.
Qed.

Lemma lazy_map_length {A B} completion (f : A -> result B) tasks results :
  lazy_map completion f tasks = Ok results ->
  length results = length completion.
Proof. apply traverse_length. Qed.

(** The steps of a loop body that ends without an exception. *)
Lemma extract_molecule_ok completion centre size voxel tomogram particle_size
    (m : Molecule F O) f :
  extract_molecule ops voxel_centre completion centre size voxel tomogram
    particle_size m = Ok f ->
  exists hl ps os h0 tasks results num,
    half_length ops voxel (atoms m) particle_size = Ok hl
    /\ length (positions m) = length (orientations m)
    /\ sort_particles ops (positions m) (orientations m) = Ok (ps, os)
    /\ create_store voxel (2 * hl, 2 * hl, 2 * hl)%Z = Ok h0
    /\ _iterate_particles [seq 0 (length ps)] ps os centre size hl
         (2 * hl, 2 * hl, 2 * hl)%Z voxel tomogram = Ok tasks
    /\ lazy_map completion (_process_sub_tomo ops voxel_centre) tasks = Ok results
    /\ for_each (append_particle ops) (h0, 0) results = Ok (f, num).
Proof.
  unfold extract_molecule. intros Hrun.
  bind_ok Hrun hl Hhl.
  destruct (Nat.eqb_spec (length (positions m)) (length (orientations m)))
    as [Hlen|Hlen]; [|discriminate Hrun].
  cbn [py_assert mbind result_bind] in Hrun.
  bind_ok Hrun sorted_pair Hsort. destruct sorted_pair as [ps os].
  bind_ok Hrun h0 Hcreate.
  bind_ok Hrun tasks Htasks.
  bind_ok Hrun results Hresults.
  bind_ok Hrun final Hfinal. destruct final as [h num].
  injection Hrun as <-.
  by exists hl, ps, os, h0, tasks, results, num.
Qed.

(** A run that ends without an exception had one molecule and left the
    file of its loop body. *)
Lemma _extract_Config_ok completion (sample : Sample F O)
    (tomo_file : TomoFile F) particle_size r :
  _extract_Config ops voxel_centre completion sample tomo_file particle_size
    = Ok r ->
  exists m centre size f,
    molecules sample = [m] /\ r = Some f
    /\ extract_molecule ops voxel_centre completion centre size
         (tomo_voxel_size tomo_file) (tomo_data tomo_file) particle_size m
       = Ok f.
Proof.
  unfold _extract_Config, number_of_molecules.
  destruct (tomo_voxel_size tomo_file) as [[vx vy] vz].
  destruct (fgtb ops vx (fzero ops)); [|done].
  destruct (feqb ops vx vy); [|done].
  destruct (feqb ops vx vz); [|done].
  destruct (shape (tomo_data tomo_file)) as [[n0 n1] n2].
  destruct (molecules sample) as [|m [|m' ms]]; [done| |done].
  cbn [py_assert length Nat.eqb mbind result_bind for_each]. intros Hrun.
  bind_ok Hrun some_f Hbody. injection Hrun as <-.
  destruct (extract_molecule _ _ _ _ _ _ _ _ _) as [f|] eqn:Hf; [|done].
  injection Hbody as <-. eexists m, (centre sample), _, f.
  split; [done|]. split; [done|]. exact Hf.
Qed.

End Run.

(** ** The particle store after a run *)

Section AfterRun.
Context {F O : Type} (ops : FloatOps F) (voxel_centre : Task F O -> Z * Z * Z).

(** The cube a task cuts out has edge [2 * half_length] (section 4.2). *)
Lemma sample_volume_shape (tomogram : ndarray F) c hl cube :
  sample_volume ops tomogram c hl = Ok cube ->
  let L := Z.to_nat (2 * hl) in
  shape cube = (L, L, L) /\ length (values cube) = L * L * L.
Proof.
  unfold sample_volume. destruct (shape tomogram) as [[n0 n1] n2].
  destruct c as [[c0 c1] c2]. destruct (_ && _); [|done].
  intros [= <-]. simpl. split; [done|].
  rewrite (length_bind_const _ (Z.to_nat (2 * hl) * Z.to_nat (2 * hl))),
    length_seq; [lia|]. intros i.
  rewrite (length_bind_const _ (Z.to_nat (2 * hl))), length_seq; [lia|].
  intros j. rewrite (length_bind_const _ 1), length_seq; [lia|]. done.
Qed.

(** C6: when the extraction of the P particles of the species ends without
    an exception, every task having completed (in whatever order), the
    particle file holds exactly P cubes: the loop adds one row for each
    result it is handed. *)
Theorem extract_stores_every_particle completion (sample : Sample F O)
    (tomo_file : TomoFile F) particle_size (m : Molecule F O) f :
  molecules sample = [m] ->
  completion ≡ₚ seq 0 (length (positions m)) ->
  _extract_Config ops voxel_centre completion sample tomo_file particle_size
    = Ok (Some f) ->
  length (data f) = length (positions m).
Proof.
  intros Hm Hcompletion Hrun.
  apply _extract_Config_ok in Hrun as (m' & centre & size & f' & Hm' & Hf & Hrun).
  rewrite Hm in Hm'. simplify_eq.
  apply extract_molecule_ok in Hrun
    as (hl & ps & os & h0 & tasks & results & num
        & _ & Hlen & Hsort & Hcreate & Htasks & Hresults & Hloop).
  apply create_store_ok in Hcreate as (_ & _ & _ & ->).
  apply for_each_append_ok in Hloop as (Hrows & _); [|done].
  apply lazy_map_length in Hresults.
  rewrite Hrows, Hresults, Hcompletion, length_seq. done.
Qed.

(** C8: when the extraction ends without an exception, the dataset of the
    particle file has cube shape (L, L, L) with L = 2 * half_length of the
    species, and every cube in it has that shape (L * L * L values): the
    shape is fixed when the dataset is created and every write is broadcast
    to it or refused. *)
Theorem extract_cube_shape completion (sample : Sample F O)
    (tomo_file : TomoFile F) particle_size f :
  _extract_Config ops voxel_centre completion sample tomo_file particle_size
    = Ok (Some f) ->
  exists m hl,
    molecules sample = [m]
    /\ half_length ops (tomo_voxel_size tomo_file) (atoms m) particle_size = Ok hl
    /\ (0 <= 2 * hl)%Z
    /\ let L := Z.to_nat (2 * hl) in
       data_shape f = (L, L, L)
       /\ Forall (fun cube => length cube = L * L * L) (data f).
Proof.
  intros Hrun.
  apply _extract_Config_ok in Hrun as (m & centre & size & f' & Hm & Hf & Hrun).
  simplify_eq.
  apply extract_molecule_ok in Hrun
    as (hl & ps & os & h0 & tasks & results & num
        & Hhl & Hlen & Hsort & Hcreate & Htasks & Hresults & Hloop).
  apply create_store_ok in Hcreate as (Hpos & _ & _ & ->).
  apply for_each_append_ok in Hloop as (_ & _ & Hshape & _ & Hwf); [|done].
  exists m, hl. split; [done|]. split; [done|]. split; [done|].
  simpl in *. split; [done|].
  unfold store_wf in Hwf. rewrite Hshape in Hwf. apply Hwf. constructor.
Qed.

End AfterRun.

Lemma extract_stores_every_particle_witness :
  length (data Data.extracted) = length (positions Data.molecule).
Proof.
  apply (extract_stores_every_particle binary64 Data.centre_of Data.completion
           Data.sample Data.tomo 2 Data.molecule Data.extracted).
  - reflexivity.
  - exact (Permutation_cons_append [0; 1] 2).
  - vm_compute. reflexivity.
Defined.

Lemma extract_cube_shape_witness :
  exists m hl,
    molecules Data.sample = [m]
    /\ half_length binary64 (tomo_voxel_size Data.tomo) (atoms m) 2 = Ok hl
    /\ (0 <= 2 * hl)%Z
    /\ let L := Z.to_nat (2 * hl) in
       data_shape Data.extracted = (L, L, L)
       /\ Forall (fun cube => length cube = L * L * L) (data Data.extracted).
Proof.
  apply (extract_cube_shape binary64 Data.centre_of Data.completion
           Data.sample Data.tomo 2 Data.extracted).
  vm_compute. reflexivity.
Defined.

(** ** The tasks are made of the sorted particles *)

Section ScheduledTasks.
Context {F O : Type} (ops : FloatOps F) (voxel_centre : Task F O -> Z * Z * Z).

Lemma lookup_of_Forall2_seq {A B} (g : B -> A)
    (l : list A) (k : list B) :
  Forall2 (fun i t => l !! i = Some (g t)) (seq 0 (length l)) k ->
  g <$> k = l.
Proof.
  intros Hall. pose proof (Forall2_length _ _ _ Hall) as Hlen.
  rewrite length_seq in Hlen.
  apply list_eq. intros i. rewrite list_lookup_fmap.
  destruct (decide (i < length l)) as [Hi|Hi].
  - destruct (Forall2_lookup_l _ _ _ i i Hall) as (t & Ht & Hl);
      [by rewrite lookup_seq_lt|].
    by rewrite Ht, Hl.
  - rewrite (lookup_ge_None_2 k), (lookup_ge_None_2 l) by lia. done.
Qed.

(** One task for each particle, in the order of the lists handed over,
    each with the position and the orientation that stand at its index. *)
Lemma _iterate_particles_tasks (ps : list (F * F * F)) (os : list O)
    centre size hl shape voxel tomogram :
  length os = length ps ->
  exists tasks,
    _iterate_particles [seq 0 (length ps)] ps os centre size hl shape voxel
      tomogram = Ok tasks
    /\ task_position <$> tasks = ps
    /\ task_orientation <$> tasks = os
    /\ task_particle_index <$> tasks = seq 0 (length ps).
Proof.
  intros Hlen. unfold _iterate_particles.
  set (f := fun '(half_index, particle_index) => _).
  assert (forall idx,
            Forall (fun i => i < length ps) idx ->
            exists tasks,
              traverse f (pair 0 <$> idx) = Ok tasks
              /\ Forall2 (fun i t => ps !! i = Some (task_position t)) idx tasks
              /\ Forall2 (fun i t => os !! i = Some (task_orientation t)) idx tasks
              /\ task_particle_index <$> tasks = idx) as Hidx.
  { induction idx as [|i idx IH]; intros Hall.
    - exists []. by repeat split; try constructor.
    - apply Forall_cons in Hall as [Hi Hall].
      destruct (IH Hall) as (tasks & Hrun & Hp & Ho & Hn).
      destruct (lookup_lt_is_Some_2 ps i Hi) as [p Hpi].
      destruct (lookup_lt_is_Some_2 os i ltac:(lia)) as [o Hoi].
      rewrite fmap_cons. cbn [traverse]. unfold f in *. cbv beta iota.
      rewrite Hpi, Hoi.
      cbn [mbind result_bind]. rewrite Hrun. cbn [mbind result_bind].
      eexists. split; [done|]. split; [by constructor|].
      split; [by constructor|]. by rewrite fmap_cons, Hn. }
  destruct (Hidx (seq 0 (length ps))) as (tasks & Hrun & Hp & Ho & Hn).
  { apply Forall_forall. intros i Hi. apply elem_of_seq in Hi. lia. }
  exists tasks. split.
  { cbn. rewrite app_nil_r. exact Hrun. }
  split; [by apply lookup_of_Forall2_seq|].
  split; [|done].
  rewrite <- Hlen in Ho. by apply lookup_of_Forall2_seq.
Qed.

(** C9: in a run of the extraction that has passed the checks of lines
    95-101 and 131, on a species that has particles, the lists handed to the
    creation of the tasks are the sorted ones.  The positions [ps] are in
    ascending order of their y coordinate, each with the orientation it was
    paired with (the sorted pairs are a permutation of the given ones); the
    tasks are one per particle, in that order, each carrying the position
    and the orientation at its index; and from the creation of the particle
    file on, the run is the one over these tasks, whether it ends with a
    file or in an exception.  [<] is assumed to order the y coordinates at
    hand, as it does floats that are not nan. *)
Theorem extract_schedules_sorted_particles completion (sample : Sample F O)
    (tomo_file : TomoFile F) particle_size (m : Molecule F O) hl :
  extract_precondition ops sample tomo_file ->
  molecules sample = [m] ->
  half_length ops (tomo_voxel_size tomo_file) (atoms m) particle_size = Ok hl ->
  positions m <> [] ->
  length (positions m) = length (orientations m) ->
  ordered_by_lt ops (pos_y <$> positions m) ->
  exists ps os size tasks,
    sort_particles ops (positions m) (orientations m) = Ok (ps, os)
    /\ ascending ops (pos_y <$> ps)
    /\ zip ps os ≡ₚ zip (positions m) (orientations m)
    /\ length ps = length (positions m)
    /\ length os = length (orientations m)
    /\ _iterate_particles [seq 0 (length ps)] ps os (centre sample) size hl
         (2 * hl, 2 * hl, 2 * hl)%Z (tomo_voxel_size tomo_file)
         (tomo_data tomo_file) = Ok tasks
    /\ task_position <$> tasks = ps
    /\ task_orientation <$> tasks = os
    /\ task_particle_index <$> tasks = seq 0 (length ps)
    /\ _extract_Config ops voxel_centre completion sample tomo_file particle_size
       = (handle ← create_store (tomo_voxel_size tomo_file)
                     (2 * hl, 2 * hl, 2 * hl)%Z;
          results ← lazy_map completion (_process_sub_tomo ops voxel_centre) tasks;
          '(handle, num) ← for_each (append_particle ops) (handle, 0) results;
          Ok (Some handle)).
Proof.
  intros (Hone & Hpos & Hxy & Hxz) Hm Hhl Hne Hlen Hord.
  destruct (sort_particles_total ops (positions m) (orientations m) Hne Hlen)
    as (ps & os & Hsort).
  destruct (sort_particles_ascending ops (positions m) (orientations m) ps os
              Hlen Hord Hsort) as (Hasc & Hperm & Hlps & Hlos).
  unfold _extract_Config.
  destruct (tomo_voxel_size tomo_file) as [[vx vy] vz] eqn:Hvoxel.
  cbn [fst snd] in Hpos, Hxy, Hxz. rewrite Hpos, Hxy, Hxz.
  cbn [py_assert mbind result_bind].
  destruct (shape (tomo_data tomo_file)) as [[n0 n1] n2].
  rewrite Hone. cbn [Nat.eqb py_assert mbind result_bind]. rewrite Hm.
  cbn [for_each].
  set (size := (fmul ops (fof_Z ops (Z.of_nat n2)) vx,
                fmul ops (fof_Z ops (Z.of_nat n0)) vy,
                fmul ops (fof_Z ops (Z.of_nat n1)) vz)).
  destruct (_iterate_particles_tasks ps os (centre sample) size hl
              (2 * hl, 2 * hl, 2 * hl)%Z (vx, vy, vz) (tomo_data tomo_file))
    as (tasks & Htasks & Htp & Hto & Hti); [lia|].
  exists ps, os, size, tasks.
  split; [done|]. split; [done|]. split; [done|]. split; [done|].
  split; [done|]. split; [done|]. split; [done|]. split; [done|].
  split; [done|].
  unfold extract_molecule. rewrite Hhl. cbn [mbind result_bind].
  rewrite Hlen, Nat.eqb_refl. cbn [py_assert mbind result_bind].
  rewrite Hsort. cbn [mbind result_bind].
  destruct (create_store (vx, vy, vz) (2 * hl, 2 * hl, 2 * hl)%Z) as [h0|e];
    [|done].
  cbn [mbind result_bind fmap result_fmap]. rewrite Htasks.
  cbn [mbind result_bind].
  destruct (lazy_map completion (_process_sub_tomo ops voxel_centre) tasks)
    as [results|e]; [|done].
  cbn [mbind result_bind].
  by destruct (for_each (append_particle ops) (h0, 0) results) as [[h num]|e].
Qed.

(** A species without particle positions never gets to the tasks.  In a
    run that has passed the checks of lines 95-101, it ends in the
    [AssertionError] of line 131 when the species has orientations, and
    otherwise in the [ValueError] of the unpacking of the sorted pairs
    (line 143), which has nothing to unpack. *)
Theorem extract_empty_species completion (sample : Sample F O)
    (tomo_file : TomoFile F) particle_size (m : Molecule F O) hl :
  extract_precondition ops sample tomo_file ->
  molecules sample = [m] ->
  half_length ops (tomo_voxel_size tomo_file) (atoms m) particle_size = Ok hl ->
  positions m = [] ->
  _extract_Config ops voxel_centre completion sample tomo_file particle_size
  = Raise (match orientations m with
           | [] => ValueError
           | _ :: _ => AssertionError PositionsOrientations
           end).
Proof.
  intros (Hone & Hpos & Hxy & Hxz) Hm Hhl Hempty.
  unfold _extract_Config.
  destruct (tomo_voxel_size tomo_file) as [[vx vy] vz] eqn:Hvoxel.
  cbn [fst snd] in Hpos, Hxy, Hxz. rewrite Hpos, Hxy, Hxz.
  cbn [py_assert mbind result_bind].
  destruct (shape (tomo_data tomo_file)) as [[n0 n1] n2].
  rewrite Hone. cbn [Nat.eqb py_assert mbind result_bind]. rewrite Hm.
  cbn [for_each]. unfold extract_molecule. rewrite Hhl, Hempty.
  cbn [mbind result_bind length].
  by destruct (orientations m) as [|o os].
Qed.

End ScheduledTasks.

Lemma extract_schedules_sorted_particles_witness :
  exists ps os size tasks,
    sort_particles binary64 (positions Data.molecule) (orientations Data.molecule)
    = Ok (ps, os)
    /\ ascending binary64 (pos_y <$> ps)
    /\ zip ps os ≡ₚ zip (positions Data.molecule) (orientations Data.molecule)
    /\ length ps = length (positions Data.molecule)
    /\ length os = length (orientations Data.molecule)
    /\ _iterate_particles [seq 0 (length ps)] ps os (centre Data.sample) size 1
         (2 * 1, 2 * 1, 2 * 1)%Z (tomo_voxel_size Data.tomo)
         (tomo_data Data.tomo) = Ok tasks
    /\ task_position <$> tasks = ps
    /\ task_orientation <$> tasks = os
    /\ task_particle_index <$> tasks = seq 0 (length ps)
    /\ _extract_Config binary64 Data.centre_of Data.completion Data.sample
         Data.tomo 2
       = (handle ← create_store (tomo_voxel_size Data.tomo)
                     (2 * 1, 2 * 1, 2 * 1)%Z;
          results ← lazy_map Data.completion
                      (_process_sub_tomo binary64 Data.centre_of) tasks;
          '(handle, num) ← for_each (append_particle binary64) (handle, 0) results;
          Ok (Some handle)).
Proof.
  apply (extract_schedules_sorted_particles binary64 Data.centre_of
           Data.completion Data.sample Data.tomo 2 Data.molecule 1).
  - repeat split.
  - reflexivity.
  - vm_compute. reflexivity.
  - discriminate.
  - reflexivity.
  - exact test_positions_ordered.
Defined.

Lemma extract_empty_species_witness :
  _extract_Config binary64 Data.centre_of Data.completion Species.bare_sample
    Data.tomo 2
  = Raise ValueError.
Proof.
  apply (extract_empty_species binary64 Data.centre_of Data.completion
           Species.bare_sample Data.tomo 2 Species.bare 1).
  - repeat split.
  - reflexivity.
  - vm_compute. reflexivity.
  - reflexivity.
Defined.

(** ** Further facts about the two functions *)

(** All five particles of the test store: the run ends with the two maps. *)
Lemma average_succeeds_witness :
  exists m1 m2 g',
    average_extracted_particles binary64 shuffle_random Data.store5
      default_num_particles [3; 1; 4; 1; 5] = (Ok (m1, m2), g').
Proof.
  apply (average_succeeds binary64 shuffle_random shuffle_random_samples
           Data.store5 default_num_particles [3; 1; 4; 1; 5]).
  vm_compute. split; discriminate.
Defined.

(** * Properties of the file names *)

(** ** [rfind] *)

Lemma rfind_not_elem c p : (c ∉ p) -> rfind c p = (-1)%Z.
Proof.
  induction p as [|x p IH]; [done|]. intros Hnot.
  apply not_elem_of_cons in Hnot as [Hne Hnot]. simpl. rewrite IH by done.
  simpl. by rewrite decide_False.
Qed.

Lemma rfind_last_occurrence c l1 l2 :
  (c ∉ l2) -> rfind c (l1 ++ c :: l2) = Z.of_nat (length l1).
Proof.
  intros Hnot. induction l1 as [|x l1 IH]; simpl.
  - rewrite rfind_not_elem by done. simpl. by rewrite decide_True.
  - rewrite IH. destruct (Z.leb_spec 0 (Z.of_nat (length l1))); lia.
Qed.

(** [rfind] finds nothing, or the last occurrence. *)
Lemma rfind_cases c p :
  ((c ∉ p) /\ rfind c p = (-1)%Z)
  \/ exists l1 l2, p = l1 ++ c :: l2 /\ (c ∉ l2)
                   /\ rfind c p = Z.of_nat (length l1).
Proof.
  induction p as [|x p IH].
  - left. split; [apply not_elem_of_nil|done].
  - destruct IH as [[Hnot Hr]|(l1 & l2 & -> & Hnot & Hr)].
    + destruct (decide (x = c)) as [->|Hne].
      * right. exists [], p. split; [done|]. split; [done|].
        by apply (rfind_last_occurrence c []).
      * left. split; [by apply not_elem_of_cons|].
        by apply rfind_not_elem, not_elem_of_cons.
    + right. exists (x :: l1), l2. split; [done|]. split; [done|].
      by apply (rfind_last_occurrence c (x :: l1)).
Qed.

Lemma rfind_elem_after c x l1 l2 :
  x ∈ l2 -> (Z.of_nat (length l1) < rfind x (l1 ++ c :: l2))%Z.
Proof.
  intros Hin.
  destruct (rfind_cases x (l1 ++ c :: l2)) as [[Hnot _]|(m1 & m2 & Heq & Hnot & ->)].
  - exfalso. apply Hnot. apply elem_of_app. right. by right.
  - destruct (Z.lt_ge_cases (Z.of_nat (length l1)) (Z.of_nat (length m1)))
      as [|Hle]; [done|]. exfalso. apply Hnot.
    apply list_elem_of_lookup in Hin as [i Hi].
    assert ((l1 ++ c :: l2) !! (length l1 + S i) = Some x) as Hat.
    { rewrite lookup_app_r by lia.
      by replace (length l1 + S i - length l1) with (S i) by lia. }
    rewrite Heq, lookup_app_r in Hat by lia.
    destruct (length l1 + S i - length m1) as [|k] eqn:Hk; [lia|].
    apply list_elem_of_lookup. by exists k.
Qed.

Lemma last_occurrence_unique (c : ascii) l1 l2 m1 m2 :
  l1 ++ c :: l2 = m1 ++ c :: m2 -> (c ∉ l2) -> (c ∉ m2) ->
  l1 = m1 /\ l2 = m2.
Proof.
  intros Heq Hl Hm.
  assert (length l1 = length m1) as Hlen.
  { apply Nat2Z.inj. rewrite <-(rfind_last_occurrence c l1 l2 Hl), Heq.
    by apply rfind_last_occurrence. }
  apply app_inj_1 in Heq as [-> [= ->]]; done.
Qed.

(** ** [os.path.splitext] *)

Lemma skip_leading_dots_cases p d i n :
  Posixpath.skip_leading_dots p d i n = (p, [])
  \/ Posixpath.skip_leading_dots p d i n = (take d p, drop d p).
Proof.
  revert i. induction n as [|n IH]; intros i; simpl; [by left|].
  destruct (decide _); [apply IH|by right].
Qed.

(** The extension is empty, or it is the last dot of the name and what
    follows it, in which there is neither a dot nor a slash; and root and
    extension make up the name. *)
Lemma splitext_cases p :
  Posixpath.splitext p = (p, [])
  \/ exists root rest,
       p = root ++ "."%char :: rest
       /\ ("."%char ∉ rest) /\ ("/"%char ∉ rest)
       /\ Posixpath.splitext p = (root, "."%char :: rest).
Proof.
  unfold Posixpath.splitext.
  destruct (Z.ltb_spec (rfind "/" p) (rfind "." p)) as [Hlt|_]; [|by left].
  destruct (skip_leading_dots_cases p (Z.to_nat (rfind "." p))
              (Z.to_nat (rfind "/" p + 1))
              (Z.to_nat (rfind "." p) - Z.to_nat (rfind "/" p + 1)))
    as [->| ->]; [by left|].
  right.
  destruct (rfind_cases "." p) as [[_ Hr]|(root & rest & -> & Hnot & Hr)].
  { destruct (rfind_cases "/" p) as [[_ Hs]|(? & ? & _ & _ & Hs)]; lia. }
  exists root, rest. rewrite Hr in *. rewrite Nat2Z.id.
  split; [done|]. split; [done|]. split.
  - intros Hin. apply (rfind_elem_after "."%char "/"%char root rest) in Hin. lia.
  - by rewrite take_app_length, drop_app_length.
Qed.

Lemma splitext_app p : (Posixpath.splitext p).1 ++ (Posixpath.splitext p).2 = p.
Proof.
  destruct (splitext_cases p) as [->|(root & rest & Hp & _ & _ & ->)]; simpl.
  - apply app_nil_r.
  - done.
Qed.

(** The extension of a name that ends in a dot and [e], where [e] has
    neither a dot nor a slash: [.e], or nothing when only dots precede it
    in the last component. *)
Lemma splitext_suffix stem e :
  ("."%char ∉ e) -> ("/"%char ∉ e) ->
  (Posixpath.splitext (stem ++ "."%char :: e)).2 = []
  \/ (Posixpath.splitext (stem ++ "."%char :: e)).2 = "."%char :: e.
Proof.
  intros Hdot Hsep.
  destruct (splitext_cases (stem ++ "."%char :: e))
    as [->|(root & rest & Hp & Hnot & _ & ->)]; [by left|].
  right. simpl. apply last_occurrence_unique in Hp as [_ ->]; done.
Qed.

(** A renaming of the characters that keeps dots and slashes, and only
    them, as they are goes through [splitext]. *)
Section Renaming.
Context (rename : ascii -> ascii).
Hypothesis rename_dot : forall x, rename x = "."%char <-> x = "."%char.
Hypothesis rename_sep : forall x, rename x = "/"%char <-> x = "/"%char.

Lemma rfind_rename c p :
  (forall x, rename x = c <-> x = c) -> rfind c (rename <$> p) = rfind c p.
Proof.
  intros Hc. induction p as [|x p IH]; [done|].
  rewrite fmap_cons. simpl. rewrite IH.
  destruct (0 <=? rfind c p)%Z; [done|].
  destruct (decide (x = c)) as [Hx|Hx].
  - rewrite decide_True; [done|by apply Hc].
  - rewrite decide_False; [done|]. by rewrite Hc.
Qed.

Lemma skip_leading_dots_rename p d i n :
  Posixpath.skip_leading_dots (rename <$> p) d i n
  = (rename <$> (Posixpath.skip_leading_dots p d i n).1,
     rename <$> (Posixpath.skip_leading_dots p d i n).2).
Proof.
  revert i. induction n as [|n IH]; intros i; simpl; [done|].
  rewrite list_lookup_fmap.
  destruct (decide (p !! i = Some "."%char)) as [Hi|Hi].
  - rewrite Hi. simpl. rewrite decide_True; [apply IH|].
    f_equal. by apply rename_dot.
  - rewrite decide_False; [simpl; by rewrite fmap_take, fmap_drop|].
    intros Heq. apply Hi. destruct (p !! i) as [x|]; simplify_eq/=.
    f_equal. by apply rename_dot.
Qed.

Lemma splitext_rename p :
  Posixpath.splitext (rename <$> p)
  = (rename <$> (Posixpath.splitext p).1, rename <$> (Posixpath.splitext p).2).
Proof.
  unfold Posixpath.splitext. rewrite !rfind_rename by done.
  destruct (rfind "/" p <? rfind "." p)%Z; [|done].
  apply skip_leading_dots_rename.
Qed.

End Renaming.

(** ** [str.lower] *)

Lemma lower_char_idemp c : lower_char (lower_char c) = lower_char c.
Proof. by destruct c as [[] [] [] [] [] [] [] []]. Qed.

Lemma lower_char_dot c : lower_char c = "."%char <-> c = "."%char.
Proof. destruct c as [[] [] [] [] [] [] [] []]; by vm_compute. Qed.

Lemma lower_char_sep c : lower_char c = "/"%char <-> c = "/"%char.
Proof. destruct c as [[] [] [] [] [] [] [] []]; by vm_compute. Qed.

Lemma lower_idemp s : lower (lower s) = lower s.
Proof.
  unfold lower. rewrite <-list_fmap_compose. apply list_fmap_ext.
  intros _ c _. apply lower_char_idemp.
Qed.

(** The extension the file interface looks at is that of the name in lower
    case. *)
Lemma extension_lower filename : Io.extension (lower filename) = Io.extension filename.
Proof.
  unfold Io.extension, lower at 2.
  rewrite (splitext_rename lower_char lower_char_dot lower_char_sep). simpl.
  apply lower_idemp.
Qed.

(** ** The writer and the reader chosen for a file name *)

Section Dispatch.
Context {F : Type} (ops : FloatOps F) (float32 : F -> F).
Context (mrcfile_mmap : list ascii -> outcome (MrcHandle F)).
Context (from_nexus : list ascii -> outcome (Reader F)).

(** Whatever [new] can write as MRC or NeXus, [open] reads with the reader
    of that format; what it writes as images, and what it refuses, [open]
    refuses as a file with unknown extension. *)
Theorem new_and_open_agree filename shape vmin vmax :
  match Io.new ops filename shape vmin vmax with
  | Return (WriterMrc _) =>
      Io.open ops float32 mrcfile_mmap from_nexus filename
      = Io.from_mrcfile ops float32 mrcfile_mmap filename
  | Return (WriterNexus _) =>
      Io.open ops float32 mrcfile_mmap from_nexus filename = from_nexus filename
  | Return (WriterImage _) | Throw _ =>
      Io.open ops float32 mrcfile_mmap from_nexus filename
      = Throw (RuntimeError filename)
  end.
Proof.
  unfold Io.open, Io.from_file, Io.new.
  destruct (bool_decide (Io.extension filename ∈ [str ".mrc"])); [done|].
  destruct (bool_decide (Io.extension filename ∈ _)); [done|].
  by destruct (bool_decide (Io.extension filename ∈ _)).
Qed.

(** No file name has the extension "nxtomo", the last entry of the list of
    NeXus extensions, which lacks its dot: a name that ends in ".nxtomo" is
    refused by [new] and by [open] alike. *)
Theorem nxtomo_names_are_refused stem shape vmin vmax :
  let filename := stem ++ str ".nxtomo" in
  (forall name, Io.extension name <> str "nxtomo")
  /\ Io.new ops filename shape vmin vmax = Throw (RuntimeError filename)
  /\ Io.open ops float32 mrcfile_mmap from_nexus filename
     = Throw (RuntimeError filename).
Proof.
  intros filename. split.
  { intros name. unfold Io.extension.
    destruct (splitext_cases name) as [->|(root & rest & _ & _ & _ & ->)];
      simpl; [done|].
    intros Heq. apply (f_equal head) in Heq. by vm_compute in Heq. }
  assert (Io.extension filename = [] \/ Io.extension filename = str ".nxtomo")
    as Hext.
  { unfold Io.extension, filename.
    destruct (splitext_suffix stem (str "nxtomo")) as [Hnone|Hsome].
    - intros Hin. apply list_elem_of_In in Hin. simpl in Hin.
      repeat destruct Hin as [Hin|Hin]; done.
    - intros Hin. apply list_elem_of_In in Hin. simpl in Hin.
      repeat destruct Hin as [Hin|Hin]; done.
    - left. change (str ".nxtomo") with ("."%char :: str "nxtomo").
      by rewrite Hnone.
    - right. change (str ".nxtomo") with ("."%char :: str "nxtomo").
      by rewrite Hsome. }
  unfold Io.open, Io.from_file, Io.new.
  destruct Hext as [-> | ->]; by vm_compute.
Qed.

(** ASCII names that differ only in the case of their letters have the
    same lowered extension, on which alone [from_file] chooses the reader,
    and get a writer of the same class.  (Beyond ASCII the statement would
    be false of [str.lower]: two names can be equal once lowered and still
    have different lowered extensions.) *)
Theorem dispatch_ignores_case filename filename' shape vmin vmax :
  ascii_only filename = true ->
  ascii_only filename' = true ->
  lower filename = lower filename' ->
  Io.extension filename = Io.extension filename'
  /\ writer_class (Io.new ops filename shape vmin vmax)
     = writer_class (Io.new ops filename' shape vmin vmax).
Proof.
  intros _ _ Hlower.
  assert (Io.extension filename = Io.extension filename') as Hext
    by (by rewrite <-(extension_lower filename), Hlower, extension_lower).
  split; [done|]. unfold Io.new. rewrite Hext.
  destruct (bool_decide (_ ∈ [str ".mrc"])); [done|].
  destruct (bool_decide (_ ∈ _)); [done|].
  by destruct (bool_decide (_ ∈ _)).
Qed.

End Dispatch.

(** ** [os.path.dirname] and [os.path.join] *)

Lemma rstrip_sep_cons c s :
  rstrip_sep (c :: s)
  = match rstrip_sep s with
    | [] => if decide (c = "/"%char) then [] else [c]
    | r => c :: r
    end.
Proof. done. Qed.

Lemma rstrip_sep_app_sep h : rstrip_sep (h ++ ["/"%char]) = rstrip_sep h.
Proof.
  induction h as [|c h IH]; [done|].
  change ((c :: h) ++ ["/"%char]) with (c :: (h ++ ["/"%char])).
  by rewrite !rstrip_sep_cons, IH.
Qed.

Lemma rstrip_sep_id h c :
  last h = Some c -> c <> "/"%char -> rstrip_sep h = h.
Proof.
  intros Hlast Hc. induction h as [|c0 h IH]; [done|].
  destruct h as [|c1 h].
  - simpl in *. simplify_eq. by rewrite decide_False.
  - rewrite rstrip_sep_cons, IH by done. done.
Qed.

Lemma rstrip_sep_last s :
  rstrip_sep s = [] \/ exists c, last (rstrip_sep s) = Some c /\ c <> "/"%char.
Proof.
  induction s as [|c0 s IH]; [by left|]. rewrite rstrip_sep_cons.
  destruct IH as [->|(c & Hlast & Hc)].
  - destruct (decide (c0 = "/"%char)); [by left|]. right. by exists c0.
  - right. exists c. destruct (rstrip_sep s) as [|c1 r]; [done|]. done.
Qed.

Lemma rstrip_sep_nil s :
  rstrip_sep s = [] -> s = replicate (length s) "/"%char.
Proof.
  induction s as [|c0 s IH]; [done|]. rewrite rstrip_sep_cons.
  destruct (rstrip_sep s) as [|c1 r]; [|done].
  destruct (decide (c0 = "/"%char)) as [->|]; [|done].
  intros _. simpl. by rewrite <-IH.
Qed.

Lemma rstrip_sep_replicate n : rstrip_sep (replicate n "/"%char) = [].
Proof. induction n as [|n IH]; [done|]. simpl. by rewrite IH. Qed.

(** [dirname] of a name with a slash: what stands before the last slash,
    without the slashes that end it, unless it is nothing but slashes. *)
Lemma dirname_last_sep l1 l2 :
  ("/"%char ∉ l2) ->
  Posixpath.dirname (l1 ++ "/"%char :: l2)
  = if bool_decide (l1 ++ ["/"%char] = replicate (S (length l1)) "/"%char)
    then l1 ++ ["/"%char] else rstrip_sep l1.
Proof.
  intros Hnot. unfold Posixpath.dirname.
  rewrite rfind_last_occurrence by done.
  replace (Z.to_nat (Z.of_nat (length l1) + 1)) with (S (length l1)) by lia.
  rewrite cons_middle, app_assoc, take_app_length'
    by (rewrite length_app; simpl; lia).
  rewrite length_app. simpl. rewrite Nat.add_1_r.
  rewrite bool_decide_true by (by destruct l1).
  destruct (decide (l1 ++ ["/"%char] = replicate (S (length l1)) "/"%char))
    as [Hall|Hall].
  - rewrite (bool_decide_false (_ <> _)) by (intros H; by apply H).
    by rewrite bool_decide_true.
  - rewrite (bool_decide_true (_ <> _)) by done.
    rewrite bool_decide_false by done. simpl. apply rstrip_sep_app_sep.
Qed.

Lemma dirname_no_sep p : ("/"%char ∉ p) -> Posixpath.dirname p = [].
Proof.
  intros Hnot. unfold Posixpath.dirname. by rewrite rfind_not_elem.
Qed.

(** A file put with [join] into the directory of [p] has the directory of
    [p]. *)
Lemma dirname_join_dirname p name :
  ("/"%char ∉ name) ->
  Posixpath.dirname (Posixpath.join (Posixpath.dirname p) name)
  = Posixpath.dirname p.
Proof.
  intros Hname.
  assert (Hstart : startswith_sep name = false).
  { destruct name as [|c name]; [done|]. simpl. apply bool_decide_false.
    intros ->. apply Hname. by left. }
  unfold Posixpath.join at 1. rewrite Hstart.
  destruct (rfind_cases "/"%char p) as [[Hnot _]|(l1 & l2 & -> & Hnot & _)].
  - rewrite (dirname_no_sep p) by done. simpl. by apply dirname_no_sep.
  - rewrite (dirname_last_sep l1 l2) by done.
    destruct (decide (l1 ++ ["/"%char] = replicate (S (length l1)) "/"%char))
      as [Hall|Hall].
    + rewrite (bool_decide_eq_true_2 _ Hall).
      assert (l1 ++ ["/"%char] <> []) as Hne by (by destruct l1).
      rewrite (bool_decide_eq_false_2 _ Hne).
      unfold endswith_sep. rewrite last_snoc.
      rewrite (bool_decide_eq_true_2 ("/"%char = "/"%char) eq_refl). simpl.
      rewrite <-app_assoc. simpl. rewrite dirname_last_sep by done.
      by rewrite (bool_decide_eq_true_2 _ Hall).
    + rewrite (bool_decide_eq_false_2 _ Hall).
      destruct (rstrip_sep_last l1) as [Hnil|(c & Hlast & Hc)].
      { exfalso. apply Hall. apply rstrip_sep_nil in Hnil.
        rewrite Hnil at 1. by rewrite <-replicate_S_end. }
      assert (rstrip_sep l1 <> []) as Hne
        by (intros Hnil; by rewrite Hnil in Hlast).
      rewrite (bool_decide_eq_false_2 _ Hne).
      unfold endswith_sep. rewrite Hlast.
      rewrite (bool_decide_eq_false_2 _ Hc). simpl.
      rewrite dirname_last_sep by done.
      rewrite bool_decide_eq_false_2.
      * apply (rstrip_sep_id _ c); done.
      * intros Hrep.
        assert (rstrip_sep (rstrip_sep l1 ++ ["/"%char]) = []) as Hnil
          by (rewrite Hrep; apply rstrip_sep_replicate).
        rewrite rstrip_sep_app_sep, (rstrip_sep_id _ c) in Hnil by done.
        done.
Qed.

(** ** Names with a proper extension *)

Lemma skip_leading_dots_split p d i n k :
  i <= k < i + n -> p !! k <> Some "."%char ->
  Posixpath.skip_leading_dots p d i n = (take d p, drop d p).
Proof.
  revert i. induction n as [|n IH]; intros i Hk Hnot; [lia|]. simpl.
  destruct (decide (p !! i = Some "."%char)) as [Hi|Hi]; [|done].
  apply IH; [|done]. destruct (decide (k = i)) as [->|]; [done|lia].
Qed.

Lemma not_elem_of_chars (c : ascii) (s : list ascii) :
  forallb (fun x => negb (bool_decide (x = c))) s = true -> c ∉ s.
Proof.
  induction s as [|x s IH]; simpl; [intros _; apply not_elem_of_nil|].
  intros [Hx Hs]%andb_prop. apply not_elem_of_cons. split; [|by apply IH].
  apply negb_true_iff, bool_decide_eq_false in Hx. congruence.
Qed.

(** A name that ends in a character other than a dot or a slash, a dot,
    and [e] without dot or slash, has the extension [.e]. *)
Lemma splitext_named stem c e :
  c <> "."%char -> c <> "/"%char -> ("."%char ∉ e) -> ("/"%char ∉ e) ->
  Posixpath.splitext (stem ++ c :: "."%char :: e) = (stem ++ [c], "."%char :: e).
Proof.
  intros Hdot Hsep Hedot Hesep. unfold Posixpath.splitext.
  set (p := stem ++ c :: "."%char :: e).
  assert (p = (stem ++ [c]) ++ "."%char :: e) as Hp
    by (unfold p; by rewrite <-app_assoc).
  assert (rfind "."%char p = Z.of_nat (S (length stem))) as Hd.
  { rewrite Hp, rfind_last_occurrence by done.
    rewrite length_app. simpl. lia. }
  assert (rfind "/"%char p < Z.of_nat (length stem))%Z as Hs.
  { destruct (rfind_cases "/"%char p) as [[_ ->]|(m1 & m2 & Heq & _ & ->)];
      [lia|].
    destruct (Z.lt_ge_cases (Z.of_nat (length m1)) (Z.of_nat (length stem)))
      as [|Hge]; [done|]. exfalso.
    assert (p !! length m1 = Some "/"%char) as Hat
      by (rewrite Heq; apply list_lookup_middle; done).
    unfold p in Hat. rewrite lookup_app_r in Hat by lia.
    apply list_elem_of_lookup_2 in Hat.
    apply elem_of_cons in Hat as [?|Hat]; [done|].
    apply elem_of_cons in Hat as [?|Hat]; done. }
  rewrite Hd. destruct (Z.ltb_spec (rfind "/"%char p) (Z.of_nat (S (length stem))));
    [|lia].
  rewrite Nat2Z.id.
  rewrite (skip_leading_dots_split p _ _ _ (length stem)).
  - rewrite Hp, take_app_length', drop_app_length'; [done| |];
      rewrite length_app; simpl; lia.
  - pose proof (rfind_cases "/"%char p) as Hcases.
    assert (-1 <= rfind "/"%char p)%Z
      by (destruct Hcases as [[_ ->]|(? & ? & _ & _ & ->)]; lia).
    lia.
  - unfold p. rewrite lookup_app_r, Nat.sub_diag by lia. simpl. congruence.
Qed.

(** ** The reconstruction driver *)

Section ReconstructFacts.
Context {F : Type} (ops : FloatOps F) (fneg : F -> F) (fint : F -> outcome Z).

(** The steps of a call that reaches the reconstruction engine. *)
Lemma reconstruct_internal_ok image_filename rec_filename
    (microscope : Microscope F) simulation dev call :
  Reconstruct.reconstruct_internal ops fneg fint image_filename rec_filename
    microscope simulation dev = Return call ->
  (Posixpath.splitext image_filename).2 = str ".mrc"
  /\ input_filename call = image_filename
  /\ output_filename call = rec_filename
  /\ corrected_filename call
     = Posixpath.join (Posixpath.dirname rec_filename) (str "CORRECTED.dat")
  /\ device call = dev.
Proof.
  unfold Reconstruct.reconstruct_internal.
  destruct (decide ((Posixpath.splitext image_filename).2 = str ".mrc"))
    as [Hext|Hext].
  - rewrite (bool_decide_eq_true_2 _ Hext). cbn [io_assert mbind outcome_bind].
    destruct (fint _) as [n|]; [|done]. cbn [mbind outcome_bind].
    destruct (simulation !! "inelastic_model") as [model|]; [|done].
    cbn [mbind outcome_bind]. by intros [= <-].
  - by rewrite (bool_decide_eq_false_2 _ Hext).
Qed.

(** The scratch file of the CTF correction is written beside the
    reconstruction: whatever the output name, [CORRECTED.dat] lands in the
    directory of the output, so two reconstructions into one directory
    share it. *)
Theorem corrected_file_beside_output image_filename rec_filename
    (microscope : Microscope F) simulation dev call :
  Reconstruct.reconstruct_internal ops fneg fint image_filename rec_filename
    microscope simulation dev = Return call ->
  Posixpath.dirname (corrected_filename call) = Posixpath.dirname rec_filename
  /\ forall rec_filename' image' microscope' simulation' dev' call',
       Reconstruct.reconstruct_internal ops fneg fint image' rec_filename'
         microscope' simulation' dev' = Return call' ->
       Posixpath.dirname rec_filename' = Posixpath.dirname rec_filename ->
       corrected_filename call' = corrected_filename call.
Proof.
  intros Hrun. apply reconstruct_internal_ok in Hrun as (_ & _ & _ & Hc & _).
  split.
  - rewrite Hc. apply dirname_join_dirname.
    intros Hin. apply list_elem_of_In in Hin. simpl in Hin.
    repeat destruct Hin as [Hin|Hin]; done.
  - intros rec' image' microscope' simulation' dev' call' Hrun' Hdir.
    apply reconstruct_internal_ok in Hrun' as (_ & _ & _ & Hc' & _).
    by rewrite Hc, Hc', Hdir.
Qed.

(** The driver takes an image only under the extension ".mrc" in lower
    case.  Every name it takes is one the file interface writes and reads
    as MRC; the file interface, which lowers the extension first, also
    takes names the driver refuses. *)
Theorem reconstruct_takes_mrc_names (float32 : F -> F)
    (mrcfile_mmap : list ascii -> outcome (MrcHandle F))
    (from_nexus : list ascii -> outcome (Reader F)) :
  (forall image_filename rec_filename microscope simulation dev call,
     Reconstruct.reconstruct_internal ops fneg fint image_filename rec_filename
       microscope simulation dev = Return call ->
     (forall shape vmin vmax,
        writer_class (Io.new ops image_filename shape vmin vmax)
        = Some "MrcFileWriter")
     /\ Io.open ops float32 mrcfile_mmap from_nexus image_filename
        = Io.from_mrcfile ops float32 mrcfile_mmap image_filename)
  /\ (forall stem c, c <> "."%char -> c <> "/"%char ->
        let image_filename := stem ++ c :: str ".MRC" in
        (forall shape vmin vmax,
           writer_class (Io.new ops image_filename shape vmin vmax)
           = Some "MrcFileWriter")
        /\ forall rec_filename microscope simulation dev,
             Reconstruct.reconstruct_internal ops fneg fint image_filename
               rec_filename microscope simulation dev
             = Throw (IoAssertionError ImageIsMrc)).
Proof.
  split.
  - intros image_filename rec_filename microscope simulation dev call Hrun.
    apply reconstruct_internal_ok in Hrun as (Hext & _).
    assert (Io.extension image_filename = str ".mrc") as Hlow
      by (unfold Io.extension; by rewrite Hext).
    split.
    + intros shape vmin vmax. unfold Io.new. by rewrite Hlow.
    + unfold Io.open, Io.from_file. by rewrite Hlow.
  - intros stem c Hdot Hsep image_filename.
    assert ((Posixpath.splitext image_filename).2 = str ".MRC") as Hext.
    { unfold image_filename.
      change (str ".MRC") with ("."%char :: str "MRC").
      rewrite splitext_named; [done|done|done| |];
        by apply not_elem_of_chars. }
    split.
    + intros shape vmin vmax. unfold Io.new, Io.extension. by rewrite Hext.
    + intros rec_filename microscope simulation dev.
      unfold Reconstruct.reconstruct_internal. by rewrite Hext.
Qed.

End ReconstructFacts.

(** * Properties of the writers' proxies *)

(** ** Indices and index grids *)

Lemma numpy_index_lt n j j' : numpy_index n j = Return j' -> j' < n.
Proof.
  unfold numpy_index.
  destruct ((0 <=? j) && (j <? Z.of_nat n))%Z eqn:H1.
  { apply andb_true_iff in H1 as [?%Z.leb_le ?%Z.ltb_lt]. intros [= <-]. lia. }
  destruct ((- Z.of_nat n <=? j) && (j <? 0))%Z eqn:H2; [|done].
  apply andb_true_iff in H2 as [?%Z.leb_le ?%Z.ltb_lt]. intros [= <-]. lia.
Qed.

Lemma numpy_index_throw n j e : numpy_index n j = Throw e -> e = IoIndexError.
Proof. unfold numpy_index. repeat case_match; congruence. Qed.

Lemma numpy_index_wraps n (j : Z) :
  (- Z.of_nat n <= j < 0)%Z ->
  numpy_index n j = numpy_index n (j + Z.of_nat n).
Proof.
  intros Hj. unfold numpy_index.
  replace ((0 <=? j) && (j <? Z.of_nat n))%Z with false by (symmetry; apply andb_false_iff; left; apply Z.leb_gt; lia).
  replace ((- Z.of_nat n <=? j) && (j <? 0))%Z with true
    by (symmetry; apply andb_true_iff; split; [apply Z.leb_le|apply Z.ltb_lt]; lia).
  replace ((0 <=? j + Z.of_nat n) && (j + Z.of_nat n <? Z.of_nat n))%Z with true
    by (symmetry; apply andb_true_iff; split; [apply Z.leb_le|apply Z.ltb_lt]; lia).
  done.
Qed.

Lemma mesh_x_lookup n j : j < n -> Io.mesh_x n !! j = Some [0; 1; 2].
Proof. intros Hj. unfold Io.mesh_x. by rewrite lookup_replicate_2. Qed.

Lemma mesh_y_lookup n j : j < n -> Io.mesh_y n !! j = Some [j; j; j].
Proof.
  intros Hj. unfold Io.mesh_y. rewrite list_lookup_fmap, lookup_seq_lt by done.
  done.
Qed.

Lemma io_for_each_app {A S} (body : S -> A -> outcome S) acc l1 l2 :
  io_for_each body acc (l1 ++ l2)
  = acc' ← io_for_each body acc l1; io_for_each body acc' l2.
Proof.
  revert acc. induction l1 as [|x l1 IH]; intros acc; [done|].
  cbn [io_for_each app]. destruct (body acc x) as [acc'|e]; [|done].
  cbn [mbind outcome_bind]. apply IH.
Qed.

(** ** What the position proxy does to its store *)

Section PositionProxy.
Context {F S : Type} (setitem_internal : S -> nat -> nat -> F -> outcome S).

Lemma position_setitem_row n store item data j :
  numpy_index n item = Return j ->
  Io.position_setitem setitem_internal n store (SetRow item data)
  = io_for_each (fun st '(j, i, d) => setitem_internal st j i d) store
      (zip (zip [j; j; j] [0; 1; 2]) data).
Proof.
  intros Hj. cbn [Io.position_setitem]. rewrite Hj. cbn [mbind outcome_bind].
  apply numpy_index_lt in Hj.
  by rewrite mesh_x_lookup, mesh_y_lookup.
Qed.

Lemma position_setitem_entry n store item0 item1 d j i :
  numpy_index n item0 = Return j ->
  numpy_index 3 item1 = Return i ->
  Io.position_setitem setitem_internal n store (SetEntry item0 item1 d)
  = setitem_internal store j i d.
Proof.
  intros Hj Hi. cbn [Io.position_setitem]. rewrite Hj, Hi.
  cbn [mbind outcome_bind].
  apply numpy_index_lt in Hj, Hi.
  rewrite mesh_x_lookup, mesh_y_lookup by done.
  destruct i as [|[|[|i]]]; [done..|lia].
Qed.

Lemma position_setitem_throw cast n store a e :
  assigned cast n a = Throw e ->
  Io.position_setitem setitem_internal n store a = Throw IoIndexError.
Proof.
  destruct a as [j data|j i d]; cbn [assigned Io.position_setitem].
  - destruct (numpy_index n j) as [j'|e'] eqn:Hj; [done|].
    apply numpy_index_throw in Hj as ->. done.
  - destruct (numpy_index n j) as [j'|e'] eqn:Hj.
    + cbn [mbind outcome_bind].
      destruct (numpy_index 3 i) as [i'|e'] eqn:Hi; [done|].
      apply numpy_index_throw in Hi as ->. done.
    + apply numpy_index_throw in Hj as ->. done.
Qed.

End PositionProxy.

(** ** The MRC writer and [Reader.from_mrcfile] *)

Lemma alter_as_insert {A} (f : A -> A) (l : list A) i x :
  l !! i = Some x -> alter f i l = <[i := f x]> l.
Proof.
  intros Hx. apply list_eq. intros k. destruct (decide (k = i)) as [->|Hne].
  - rewrite list_lookup_alter_eq, Hx.
    by rewrite list_lookup_insert_eq by by eapply lookup_lt_Some.
  - by rewrite list_lookup_alter_ne, list_lookup_insert_ne by done.
Qed.

Lemma fill_loop {A B} (g : A -> B) (header : list A) (z : B) :
  io_for_each
    (fun acc i =>
       match header !! i with
       | Some row => Io.set_array acc i (g row)
       | None => Throw IoIndexError
       end)
    (replicate (length header) z) (seq 0 (length header))
  = Return (g <$> header).
Proof.
  set (body := fun acc i => _).
  assert (forall k, k <= length header ->
            io_for_each body (replicate (length header) z) (seq 0 k)
            = Return (take k (g <$> header) ++ replicate (length header - k) z))
    as Hloop.
  { induction k as [|k IH]; intros Hk.
    - by rewrite Nat.sub_0_r.
    - rewrite seq_S, io_for_each_app, IH by lia. cbn [mbind outcome_bind].
      cbn [io_for_each plus]. unfold body at 1.
      destruct (lookup_lt_is_Some_2 header k ltac:(lia)) as [row Hrow].
      rewrite Hrow. unfold Io.set_array.
      assert (length (take k (g <$> header)) = k) as Hlen
        by (rewrite length_take, length_fmap; lia).
      rewrite length_app, Hlen, length_replicate.
      replace (k <? k + (length header - k)) with true
        by (symmetry; apply Nat.ltb_lt; lia).
      cbn [mbind outcome_bind]. f_equal.
      rewrite (take_S_r _ _ (g row)) by (by rewrite list_lookup_fmap, Hrow).
      replace (length header - k) with (S (length header - S k)) by lia.
      rewrite insert_app_r_alt by lia. rewrite Hlen, Nat.sub_diag.
      by rewrite <- app_assoc. }
  rewrite Hloop by done. rewrite Nat.sub_diag, app_nil_r.
  by rewrite take_ge by (by rewrite length_fmap).
Qed.

Section Mrc.
Context {F : Type} (ops : FloatOps F) (float64 float32 : F -> F).

Lemma read_back_contents (w : MrcFileWriter F) :
  writer_wf w ->
  read_back ops float32 w = Return (contents float32 (writer_handle w)).
Proof.
  intros (Hexttyp & Hdtype & Hlen & _). unfold read_back, Io.from_mrcfile.
  cbn [mbind outcome_bind]. rewrite Hexttyp, Hdtype, <- Hlen, Nat.eqb_refl.
  cbn [bool_decide decide_rel io_assert mbind outcome_bind].
  rewrite !bool_decide_eq_true_2 by done. cbn [io_assert mbind outcome_bind].
  rewrite (fill_loop (fun row => float32 (tilt_axis_angle row))).
  cbn [mbind outcome_bind].
  rewrite (fill_loop (fun row => (float32 (x_stage row), float32 (y_stage row),
                                  float32 (z_stage row)))).
  cbn [mbind outcome_bind]. unfold Io.Reader_init.
  rewrite !length_fmap, Hlen, Nat.eqb_refl. done.
Qed.

Lemma set_row_alter (update : FeiRow F -> FeiRow F) j (handle : MrcHandle F) :
  j < length (handle_extended_header handle) ->
  Io.set_row update j handle
  = Return (with_rows handle (alter update j (handle_extended_header handle))).
Proof.
  intros Hj. destruct (lookup_lt_is_Some_2 _ _ Hj) as [row Hrow].
  unfold Io.set_row. rewrite Hrow. by rewrite (alter_as_insert _ _ _ row).
Qed.

Lemma with_rows_same (handle : MrcHandle F) :
  with_rows handle (handle_extended_header handle) = handle.
Proof. by destruct handle. Qed.

Lemma mrc_position_rows (handle : MrcHandle F) n a j upd :
  n = length (handle_extended_header handle) ->
  assigned float64 n a = Return (j, upd) ->
  Io.position_setitem (Io.mrc_setitem_internal float64) n handle a
  = Return (with_rows handle
              (alter (row_update upd) j (handle_extended_header handle))).
Proof.
  intros -> Ha. destruct a as [item data|item0 item1 d]; cbn [assigned] in Ha.
  - destruct (numpy_index _ item) as [j'|] eqn:Hj; [|done].
    cbn [mbind outcome_bind] in Ha. simplify_eq.
    rewrite (position_setitem_row _ _ _ _ _ j) by done.
    apply numpy_index_lt in Hj.
    destruct data as [|x [|y [|z data]]]; cbn [zip zip_with io_for_each];
      unfold Io.mrc_setitem_internal; cbn [Nat.eqb];
      rewrite ?set_row_alter; cbn [mbind outcome_bind with_rows handle_extended_header];
      rewrite ?set_row_alter; cbn [mbind outcome_bind with_rows handle_extended_header];
      rewrite ?set_row_alter; cbn [mbind outcome_bind with_rows handle_extended_header
                                   handle_filename handle_exttyp handle_dtype handle_shape];
      rewrite ?length_alter; try done.
    + rewrite <- (with_rows_same handle) at 1. do 2 f_equal.
      symmetry. apply list_alter_id. by intros [].
    + by rewrite list_alter_alter_eq.
    + by rewrite !list_alter_alter_eq.
  - destruct (numpy_index _ item0) as [j'|] eqn:Hj; [|done].
    cbn [mbind outcome_bind] in Ha.
    destruct (numpy_index 3 item1) as [i'|] eqn:Hi; [|done].
    cbn [mbind outcome_bind] in Ha. simplify_eq.
    rewrite (position_setitem_entry _ _ _ _ _ _ j i') by done.
    apply numpy_index_lt in Hj, Hi. unfold Io.mrc_setitem_internal.
    destruct i' as [|[|[|i']]]; [..|lia]; cbn [Nat.eqb];
      by rewrite set_row_alter by done.
Qed.

End Mrc.

Section MrcRoundTrip.
Context {F : Type} (ops : FloatOps F) (float64 float32 : F -> F).

Lemma writer_wf_with_rows (w : MrcFileWriter F) rows :
  writer_wf w ->
  length rows = length (handle_extended_header (writer_handle w)) ->
  writer_wf {| writer_handle := with_rows (writer_handle w) rows;
               writer_rows := writer_rows w |}.
Proof.
  intros (Hexttyp & Hdtype & Hlen & Hrows) Hlength.
  unfold writer_wf. cbn. by rewrite Hlength.
Qed.

Lemma contents_row_update (handle : MrcHandle F) j upd upd' :
  (forall row, cast3 float32 (row_position (row_update upd row))
               = upd' (cast3 float32 (row_position row))) ->
  contents float32
    (with_rows handle (alter (row_update upd) j (handle_extended_header handle)))
  = {| reader_shape := reader_shape (contents float32 handle);
       reader_angle := reader_angle (contents float32 handle);
       reader_position := alter upd' j (reader_position (contents float32 handle)) |}.
Proof.
  intros Hupd. unfold contents. cbn. f_equal.
  - rewrite (list_fmap_alter _ _ (fun x => x)) by (by apply Forall_forall).
    by apply list_alter_id.
  - apply list_fmap_alter, Forall_forall. intros row _. apply Hupd.
Qed.

Lemma contents_set_tilt (handle : MrcHandle F) j d :
  contents float32
    (with_rows handle
       (alter (Io.set_tilt float64 d) j (handle_extended_header handle)))
  = {| reader_shape := reader_shape (contents float32 handle);
       reader_angle :=
         alter (fun _ => float32 (float64 d)) j
           (reader_angle (contents float32 handle));
       reader_position := reader_position (contents float32 handle) |}.
Proof.
  unfold contents. cbn. f_equal.
  - by apply list_fmap_alter, Forall_forall.
  - rewrite (list_fmap_alter _ _ (fun x => x)) by (by apply Forall_forall).
    by apply list_alter_id.
Qed.

Lemma angle_setitem_rows (w : MrcFileWriter F) item d j :
  numpy_index (length (handle_extended_header (writer_handle w))) item = Return j ->
  Io.angle_setitem float64 w item d
  = Return {| writer_handle :=
                with_rows (writer_handle w)
                  (alter (Io.set_tilt float64 d) j
                     (handle_extended_header (writer_handle w)));
              writer_rows := writer_rows w |}.
Proof.
  intros Hj. unfold Io.angle_setitem. rewrite Hj. cbn [mbind outcome_bind].
  apply numpy_index_lt in Hj. by rewrite set_row_alter by done.
Qed.

Lemma overwrite_cast3 (data : list F) p :
  cast3 float32 (overwrite float64 data p)
  = overwrite (float32 ∘ float64) data (cast3 float32 p).
Proof. by destruct data as [|x [|y [|z data]]]. Qed.

Lemma overwrite_coordinate_cast3 i (d : F) p :
  cast3 float32 (overwrite_coordinate float64 i d p)
  = overwrite_coordinate (float32 ∘ float64) i d (cast3 float32 p).
Proof. by destruct i as [|[|[|i]]]. Qed.

Lemma apply_write_wf (w w' : MrcFileWriter F) op :
  writer_wf w ->
  apply_write float64 w op = Return w' ->
  writer_wf w'
  /\ handle_shape (writer_handle w') = handle_shape (writer_handle w)
  /\ handle_filename (writer_handle w') = handle_filename (writer_handle w).
Proof.
  intros Hwf. destruct op as [item d|a]; cbn [apply_write].
  - destruct (numpy_index (length (handle_extended_header (writer_handle w))) item)
      as [j|e] eqn:Hj.
    + rewrite (angle_setitem_rows _ _ _ j) by done. intros [= <-].
      split; [|done]. apply writer_wf_with_rows; [done|]. by rewrite length_alter.
    + unfold Io.angle_setitem. by rewrite Hj.
  - unfold Io.mrc_position_setitem.
    destruct (assigned float64 (writer_rows w) a) as [[j upd]|e] eqn:Ha.
    + rewrite (mrc_position_rows float64 _ _ _ j upd); [|apply Hwf|done].
      cbn [mbind outcome_bind]. intros [= <-].
      split; [|done]. apply writer_wf_with_rows; [done|]. by rewrite length_alter.
    + by rewrite (position_setitem_throw _ float64 _ _ _ e).
Qed.

(** A position assigned through the proxy of an MRC writer is what
    [Reader.from_mrcfile] reads back.  [position[j] = data] and
    [position[j, i] = d] succeed for an index within [[-n, n)] and leave the
    file readable; reading then gives the positions read before, with row
    [j] overwritten by the values converted to float64 and then float32 (as
    many coordinates as [data] has, at most three), and the same angles and
    shape.  Any other index raises [IndexError]. *)
Theorem position_written_is_read (w : MrcFileWriter F) (a : assignment F) :
  writer_wf w ->
  match assigned (float32 ∘ float64) (writer_rows w) a with
  | Return (j, upd) =>
      exists w' r,
        Io.mrc_position_setitem float64 w a = Return w'
        /\ writer_wf w'
        /\ read_back ops float32 w = Return r
        /\ read_back ops float32 w'
           = Return {| reader_shape := reader_shape r;
                       reader_angle := reader_angle r;
                       reader_position := alter upd j (reader_position r) |}
  | Throw _ => Io.mrc_position_setitem float64 w a = Throw IoIndexError
  end.
Proof.
  intros Hwf.
  assert (forall j upd upd',
            assigned float64 (writer_rows w) a = Return (j, upd) ->
            (forall p, cast3 float32 (upd p) = upd' (cast3 float32 p)) ->
            exists w' r,
              Io.mrc_position_setitem float64 w a = Return w'
              /\ writer_wf w'
              /\ read_back ops float32 w = Return r
              /\ read_back ops float32 w'
                 = Return {| reader_shape := reader_shape r;
                             reader_angle := reader_angle r;
                             reader_position := alter upd' j (reader_position r) |})
    as Hstep.
  { intros j upd upd' Ha Hupd. eexists _, _. unfold Io.mrc_position_setitem.
    rewrite (mrc_position_rows float64 _ _ _ j upd); [|apply Hwf|done].
    cbn [mbind outcome_bind]. split; [done|].
    assert (writer_wf
              {| writer_handle :=
                   with_rows (writer_handle w)
                     (alter (row_update upd) j
                        (handle_extended_header (writer_handle w)));
                 writer_rows := writer_rows w |}) as Hwf'
      by (apply writer_wf_with_rows; [done|]; by rewrite length_alter).
    split; [done|]. split; [by apply read_back_contents|].
    rewrite read_back_contents by done. f_equal.
    apply contents_row_update. intros row. apply Hupd. }
  destruct a as [item data|item0 item1 d]; cbn [assigned].
  - destruct (numpy_index (writer_rows w) item) as [j|e] eqn:Hj;
      cbn [mbind outcome_bind].
    + apply (Hstep j (overwrite float64 data)).
      * cbn [assigned]. by rewrite Hj.
      * apply overwrite_cast3.
    + unfold Io.mrc_position_setitem.
      rewrite (position_setitem_throw _ float64 _ _ _ e); [done|].
      cbn [assigned]. by rewrite Hj.
  - destruct (numpy_index (writer_rows w) item0) as [j|e] eqn:Hj;
      cbn [mbind outcome_bind].
    + destruct (numpy_index 3 item1) as [i|e] eqn:Hi; cbn [mbind outcome_bind].
      * apply (Hstep j (overwrite_coordinate float64 i d)).
        -- cbn [assigned]. by rewrite Hj, Hi.
        -- apply overwrite_coordinate_cast3.
      * unfold Io.mrc_position_setitem.
        rewrite (position_setitem_throw _ float64 _ _ _ e); [done|].
        cbn [assigned]. by rewrite Hj, Hi.
    + unfold Io.mrc_position_setitem.
      rewrite (position_setitem_throw _ float64 _ _ _ e); [done|].
      cbn [assigned]. by rewrite Hj.
Qed.

(** An angle assigned through the proxy of an MRC writer is what
    [Reader.from_mrcfile] reads back: [angle[j] = d] with [j] within
    [[-n, n)] replaces the angle of that image by [d], converted to float64
    and then float32, and leaves the positions and the shape as they were;
    any other index raises [IndexError]. *)
Theorem angle_written_is_read (w : MrcFileWriter F) (item : Z) (d : F) :
  writer_wf w ->
  match numpy_index (writer_rows w) item with
  | Return j =>
      exists w' r,
        Io.angle_setitem float64 w item d = Return w'
        /\ writer_wf w'
        /\ read_back ops float32 w = Return r
        /\ read_back ops float32 w'
           = Return {| reader_shape := reader_shape r;
                       reader_angle := <[j := float32 (float64 d)]> (reader_angle r);
                       reader_position := reader_position r |}
  | Throw _ => Io.angle_setitem float64 w item d = Throw IoIndexError
  end.
Proof.
  intros Hwf. assert (Hrows := Hwf). destruct Hrows as (_ & _ & _ & Hrows).
  rewrite Hrows.
  destruct (numpy_index _ item) as [j|e] eqn:Hj.
  - eexists _, _. rewrite (angle_setitem_rows _ _ _ j) by done.
    split; [done|].
    assert (writer_wf
              {| writer_handle :=
                   with_rows (writer_handle w)
                     (alter (Io.set_tilt float64 d) j
                        (handle_extended_header (writer_handle w)));
                 writer_rows := writer_rows w |}) as Hwf'
      by (apply writer_wf_with_rows; [done|]; by rewrite length_alter).
    split; [done|]. split; [by apply read_back_contents|].
    rewrite read_back_contents by done. f_equal.
    rewrite list_insert_alter. apply contents_set_tilt.
  - unfold Io.angle_setitem. rewrite Hj.
    by apply numpy_index_throw in Hj as ->.
Qed.

(** A file made by [MrcFileWriter.__init__] reads back, before anything
    is written, with the shape it was created with and all angles and
    positions zero (the float32 of 0.0): none of the assertions of
    [Reader.from_mrcfile] and [Reader.__init__] fails on it. *)
Theorem fresh_file_reads_zero (filename : list ascii) (shape : nat * nat * nat) :
  read_back ops float32 (Io.MrcFileWriter_init ops filename shape)
  = Return {| reader_shape := shape;
              reader_angle := replicate shape.1.1 (float32 (fzero ops));
              reader_position :=
                replicate shape.1.1
                  (float32 (fzero ops), float32 (fzero ops), float32 (fzero ops)) |}.
Proof.
  rewrite read_back_contents.
  - unfold contents. cbn. by rewrite !fmap_replicate.
  - unfold writer_wf. cbn. by rewrite length_replicate.
Qed.

(** Whatever is assigned through the two proxies of a new MRC writer, in
    any order, a run of assignments that ends without an exception leaves a
    file that [Reader.from_mrcfile] accepts: the reader has the shape the
    writer was created with and one angle and one position per image. *)
Theorem writes_keep_file_readable (filename : list ascii)
    (shape : nat * nat * nat) (writes : list (write F)) (w : MrcFileWriter F) :
  io_for_each (apply_write float64) (Io.MrcFileWriter_init ops filename shape) writes
  = Return w ->
  exists r,
    read_back ops float32 w = Return r
    /\ reader_shape r = shape
    /\ length (reader_angle r) = shape.1.1
    /\ length (reader_position r) = shape.1.1.
Proof.
  assert (forall w0 : MrcFileWriter F,
            writer_wf w0 ->
            io_for_each (apply_write float64) w0 writes = Return w ->
            writer_wf w
            /\ handle_shape (writer_handle w) = handle_shape (writer_handle w0))
    as Hinv.
  { induction writes as [|op writes IH]; intros w0 Hwf; cbn [io_for_each].
    - by intros [= <-].
    - destruct (apply_write float64 w0 op) as [w1|e] eqn:Hop; [|done].
      cbn [mbind outcome_bind]. intros Hrest.
      destruct (apply_write_wf _ _ _ Hwf Hop) as (Hwf1 & Hshape & _).
      destruct (IH _ Hwf1 Hrest) as [Hwf' Hshape']. split; [done|congruence]. }
  intros Hrun.
  assert (writer_wf (Io.MrcFileWriter_init ops filename shape)) as Hinit
    by (unfold writer_wf; cbn; by rewrite length_replicate).
  destruct (Hinv _ Hinit Hrun) as [Hwf Hshape].
  cbn in Hshape. eexists. split; [by apply read_back_contents|].
  destruct Hwf as (_ & _ & Hlen & _). unfold contents. cbn.
  rewrite !length_fmap, Hlen, Hshape. done.
Qed.

End MrcRoundTrip.

(** ** The NeXus writer *)

Lemma zip_alter_l {A B} (f : A -> A) j (l : list A) (k : list B) :
  zip (alter f j l) k = alter (fun p => (f p.1, p.2)) j (zip l k).
Proof.
  revert j k. induction l as [|x l IH]; intros [|j] [|y k]; try done.
  cbn. f_equal. apply IH.
Qed.

Lemma zip_alter_r {A B} (f : B -> B) j (l : list A) (k : list B) :
  zip l (alter f j k) = alter (fun p => (p.1, f p.2)) j (zip l k).
Proof.
  revert j k. induction l as [|x l IH]; intros [|j] [|y k]; try done.
  cbn. f_equal. apply IH.
Qed.

Section Nexus.
Context {F : Type} (float32 : F -> F).

Lemma nexus_setitem_internal_ok (w : NexusWriter F) j i d :
  nexus_wf w -> j < nexus_rows w -> i < 3 ->
  exists w',
    Io.nexus_setitem_internal float32 w j i d = Return w'
    /\ nexus_wf w'
    /\ nexus_rows w' = nexus_rows w
    /\ nexus_positions w'
       = alter (overwrite_coordinate float32 i d) j (nexus_positions w)
    /\ rotation_angle w' = rotation_angle w
    /\ image_key w' = image_key w.
Proof.
  intros (Hx & Hy & Hz) Hj Hi. unfold Io.nexus_setitem_internal, Io.set_dataset.
  destruct i as [|[|[|i]]]; [..|lia]; cbn [Nat.eqb].
  - rewrite Hx. replace (j <? nexus_rows w) with true by (symmetry; by apply Nat.ltb_lt).
    cbn [mbind outcome_bind]. eexists. split; [done|].
    unfold nexus_wf, nexus_positions. cbn. rewrite length_insert.
    repeat split; try done.
    rewrite list_insert_alter, !zip_alter_l.
    apply list_alter_ext; [|done]. by intros [[x y] z].
  - rewrite Hy. replace (j <? nexus_rows w) with true by (symmetry; by apply Nat.ltb_lt).
    cbn [mbind outcome_bind]. eexists. split; [done|].
    unfold nexus_wf, nexus_positions. cbn. rewrite length_insert.
    repeat split; try done.
    rewrite list_insert_alter, zip_alter_r, zip_alter_l.
    apply list_alter_ext; [|done]. by intros [[x y] z].
  - rewrite Hz. replace (j <? nexus_rows w) with true by (symmetry; by apply Nat.ltb_lt).
    cbn [mbind outcome_bind]. eexists. split; [done|].
    unfold nexus_wf, nexus_positions. cbn. rewrite length_insert.
    repeat split; try done.
    rewrite list_insert_alter, zip_alter_r.
    apply list_alter_ext; [|done]. by intros [[x y] z].
Qed.

(** What a position assigned through the proxy of a NeXus writer does
    to the three translation datasets, seen as [Reader.from_nexus] puts them
    together (one (x, y, z) per image): for an index within [[-n, n)] the
    assignment succeeds and overwrites row [j] with the values converted to
    float32 (as many coordinates as [data] has, at most three); the other
    rows, the rotation angles and the image keys stay as they were and the
    datasets keep their length.  Any other index raises [IndexError]. *)
Theorem nexus_position_assigned (w : NexusWriter F) (a : assignment F) :
  nexus_wf w ->
  match assigned float32 (nexus_rows w) a with
  | Return (j, upd) =>
      exists w',
        Io.nexus_position_setitem float32 w a = Return w'
        /\ nexus_wf w'
        /\ nexus_rows w' = nexus_rows w
        /\ nexus_positions w' = alter upd j (nexus_positions w)
        /\ rotation_angle w' = rotation_angle w
        /\ image_key w' = image_key w
  | Throw _ => Io.nexus_position_setitem float32 w a = Throw IoIndexError
  end.
Proof.
  intros Hwf. unfold Io.nexus_position_setitem.
  destruct a as [item data|item0 item1 d]; cbn [assigned].
  - destruct (numpy_index (nexus_rows w) item) as [j|e] eqn:Hj;
      cbn [mbind outcome_bind].
    + rewrite (position_setitem_row _ _ _ _ _ j) by done.
      apply numpy_index_lt in Hj.
      destruct data as [|x [|y [|z data]]]; cbn [zip zip_with io_for_each].
      * exists w. split_and!; try done.
        symmetry. by apply list_alter_id.
      * destruct (nexus_setitem_internal_ok w j 0 x) as (w1 & -> & Hwf1 & Hrows1 & Hp1 & Ha1 & Hk1);
          [done|done|lia|].
        cbn [mbind outcome_bind]. exists w1. by rewrite Hp1.
      * destruct (nexus_setitem_internal_ok w j 0 x) as (w1 & -> & Hwf1 & Hrows1 & Hp1 & Ha1 & Hk1);
          [done|done|lia|].
        cbn [mbind outcome_bind].
        destruct (nexus_setitem_internal_ok w1 j 1 y) as (w2 & -> & Hwf2 & Hrows2 & Hp2 & Ha2 & Hk2);
          [done|lia|lia|].
        cbn [mbind outcome_bind]. exists w2.
        rewrite Hp2, Hp1, list_alter_alter_eq.
        split_and!; try done; congruence.
      * destruct (nexus_setitem_internal_ok w j 0 x) as (w1 & -> & Hwf1 & Hrows1 & Hp1 & Ha1 & Hk1);
          [done|done|lia|].
        cbn [mbind outcome_bind].
        destruct (nexus_setitem_internal_ok w1 j 1 y) as (w2 & -> & Hwf2 & Hrows2 & Hp2 & Ha2 & Hk2);
          [done|lia|lia|].
        cbn [mbind outcome_bind].
        destruct (nexus_setitem_internal_ok w2 j 2 z) as (w3 & -> & Hwf3 & Hrows3 & Hp3 & Ha3 & Hk3);
          [done|lia|lia|].
        cbn [mbind outcome_bind]. exists w3.
        rewrite Hp3, Hp2, Hp1, !list_alter_alter_eq.
        split_and!; try done; congruence.
    + rewrite (position_setitem_throw _ float32 _ _ _ e); [done|].
      cbn [assigned]. by rewrite Hj.
  - destruct (numpy_index (nexus_rows w) item0) as [j|e] eqn:Hj;
      cbn [mbind outcome_bind].
    + destruct (numpy_index 3 item1) as [i|e] eqn:Hi; cbn [mbind outcome_bind].
      * rewrite (position_setitem_entry _ _ _ _ _ _ j i) by done.
        apply numpy_index_lt in Hj, Hi.
        by apply nexus_setitem_internal_ok.
      * rewrite (position_setitem_throw _ float32 _ _ _ e); [done|].
        cbn [assigned]. by rewrite Hj, Hi.
    + rewrite (position_setitem_throw _ float32 _ _ _ e); [done|].
      cbn [assigned]. by rewrite Hj.
Qed.

End Nexus.

(** * More on the extraction and the averaging *)

Section DefaultSample.
Context {F : Type} (ops : FloatOps F) (R : NumpyRandom).

Lemma full_sample_is_permutation (l : list nat) N :
  length l = N -> NoDup l -> Forall (fun i => i < N) l -> l ≡ₚ seq 0 N.
Proof.
  intros Hlen Hnd Hlt. apply submseteq_length_Permutation.
  - apply NoDup_submseteq; [done|]. intros i Hi.
    apply elem_of_seq. rewrite Forall_forall in Hlt. specialize (Hlt i Hi). lia.
  - by rewrite length_seq, Hlen.
Qed.

(** Left at its default (0, or [None], or any non-positive number),
    [num_particles] means every particle: with a generator that samples
    without replacement and at least two particles in the store, the run
    ends with the files of two groups, [half_map half1] and
    [half_map half2] (each the accumulated sum of the stored cubes at the
    indices of its group, divided by the group's count), and the two groups
    hold every particle index exactly once: the first [N // 2] of the drawn
    order make the first half-map and the rest the second. *)
Theorem average_default_uses_every_particle
    (Hchoice : samples_without_replacement R)
    (particles : H5File F) (num_particles : option Z) g :
  let N := length (data particles) in
  2 <= N ->
  (forall n, num_particles = Some n -> (n <= 0)%Z) ->
  exists indices g' half1 half2,
    choice R g N N = (Ok indices, g')
    /\ half1 = take (N / 2) indices
    /\ half2 = drop (N / 2) indices
    /\ average_extracted_particles ops R particles num_particles g
       = (Ok (half_map ops particles half1, half_map ops particles half2), g')
    /\ average_extracted_particles ops R particles num_particles g
       = (average_indices ops particles (N / 2) indices, g')
    /\ split_indices (N / 2) indices = [half1; half2]
    /\ half1 ++ half2 ≡ₚ seq 0 N
    /\ length half1 = N / 2
    /\ length half2 = N - N / 2.
Proof.
  intros N HN Hnum.
  assert (effective_num_particles num_particles N = Z.of_nat N) as Heff.
  { unfold effective_num_particles. destruct num_particles as [n|]; [|done].
    specialize (Hnum n eq_refl). by destruct (Z.leb_spec n 0); [|lia]. }
  rewrite average_extracted_particles_checked by (fold N; lia).
  fold N. rewrite Heff, Nat2Z.id.
  replace (Z.to_nat (Z.of_nat N / 2)) with (N / 2)
    by (change 2%Z with (Z.of_nat 2);
        by rewrite <- (Nat2Z.inj_div N 2), Nat2Z.id).
  destruct (Hchoice g N N) as [Hsample _].
  destruct Hsample as (indices & Hc & Hlen & Hnd & Hlt); [done|].
  destruct (choice R g N N) as [r g'] eqn:Hdraw. simpl in Hc. subst r.
  assert (N / 2 <= N) as Hhalf by (apply Nat.Div0.div_le_upper_bound; lia).
  exists indices, g', (take (N / 2) indices), (drop (N / 2) indices).
  split; [done|]. split; [done|]. split; [done|].
  split; [by rewrite average_indices_groups|].
  split; [done|]. split; [done|].
  rewrite take_drop, length_take, length_drop, Hlen.
  split; [by apply full_sample_is_permutation|]. lia.
Qed.

Lemma average_indices_total (particles : H5File F) h indices :
  Forall (fun i => i < length (data particles)) indices ->
  exists m1 m2,
    average_indices ops particles h indices = Ok (m1, m2)
    /\ mrc_voxel_size m1 = voxel_size particles
    /\ mrc_voxel_size m2 = voxel_size particles
    /\ shape (mrc_data m1) = data_shape particles
    /\ shape (mrc_data m2) = data_shape particles.
Proof.
  intros Hlt. unfold average_indices, split_indices. cbn [sum_halves].
  destruct (sum_particles_total ops (data particles) 0
              ([zeros ops (data_shape particles); zeros ops (data_shape particles)],
               [fzero ops; fzero ops])
              (take h indices)) as [acc1 ->];
    [by apply Forall_take|].
  cbn [mbind result_bind].
  destruct (sum_particles_total ops (data particles) 1 acc1 (drop h indices))
    as [[half num'] ->]; [by apply Forall_drop|].
  cbn [mbind result_bind]. by eexists _, _.
Qed.

End DefaultSample.

Section Pipeline.
Context {F O : Type} (ops : FloatOps F) (R : NumpyRandom).
Context (voxel_centre : Task F O -> Z * Z * Z).

Lemma extracted_store completion (sample : Sample F O)
    (tomo_file : TomoFile F) particle_size f :
  _extract_Config ops voxel_centre completion sample tomo_file particle_size
    = Ok (Some f) ->
  exists m hl,
    molecules sample = [m]
    /\ half_length ops (tomo_voxel_size tomo_file) (atoms m) particle_size = Ok hl
    /\ (0 <= 2 * hl)%Z
    /\ voxel_size f = tomo_voxel_size tomo_file
    /\ data_shape f = (Z.to_nat (2 * hl), Z.to_nat (2 * hl), Z.to_nat (2 * hl))
    /\ store_wf f.
Proof.
  intros Hrun.
  apply _extract_Config_ok in Hrun as (m & centre & size & f' & Hm & Hf & Hrun).
  simplify_eq.
  apply extract_molecule_ok in Hrun
    as (hl & ps & os & h0 & tasks & results & num
        & Hhl & Hlen & Hsort & Hcreate & Htasks & Hresults & Hloop).
  apply create_store_ok in Hcreate as (Hpos & _ & _ & ->).
  apply for_each_append_ok in Hloop as (_ & _ & Hshape & Hvoxel & Hwf); [|done].
  exists m, hl. split_and!; try done. apply Hwf. constructor.
Qed.

(** The particle file the extraction leaves is one the averaging takes.
    When [_extract_Config] ends without an exception and the file holds at
    least two cubes, [average_extracted_particles] on that file, with
    [num_particles] at its default and a generator that samples without
    replacement, ends without an exception; both half-maps carry the voxel
    size of the reconstruction the particles were cut from and have the cube
    shape (L, L, L), L = 2 * half_length. *)
Theorem extract_then_average (Hchoice : samples_without_replacement R)
    completion (sample : Sample F O) (tomo_file : TomoFile F) particle_size f g :
  _extract_Config ops voxel_centre completion sample tomo_file particle_size
    = Ok (Some f) ->
  2 <= length (data f) ->
  exists m hl m1 m2 g',
    molecules sample = [m]
    /\ half_length ops (tomo_voxel_size tomo_file) (atoms m) particle_size = Ok hl
    /\ average_extracted_particles ops R f default_num_particles g
       = (Ok (m1, m2), g')
    /\ mrc_voxel_size m1 = tomo_voxel_size tomo_file
    /\ mrc_voxel_size m2 = tomo_voxel_size tomo_file
    /\ let L := Z.to_nat (2 * hl) in
       shape (mrc_data m1) = (L, L, L) /\ shape (mrc_data m2) = (L, L, L).
Proof.
  intros Hrun Hcubes.
  apply extracted_store in Hrun as (m & hl & Hm & Hhl & _ & Hvoxel & Hshape & _).
  exists m, hl.
  rewrite average_extracted_particles_checked by (cbn; lia).
  set (N := length (data f)) in *.
  destruct (Hchoice g N (Z.to_nat (effective_num_particles default_num_particles N)))
    as [Hsample _].
  destruct Hsample as (indices & Hc & _ & _ & Hlt); [cbn; lia|].
  destruct (choice R g N _) as [r g'] eqn:Hdraw. simpl in Hc. subst r.
  destruct (average_indices_total ops f
              (Z.to_nat (effective_num_particles default_num_particles N / 2))
              indices Hlt)
    as (m1 & m2 & -> & Hv1 & Hv2 & Hs1 & Hs2).
  exists m1, m2, g'. split; [done|]. split; [done|]. split; [done|].
  split; [congruence|]. split; [congruence|]. cbn zeta. split; congruence.
Qed.

End Pipeline.

(** ** What the loop over the results writes *)

Lemma bind_seq_blocks {A} (G : nat -> list A) (g : nat -> A) a b :
  (forall i, i < a -> G i = (fun j => g (i * b + j)) <$> seq 0 b) ->
  seq 0 a ≫= G = g <$> seq 0 (a * b).
Proof.
  induction a as [|a IH]; intros HG; [done|].
  rewrite seq_S, bind_app, IH by (intros; apply HG; lia).
  cbn [plus]. rewrite bind_singleton, HG by lia.
  replace (S a * b) with (a * b + b) by lia.
  rewrite seq_app, fmap_app. f_equal. cbn [plus].
  replace (seq (a * b) b) with (Nat.add (a * b) <$> seq 0 b)
    by (rewrite fmap_add_seq; f_equal; lia).
  by rewrite <- list_fmap_compose.
Qed.

Lemma fmap_lookup_seq {A} (z : A) (l : list A) :
  (fun m => default z (l !! m)) <$> seq 0 (length l) = l.
Proof.
  apply list_eq. intros i. rewrite list_lookup_fmap.
  destruct (decide (i < length l)) as [Hi|Hi].
  - rewrite lookup_seq_lt by done. cbn.
    by destruct (lookup_lt_is_Some_2 l i Hi) as [x ->].
  - rewrite lookup_seq_ge by lia. cbn. symmetry. apply lookup_ge_None. lia.
Qed.

Section ArrivalOrder.
Context {F : Type} (ops : FloatOps F).

(** An array of the selection's own shape is written as it is. *)
Lemma broadcast_to_same (a : ndarray F) :
  length (values a) = volume (shape a) ->
  broadcast_to ops (shape a) a = Ok (values a).
Proof.
  unfold broadcast_to, volume. destruct (shape a) as [[s0 s1] s2]. intros Hlen.
  rewrite decide_True by auto. f_equal.
  etrans; [|apply (fmap_lookup_seq (fzero ops))]. rewrite Hlen.
  rewrite <- Nat.mul_assoc.
  apply bind_seq_blocks. intros i _.
  apply (bind_seq_blocks _
           (fun m => default (fzero ops) (values a !! (i * (s1 * s2) + m)))).
  intros j _.
  induction (seq 0 s2) as [|k ks IH]; [done|].
  rewrite bind_cons, IH. cbn [app fmap list_fmap]. f_equal.
  unfold broadcast_index. rewrite !decide_True by done. do 2 f_equal. lia.
Qed.

Lemma append_particle_same (h : H5File F) res :
  shape res.2 = data_shape h ->
  length (values res.2) = volume (shape res.2) ->
  append_particle ops (h, length (data h)) res
  = Ok ({| voxel_size := voxel_size h;
           data_shape := data_shape h;
           data := data h ++ [ffloat32 ops <$> values res.2] |},
        length (data h) + 1).
Proof.
  intros Hshape Hlen. unfold append_particle. destruct res as [half_index dat].
  cbn [snd] in *. rewrite <- Hshape, broadcast_to_same by done.
  cbn [mbind result_bind]. do 3 f_equal.
  rewrite resize_add_eq by done. cbn [replicate].
  rewrite <- (Nat.add_0_r (length (data h))) at 1.
  by rewrite insert_app_r.
Qed.

Lemma for_each_append_same results (h : H5File F) :
  Forall (fun res => shape res.2 = data_shape h
                     /\ length (values res.2) = volume (shape res.2)) results ->
  for_each (append_particle ops) (h, length (data h)) results
  = Ok ({| voxel_size := voxel_size h;
           data_shape := data_shape h;
           data := data h
                   ++ ((fun res => ffloat32 ops <$> values res.2) <$> results) |},
        length (data h) + length results).
Proof.
  intros Hall. revert h Hall.
  induction results as [|res results IH]; intros h Hall.
  - cbn. rewrite app_nil_r, Nat.add_0_r. by destruct h.
  - apply Forall_cons in Hall as [[Hshape Hlen] Hall].
    cbn [for_each]. rewrite append_particle_same by done.
    cbn [mbind result_bind].
    specialize (IH {| voxel_size := voxel_size h; data_shape := data_shape h;
                      data := data h ++ [ffloat32 ops <$> values res.2] |} Hall).
    cbn [data voxel_size data_shape] in IH.
    rewrite length_app in IH. cbn [length] in IH. rewrite IH.
    rewrite <- app_assoc. cbn.
    do 2 f_equal. lia.
Qed.

(** The loop over the finished tasks stores each cube, converted to the
    float32 of the dataset and otherwise unchanged, in the order the results
    arrive: when every result is a cube of the shape the dataset was created
    with, the loop over them ends without an exception, row [k] of the file
    holds the values of the [k]-th result handed to the loop, each converted
    to float32, and the counter equals their number.  The half index that
    comes with each result is not stored. *)
Theorem rows_in_arrival_order (voxel : F * F * F) (box : Z) (h0 : H5File F)
    (results : list (nat * ndarray F)) :
  create_store voxel (box, box, box) = Ok h0 ->
  Forall (fun res => shape res.2 = data_shape h0
                     /\ length (values res.2) = volume (shape res.2)) results ->
  for_each (append_particle ops) (h0, 0) results
  = Ok ({| voxel_size := voxel;
           data_shape := (Z.to_nat box, Z.to_nat box, Z.to_nat box);
           data := (fun res => ffloat32 ops <$> values res.2) <$> results |},
        length results).
Proof.
  intros Hcreate Hall. apply create_store_ok in Hcreate as (_ & _ & _ & ->).
  exact (for_each_append_same results
           {| voxel_size := voxel;
              data_shape := (Z.to_nat box, Z.to_nat box, Z.to_nat box);
              data := [] |} Hall).
Qed.

End ArrivalOrder.

(** * The further properties on the test data *)

Lemma dispatch_ignores_case_witness :
  Io.extension (str "Scan.MRC") = Io.extension (str "scan.mrc")
  /\ writer_class (Io.new binary64 (str "Scan.MRC") (2, 4, 4) None None)
     = writer_class (Io.new binary64 (str "scan.mrc") (2, 4, 4) None None).
Proof.
  apply (dispatch_ignores_case binary64 (str "Scan.MRC") (str "scan.mrc")
           (2, 4, 4) None None).
  - vm_compute. reflexivity.
  - vm_compute. reflexivity.
  - vm_compute. reflexivity.
Defined.

Lemma corrected_file_beside_output_witness :
  Posixpath.dirname (corrected_filename Files.call)
  = Posixpath.dirname (str "out/rec.mrc")
  /\ forall rec_filename' image' microscope' simulation' dev' call',
       Reconstruct.reconstruct_internal binary64 PrimFloat.opp float_int image'
         rec_filename' microscope' simulation' dev' = Return call' ->
       Posixpath.dirname rec_filename' = Posixpath.dirname (str "out/rec.mrc") ->
       corrected_filename call' = corrected_filename Files.call.
Proof.
  apply (corrected_file_beside_output binary64 PrimFloat.opp float_int
           (str "data/tilt.mrc") (str "out/rec.mrc") Files.microscope
           Files.simulation gpu Files.call).
  vm_compute. reflexivity.
Defined.

Lemma position_written_is_read_witness :
  exists w' r,
    Io.mrc_position_setitem Files.float64 Files.writer Files.row = Return w'
    /\ writer_wf w'
    /\ read_back binary64 to_float32 Files.writer = Return r
    /\ read_back binary64 to_float32 w'
       = Return {| reader_shape := reader_shape r;
                   reader_angle := reader_angle r;
                   reader_position :=
                     alter (overwrite (to_float32 ∘ Files.float64)
                              [1.5%float; 2.5%float]) 1 (reader_position r) |}.
Proof.
  apply (position_written_is_read binary64 Files.float64 to_float32
           Files.writer Files.row).
  repeat split.
Defined.

Lemma angle_written_is_read_witness :
  exists w' r,
    Io.angle_setitem Files.float64 Files.writer (-2) 1.5%float = Return w'
    /\ writer_wf w'
    /\ read_back binary64 to_float32 Files.writer = Return r
    /\ read_back binary64 to_float32 w'
       = Return {| reader_shape := reader_shape r;
                   reader_angle :=
                     <[0 := to_float32 (Files.float64 1.5%float)]> (reader_angle r);
                   reader_position := reader_position r |}.
Proof.
  apply (angle_written_is_read binary64 Files.float64 to_float32
           Files.writer (-2) 1.5%float).
  repeat split.
Defined.

Lemma writes_keep_file_readable_witness :
  exists r,
    read_back binary64 to_float32 Files.written = Return r
    /\ reader_shape r = (2, 4, 4)
    /\ length (reader_angle r) = 2
    /\ length (reader_position r) = 2.
Proof.
  apply (writes_keep_file_readable binary64 Files.float64 to_float32
           (str "tilt.mrc") (2, 4, 4) Files.writes Files.written).
  vm_compute. reflexivity.
Defined.

Lemma nexus_position_assigned_witness :
  exists w',
    Io.nexus_position_setitem to_float32 Files.nexus Files.row = Return w'
    /\ nexus_wf w'
    /\ nexus_rows w' = nexus_rows Files.nexus
    /\ nexus_positions w'
       = alter (overwrite to_float32 [1.5%float; 2.5%float]) 1
           (nexus_positions Files.nexus)
    /\ rotation_angle w' = rotation_angle Files.nexus
    /\ image_key w' = image_key Files.nexus.
Proof.
  apply (nexus_position_assigned to_float32 Files.nexus Files.row).
  repeat split.
Defined.

Lemma average_default_uses_every_particle_witness :
  exists indices g' half1 half2,
    choice shuffle_random ([3; 1; 4; 1; 5] : rng shuffle_random) 5 5
    = (Ok indices, g')
    /\ half1 = take 2 indices
    /\ half2 = drop 2 indices
    /\ average_extracted_particles binary64 shuffle_random Data.store5
         default_num_particles [3; 1; 4; 1; 5]
       = (Ok (half_map binary64 Data.store5 half1,
              half_map binary64 Data.store5 half2), g')
    /\ average_extracted_particles binary64 shuffle_random Data.store5
         default_num_particles [3; 1; 4; 1; 5]
       = (average_indices binary64 Data.store5 2 indices, g')
    /\ split_indices 2 indices = [half1; half2]
    /\ half1 ++ half2 ≡ₚ seq 0 5
    /\ length half1 = 2
    /\ length half2 = 3.
Proof.
  apply (average_default_uses_every_particle binary64 shuffle_random
           shuffle_random_samples Data.store5 default_num_particles
           [3; 1; 4; 1; 5]).
  - simpl. lia.
  - intros n [= <-]. lia.
Defined.

Lemma extract_then_average_witness :
  exists m hl m1 m2 g',
    molecules Data.sample = [m]
    /\ half_length binary64 (tomo_voxel_size Data.tomo) (atoms m) 2 = Ok hl
    /\ average_extracted_particles binary64 shuffle_random Data.extracted
         default_num_particles [3; 1; 4; 1; 5]
       = (Ok (m1, m2), g')
    /\ mrc_voxel_size m1 = tomo_voxel_size Data.tomo
    /\ mrc_voxel_size m2 = tomo_voxel_size Data.tomo
    /\ let L := Z.to_nat (2 * hl) in
       shape (mrc_data m1) = (L, L, L) /\ shape (mrc_data m2) = (L, L, L).
Proof.
  apply (extract_then_average binary64 shuffle_random Data.centre_of
           shuffle_random_samples Data.completion Data.sample Data.tomo 2
           Data.extracted [3; 1; 4; 1; 5]).
  - vm_compute. reflexivity.
  - simpl. lia.
Defined.

Lemma rows_in_arrival_order_witness :
  for_each (append_particle binary64)
    ({| voxel_size := (1%float, 1%float, 1%float);
        data_shape := (2, 2, 2); data := [] |}, 0) Files.results
  = Ok ({| voxel_size := (1%float, 1%float, 1%float);
           data_shape := (2, 2, 2);
           data := (fun res => ffloat32 binary64 <$> values res.2)
                     <$> Files.results |},
        length Files.results).
Proof.
  apply (rows_in_arrival_order binary64 (1%float, 1%float, 1%float) 2
           {| voxel_size := (1%float, 1%float, 1%float);
              data_shape := (2, 2, 2); data := [] |} Files.results).
  - reflexivity.
  - repeat constructor.
Defined.
